(** * Yandex SpeechKit plugin: speech-to-text and text-to-speech tools

    A shallow embedding of [tools/speech_to_text.py],
    [tools/text_to_speech.py] and [provider/yandex_speechkit.py].

    - Python values the tools inspect by duck typing are an inductive type
      [pyval]; [hasattr], truthiness, [dict.get] and [or] are functions on it.
    - A method body is a computation in the monad [M]: it either returns a
      value or raises a Python exception, and it leaves a trace of the
      effects it performed (library calls, HTTP requests, log records,
      yielded messages), in program order.
    - What lies outside the repository (the [requests], [wave], [pydub]
      libraries, the file system, the plugin runtime) is a record [World] of
      functions; every method is parameterised by it.
    - A Python [str] is a Rocq [string], one [ascii] per character, so the
      model covers text over the code points 0..255.
    - An object is a class name with a static list of fields and methods:
      probing or reading an attribute and calling a method leave nothing in
      the trace.  A property of a foreign object that runs code when it is
      read (the lazy [blob] of the SDK's file objects) is outside the model;
      the statements about the effects of acquisition are made for
      references and accessor results that are built-in values.
    - [create_text_message] is taken to accept its argument.  The SDK
      refuses a text that is not a [str]; the statements about the messages
      recognition yields are made for results that are strings.
    - The standard modules [wave] and [audioop] are taken to be importable.
    - [audioop] works on 16-bit samples with C doubles.  The only factors the
      tools use are 0.5, 1.0, 2.0 and 4.0, for which double arithmetic on
      16-bit samples is exact, so doubles are rationals [Q] there.  The
      synthesis speed is compared with the binary64 constants 0.1 and 3.0 and
      is a primitive float. *)

From Stdlib Require Import ZArith QArith Qround List String Ascii Bool Lia Floats.
From Stdlib Require Import DecimalString.
From Stdlib.Strings Require Import Byte.
Import ListNotations.

Open Scope string_scope.
Open Scope Z_scope.

(** ** Python values *)

Module Py.

Definition bytes := list byte.

(** Exception classes the tools raise, catch or receive from libraries. *)
Inductive ExnClass :=
| Exception
| ValueError
| TypeError
| AttributeError
| ImportError
| OSError
| RequestException
| Timeout
| HTTPError
| AudioopError
| WaveError.

Record exn := mkExn { exn_class : ExnClass; exn_msg : string }.

(** [isinstance(e, c)] on the class hierarchy: everything derives from
    [Exception]; [Timeout] and [HTTPError] derive from [RequestException],
    which derives from [OSError]. *)
Definition subclass (c super : ExnClass) : bool :=
  match super, c with
  | Exception, _ => true
  | ValueError, ValueError => true
  | TypeError, TypeError => true
  | AttributeError, AttributeError => true
  | ImportError, ImportError => true
  | OSError, (OSError | RequestException | Timeout | HTTPError) => true
  | RequestException, (RequestException | Timeout | HTTPError) => true
  | Timeout, Timeout => true
  | HTTPError, HTTPError => true
  | AudioopError, AudioopError => true
  | WaveError, WaveError => true
  | _, _ => false
  end.

Definition isinstance_exn (e : exn) (c : ExnClass) : bool :=
  subclass (exn_class e) c.

(** Values.  A dict has string keys (tool parameters, credentials and JSON
    bodies all do).  An object is its class name and its attributes; a method
    takes no argument and is given by the outcome of calling it. *)
#[warnings="-register-all"]
Inductive pyval :=
| PyNone
| PyBool (b : bool)
| PyInt (n : Z)
| PyFloat (f : float)
| PyStr (s : string)
| PyBytes (b : bytes)
| PyByteArray (b : bytes)
| PyMemoryView (b : bytes)
| PyList (l : list pyval)
| PyDict (d : list (string * pyval))
| PyObject (cls : string) (attrs : list (string * attr))
with attr :=
| Field (v : pyval)
| Method (outcome : exn + pyval).

Definition str_of_Z (n : Z) : string := NilZero.string_of_int (Z.to_int n).

Definition type_name (v : pyval) : string :=
  match v with
  | PyNone => "NoneType"
  | PyBool _ => "bool"
  | PyInt _ => "int"
  | PyFloat _ => "float"
  | PyStr _ => "str"
  | PyBytes _ => "bytes"
  | PyByteArray _ => "bytearray"
  | PyMemoryView _ => "memoryview"
  | PyList _ => "list"
  | PyDict _ => "dict"
  | PyObject cls _ => cls
  end.

(** [bool(v)]; an object is true. *)
Definition truthy (v : pyval) : bool :=
  match v with
  | PyNone => false
  | PyBool b => b
  | PyInt n => negb (n =? 0)
  | PyFloat f => negb (PrimFloat.eqb f 0%float)
  | PyStr s => negb (String.eqb s "")
  | PyBytes b | PyByteArray b | PyMemoryView b =>
      match b with [] => false | _ => true end
  | PyList l => match l with [] => false | _ => true end
  | PyDict d => match d with [] => false | _ => true end
  | PyObject _ _ => true
  end.

(** [a or b] *)
Definition py_or (a b : pyval) : pyval := if truthy a then a else b.

Fixpoint assoc {A : Type} (k : string) (l : list (string * A)) : option A :=
  match l with
  | [] => None
  | (k', v) :: rest => if String.eqb k k' then Some v else assoc k rest
  end.

(** [d.get(k, default)] and [d.get(k)] *)
Definition dict_get_default (d : list (string * pyval)) (k : string)
    (default : pyval) : pyval :=
  match assoc k d with Some v => v | None => default end.

Definition dict_get (d : list (string * pyval)) (k : string) : pyval :=
  dict_get_default d k PyNone.

(** [hasattr(v, name)] for the attribute names the tools probe ([download],
    [blob], [read], [content], [data], [remote_url], [url], [id],
    [related_id]): no built-in type has any of them. *)
Definition getattr (v : pyval) (name : string) : option attr :=
  match v with
  | PyObject _ attrs => assoc name attrs
  | _ => None
  end.

Definition hasattr (v : pyval) (name : string) : bool :=
  match getattr v name with Some _ => true | None => false end.

(** ASCII lower-casing.  [str.lower] also maps non-ASCII letters, none of
    them to a character of ["http://"] or ["https://"], the only strings a
    lower-cased value is compared with. *)
Definition lower_ascii (c : ascii) : ascii :=
  let n := nat_of_ascii c in
  if ((65 <=? n) && (n <=? 90))%nat then ascii_of_nat (n + 32) else c.

Fixpoint lower (s : string) : string :=
  match s with
  | EmptyString => EmptyString
  | String c rest => String (lower_ascii c) (lower rest)
  end.

Definition startswith (s p : string) : bool := String.prefix p s.

(** [s[:n]] *)
Definition take (n : nat) (s : string) : string := String.substring 0 n s.

(** [sep.join(l)] *)
Fixpoint join (sep : string) (l : list string) : string :=
  match l with
  | [] => ""
  | [x] => x
  | x :: rest => x ++ sep ++ join sep rest
  end.

Fixpoint contains (needle hay : string) : bool :=
  String.prefix needle hay ||
  match hay with
  | EmptyString => false
  | String _ rest => contains needle rest
  end.

End Py.
Import Py.

(** ** Effects *)

(** An outbound [requests.post(url, headers=, params=, data=, timeout=)]. *)
Record Request := mkRequest {
  req_url : string;
  req_headers : list (string * string);
  req_params : list (string * pyval);
  req_data : pyval;
  req_timeout : Z
}.

(** A [requests.Response]: [json_body] is the outcome of [response.json()]. *)
Record Response := mkResponse {
  status_code : Z;
  reason : string;
  resp_url : string;
  content : bytes;
  text : string;
  json_body : exn + pyval
}.

(** Messages a tool hands to the plugin runtime ([create_text_message],
    [create_json_message], [create_blob_message]). *)
Inductive ToolInvokeMessage :=
| TextMessage (text : pyval)
| JsonMessage (json : list (string * pyval))
| BlobMessage (blob : bytes) (meta : list (string * pyval)).

Inductive LogLevel := Debug | Warning | Error.

(** What a run leaves behind.  [Call] marks the entry into one of the tools'
    own methods.  [Log] is a [logger.debug], [logger.warning] or
    [logger.error] record; [logger.info] progress records are not traced,
    but the expressions they format are evaluated where they can raise. *)
Inductive Event :=
| Call (method : string)
| Log (level : LogLevel) (msg : string)
| HttpGet (url : string) (timeout : Z)
| HttpPost (req : Request)
| OpenFile (path : string)
| GetFile (accessor : string) (file_id : pyval)
| WaveOpen (data : bytes)
| ReadFrames (nframes : Z)
| Transcode (data : bytes)
| Yield (msg : ToolInvokeMessage).

Definition Trace := list Event.

(** A computation: its outcome (an exception or a value) and its trace. *)
Definition M (A : Type) : Type := (exn + A) * Trace.

Definition ret {A : Type} (a : A) : M A := (inr a, []).

Definition raise {A : Type} (e : exn) : M A := (inl e, []).

Definition lift {A : Type} (r : exn + A) : M A := (r, []).

Definition emit (ev : Event) : M unit := (inr tt, [ev]).

Definition bind {A B : Type} (m : M A) (k : A -> M B) : M B :=
  match fst m with
  | inl e => (inl e, snd m)
  | inr a => (fst (k a), (snd m ++ snd (k a))%list)
  end.

(** [try: m  except Exception as e: h e] *)
Definition try_except {A : Type} (m : M A) (h : exn -> M A) : M A :=
  match fst m with
  | inl e => (fst (h e), (snd m ++ snd (h e))%list)
  | inr a => m
  end.

Notation "x <- m ;; k" := (bind m (fun x => k))
  (at level 61, m at next level, right associativity).
Notation "m ;; k" := (bind m (fun _ => k))
  (at level 61, right associativity).

Definition outcome {A : Type} (m : M A) : exn + A := fst m.
Definition trace {A : Type} (m : M A) : Trace := snd m.

Definition is_http_post (ev : Event) : bool :=
  match ev with HttpPost _ => true | _ => false end.

Definition is_http_get (ev : Event) : bool :=
  match ev with HttpGet _ _ => true | _ => false end.

Definition is_yield (ev : Event) : bool :=
  match ev with Yield _ => true | _ => false end.

Definition is_read_frames (ev : Event) : bool :=
  match ev with ReadFrames _ => true | _ => false end.

Definition is_call (method : string) (ev : Event) : bool :=
  match ev with Call m => String.eqb m method | _ => false end.

(** The events of a trace that satisfy [p]; a computation is silent for [p]
    when its trace has none. *)
Definition silent {A : Type} (p : Event -> bool) (m : M A) : Prop :=
  filter p (trace m) = [].

(** The entries into [method] that a trace records. *)
Definition calls (method : string) (t : Trace) : Trace :=
  filter (is_call method) t.

(** ** The world outside the repository *)

(** A parsed WAV container ([wave.Wave_read]): the header fields and the
    bytes of the data chunk that are present in the file. *)
Record WavReader := mkWavReader {
  framerate : Z;
  sampwidth : Z;
  nchannels : Z;
  nframes : Z;
  data_chunk : bytes
}.

(** A file accessor of the plugin runtime, when it exists and is callable. *)
Definition Accessor := option (pyval -> exn + pyval).

Record World := mkWorld {
  (* the plugin runtime: self.runtime.credentials and the file accessors *)
  credentials : list (string * pyval);
  self_get_file_content : Accessor;
  runtime_get_file_content : Accessor;
  runtime_get_file : Accessor;
  session_get_file_content : Accessor;
  session_get_file : Accessor;
  session_files_get : Accessor;
  session_file_get : Accessor;
  (* requests.get(url, timeout=) and requests.post(...) *)
  requests_get : string -> Z -> exn + Response;
  requests_post : Request -> exn + Response;
  (* open(path, "rb").read() *)
  read_file : string -> exn + bytes;
  (* wave.open(BytesIO(data), "rb") *)
  wave_open : bytes -> exn + WavReader;
  (* pydub: is it importable, does which("ffmpeg") find a binary, and
     AudioSegment.from_file(...).set_channels(1).set_frame_rate(16000)
     .set_sample_width(2).export(format="wav") *)
  pydub_installed : bool;
  ffmpeg_found : bool;
  pydub_to_wav : bytes -> exn + bytes;
  (* builtins: repr(v), and float(v) for a v that is not a float *)
  py_repr : pyval -> string;
  builtin_float : pyval -> exn + float
}.

(** [str(v)], as an f-string formats a value. *)
Definition py_str (W : World) (v : pyval) : string :=
  match v with
  | PyStr s => s
  | PyNone => "None"
  | PyBool true => "True"
  | PyBool false => "False"
  | PyInt n => str_of_Z n
  | _ => py_repr W v
  end.

(** [len(v)] *)
Definition py_len (v : pyval) : exn + Z :=
  match v with
  | PyStr s => inr (Z.of_nat (String.length s))
  | PyBytes b | PyByteArray b | PyMemoryView b => inr (Z.of_nat (List.length b))
  | PyList l => inr (Z.of_nat (List.length l))
  | PyDict d => inr (Z.of_nat (List.length d))
  | _ => inl (mkExn TypeError
                ("object of type '" ++ type_name v ++ "' has no len()"))
  end.

(** [BytesIO(v)]: the buffer's initial bytes; [BytesIO(None)] is an empty
    buffer. *)
Definition BytesIO (v : pyval) : exn + bytes :=
  match v with
  | PyBytes b | PyByteArray b | PyMemoryView b => inr b
  | PyNone => inr []
  | _ => inl (mkExn TypeError
                ("a bytes-like object is required, not '" ++ type_name v ++ "'"))
  end.

(** Reading an attribute: a field's value, or a bound method (an object with
    none of the probed attributes). *)
Definition attr_value (a : attr) : pyval :=
  match a with
  | Field v => v
  | Method _ => PyObject "method" []
  end.

(** [isinstance(v, (bytes, bytearray, memoryview))] with the bytes inside. *)
Definition bytes_like (v : pyval) : option bytes :=
  match v with
  | PyBytes b | PyByteArray b | PyMemoryView b => Some b
  | _ => None
  end.

(** [v.get(key, default)]: only a dict has [get]. *)
Definition py_get (v : pyval) (key : string) (default : pyval) : exn + pyval :=
  match v with
  | PyDict d => inr (dict_get_default d key default)
  | _ => inl (mkExn AttributeError
                ("'" ++ type_name v ++ "' object has no attribute 'get'"))
  end.

(** [v[:n]] can be evaluated: sequences can be sliced, nothing else can. *)
Definition py_sliceable (v : pyval) : exn + unit :=
  match v with
  | PyStr _ | PyBytes _ | PyByteArray _ | PyMemoryView _ | PyList _ => inr tt
  | _ => inl (mkExn TypeError
                ("'" ++ type_name v ++ "' object is not subscriptable"))
  end.

(** Calling an attribute with no argument. *)
Definition call0 (a : attr) : exn + pyval :=
  match a with
  | Method r => r
  | Field v => inl (mkExn TypeError
                      ("'" ++ type_name v ++ "' object is not callable"))
  end.

(** [response.raise_for_status()] *)
Definition raise_for_status (r : Response) : exn + unit :=
  let s := status_code r in
  if (400 <=? s) && (s <? 500) then
    inl (mkExn HTTPError (str_of_Z s ++ " Client Error: " ++ reason r
                            ++ " for url: " ++ resp_url r))
  else if (500 <=? s) && (s <? 600) then
    inl (mkExn HTTPError (str_of_Z s ++ " Server Error: " ++ reason r
                            ++ " for url: " ++ resp_url r))
  else inr tt.

(** [wave.Wave_read.readframes(n)]: at most [n] frames, fewer when the data
    chunk ends early. *)
Definition framesize (r : WavReader) : Z := nchannels r * sampwidth r.

Definition readframes (r : WavReader) (n : Z) : bytes :=
  firstn (Z.to_nat (n * framesize r)) (data_chunk r).

(** ** audioop on 16-bit fragments

    [rms], [tomono] and [mul] of CPython's [audioop], at sample width 2: the
    tool calls them only after it has checked [sample_width == 2].  A sample
    is two bytes, little-endian, two's complement. *)

Module audioop.

Definition error (msg : string) : exn := mkExn AudioopError msg.

(** [maxvals[2]] and [minvals[2]] *)
Definition maxval : Q := inject_Z 32767.
Definition minval : Q := inject_Z (-32768).

Definition Qltb (x y : Q) : bool := negb (Qle_bool y x).

(** [fbound]: clamp to the sample range, then round towards minus infinity. *)
Definition fbound (val minval maxval : Q) : Z :=
  let val := if Qltb maxval val then maxval
             else if Qltb val (minval + 1)%Q then minval
             else val in
  Qfloor val.

Definition getsample (b0 b1 : byte) : Z :=
  let u := Z.of_N (Byte.to_N b0) + 256 * Z.of_N (Byte.to_N b1) in
  if u <? 32768 then u else u - 65536.

Definition byte_of_Z (z : Z) : byte :=
  match Byte.of_N (Z.to_N (z mod 256)) with
  | Some b => b
  | None => x00
  end.

Definition setsample (v : Z) : bytes := [byte_of_Z v; byte_of_Z (v / 256)].

(** The samples of a fragment that holds whole samples. *)
Fixpoint samples (fragment : bytes) : list Z :=
  match fragment with
  | b0 :: b1 :: rest => getsample b0 b1 :: samples rest
  | _ => []
  end.

Definition whole (size : Z) (fragment : bytes) : bool :=
  Z.of_nat (List.length fragment) mod size =? 0.

Definition sum_squares (l : list Z) : Z :=
  fold_left (fun acc v => acc + v * v) l 0.

(** [audioop.rms(fragment, 2)]: the integer part of the square root of the
    mean of the squared samples, 0 for the empty fragment. *)
Definition rms (fragment : bytes) : exn + Z :=
  if whole 2 fragment then
    let s := samples fragment in
    inr (match s with
         | [] => 0
         | _ => Z.sqrt (sum_squares s / Z.of_nat (List.length s))
         end)
  else inl (error "not a whole number of frames").

Fixpoint tomono_samples (lfactor rfactor : Q) (s : list Z) : bytes :=
  match s with
  | l :: r :: rest =>
      (setsample (fbound (inject_Z l * lfactor + inject_Z r * rfactor)%Q
                    minval maxval)
       ++ tomono_samples lfactor rfactor rest)%list
  | _ => []
  end.

(** [audioop.tomono(fragment, 2, lfactor, rfactor)] *)
Definition tomono (fragment : bytes) (lfactor rfactor : Q) : exn + bytes :=
  if whole 2 fragment && whole 4 fragment then
    inr (tomono_samples lfactor rfactor (samples fragment))
  else inl (error "not a whole number of frames").

(** [audioop.mul(fragment, 2, factor)] *)
Definition mul (fragment : bytes) (factor : Q) : exn + bytes :=
  if whole 2 fragment then
    inr (List.concat (map (fun v => setsample (fbound (inject_Z v * factor)%Q
                                            minval maxval))
                   (samples fragment)))
  else inl (error "not a whole number of frames").

End audioop.

(** ** tools/speech_to_text.py *)

Module SpeechToText.

Section Tool.

Variable W : World.

(** The accessors probed for a metadata dict, in the order of the source. *)
Definition accessors : list (string * Accessor) :=
  [ ("self.get_file_content", self_get_file_content W);
    ("runtime.get_file_content", runtime_get_file_content W);
    ("runtime.get_file", runtime_get_file W);
    ("session.get_file_content", session_get_file_content W);
    ("session.get_file", session_get_file W);
    ("session.files.get", session_files_get W);
    ("session.file.get", session_file_get W) ].

(** One turn of the accessor loop (lines 159-172): [Some v] when the turn
    returns [v] from the method, [None] when the loop goes on. *)
Definition try_accessor (acc : string * Accessor) (related_id : pyval)
    : M (option pyval) :=
  try_except
    (match snd acc with
     | Some f =>
         emit (GetFile (fst acc) related_id);;
         res <- lift (f related_id);;
         match res with
         | PyBytes b | PyByteArray b => ret (Some (PyBytes b))
         | _ =>
             match getattr res "blob", getattr res "content",
                   getattr res "download" with
             | Some a, _, _ => ret (Some (attr_value a))
             | None, Some a, _ => ret (Some (attr_value a))
             | None, None, Some a => v <- lift (call0 a);; ret (Some v)
             | None, None, None => ret None
             end
         end
     | None => ret None
     end)
    (fun sdk_err =>
       emit (Log Debug ("SDK fetch attempt failed: " ++ exn_msg sdk_err));;
       ret None).

Fixpoint try_accessors (accs : list (string * Accessor)) (related_id : pyval)
    (otherwise : M pyval) : M pyval :=
  match accs with
  | [] => otherwise
  | acc :: rest =>
      r <- try_accessor acc related_id;;
      match r with
      | Some v => ret v
      | None => try_accessors rest related_id otherwise
      end
  end.

Definition is_absolute_url (remote_url : pyval) : option string :=
  match remote_url with
  | PyStr u =>
      if startswith (lower u) "http://" || startswith (lower u) "https://"
      then Some u else None
  | _ => None
  end.

(** [requests.get(url, timeout=30)], [raise_for_status()], [resp.content] *)
Definition fetch (remote_url : string) : M pyval :=
  emit (HttpGet remote_url 30);;
  resp <- lift (requests_get W remote_url 30);;
  lift (raise_for_status resp);;
  ret (PyBytes (content resp)).

(** Case 1, lines 38-109: an object with [download] or [blob]. *)
Definition from_dify_file (audio_file : pyval) : M pyval :=
  let has name := getattr audio_file name in
  (* lines 41-47 *)
  r <- match has "download" with
       | Some a =>
           content <- lift (call0 a);;
           match bytes_like content, getattr content "content" with
           | Some b, _ => ret (Some (PyBytes b))
           | None, Some c => ret (Some (attr_value c))
           | None, None => ret None
           end
       | None => ret None
       end;;
  match r with
  | Some v => ret v
  | None =>
  (* lines 49-52 *)
  match match has "blob" with
        | Some a => bytes_like (attr_value a)
        | None => None
        end with
  | Some b => ret (PyBytes b)
  | None =>
  (* lines 53-58 *)
  match has "read", has "content", has "data" with
  | Some a, _, _ => lift (call0 a)
  | None, Some a, _ => ret (attr_value a)
  | None, None, Some a => ret (attr_value a)
  | None, None, None =>
  (* lines 62-68: the first of remote_url, url that exists; an attribute
     that hasattr does not see is not in __dict__ either *)
  let remote_url :=
    match has "remote_url", has "url" with
    | Some a, _ => attr_value a
    | None, Some a => attr_value a
    | None, None => PyNone
    end in
  (* lines 70-79 *)
  r <- match is_absolute_url remote_url with
       | Some u =>
           try_except
             (v <- fetch u;; ret (Some v))
             (fun url_err =>
                emit (Log Warning ("Failed to fetch via absolute URL: "
                                     ++ exn_msg url_err));;
                ret None)
       | None => ret None
       end;;
  match r with
  | Some v => ret v
  | None =>
  (* lines 82-103 *)
  r <- try_except
         (let id := match has "id" with
                    | Some a => attr_value a
                    | None => PyNone
                    end in
          let file_id :=
            if truthy id then id
            else match has "related_id" with
                 | Some a => attr_value a
                 | None => id
                 end in
          if truthy file_id then
            match self_get_file_content W, runtime_get_file_content W,
                  runtime_get_file W with
            | Some f, _, _ =>
                emit (GetFile "self.get_file_content" file_id);;
                v <- lift (f file_id);; ret (Some v)
            | None, Some f, _ =>
                emit (GetFile "runtime.get_file_content" file_id);;
                v <- lift (f file_id);; ret (Some v)
            | None, None, Some f =>
                emit (GetFile "runtime.get_file" file_id);;
                v <- lift (f file_id);; ret (Some v)
            | None, None, None => ret None
            end
          else ret None)
         (fun id_err =>
            emit (Log Warning ("Failed to fetch via SDK by id: "
                                 ++ exn_msg id_err));;
            ret None);;
  match r with
  | Some v => ret v
  | None =>
  (* lines 106-109 *)
  raise (mkExn ValueError
           ("Could not read Dify File object: no blob/download/read/data/content available, "
            ++ "no absolute URL, and SDK file fetch by id not supported in this runtime."))
  end end end end end.

(** Case 5, lines 132-191: a metadata dict. *)
Definition from_metadata (audio_file : list (string * pyval)) : M pyval :=
  let related_id :=
    py_or (dict_get audio_file "related_id") (dict_get audio_file "id") in
  try_accessors (if truthy related_id then accessors else []) related_id
    (let remote_url :=
       py_or (dict_get audio_file "remote_url") (dict_get audio_file "url") in
     r <- match is_absolute_url remote_url with
          | Some u =>
              try_except
                (v <- fetch u;; ret (Some v))
                (fun url_err =>
                   emit (Log Debug ("Absolute URL fetch failed: "
                                      ++ exn_msg url_err));;
                   ret None)
          | None => ret None
          end;;
     match r with
     | Some v => ret v
     | None =>
         raise (mkExn ValueError
                  ("Could not retrieve file bytes from provided metadata (no SDK method worked, "
                   ++ "and no absolute URL available)."))
     end).

Definition _get_audio_data_from_file (audio_file : pyval) : M pyval :=
  emit (Call "_get_audio_data_from_file");;
  try_except
    (if hasattr audio_file "download" || hasattr audio_file "blob" then
       from_dify_file audio_file
     else
       match getattr audio_file "read" with
       | Some a =>
           (* Case 2 *)
           content <- lift (call0 a);;
           lift (py_len content);;
           ret content
       | None =>
           match audio_file with
           | PyBytes _ => ret audio_file                      (* Case 3 *)
           | PyStr path =>                                    (* Case 4 *)
               emit (OpenFile path);;
               b <- lift (read_file W path);;
               ret (PyBytes b)
           | PyDict d => from_metadata d                      (* Case 5 *)
           | _ =>
               raise (mkExn ValueError
                        ("Unsupported audio file type: <class '"
                         ++ type_name audio_file ++ "'>. "
                         ++ "Expected Dify File object with .blob property."))
           end
       end)
    (fun e =>
       emit (Log Error ("Error extracting audio data: " ++ exn_msg e));;
       raise e).

Definition _convert_audio_to_wav (audio_data : pyval) : M bytes :=
  emit (Call "_convert_audio_to_wav");;
  try_except
    (if pydub_installed W then
       (if ffmpeg_found W then ret tt
        else emit (Log Warning
                     "FFmpeg not found, attempting conversion without it"));;
       buf <- lift (BytesIO audio_data);;
       emit (Transcode buf);;
       lift (pydub_to_wav W buf)
     else raise (mkExn ImportError "No module named 'pydub'"))
    (fun e =>
       if isinstance_exn e ImportError then
         emit (Log Error
                 "pydub library is not installed. Please install it: pip install pydub");;
         raise (mkExn ValueError "Audio conversion library not available")
       else
         emit (Log Error ("Audio conversion failed: " ++ exn_msg e));;
         raise (mkExn ValueError ("Failed to convert audio: " ++ exn_msg e))).

(** Lines 274-278: the gain chosen for an RMS value. *)
Definition gain_for_rms (rms : Z) : Q :=
  if truthy (PyInt rms) && (rms <? 300) then 4%Q
  else if truthy (PyInt rms) && (rms <? 1000) then 2%Q
  else 1%Q.

(** Lines 272-283: gain normalization; any failure leaves [raw] as it was. *)
Definition normalize_gain (raw : bytes) : M bytes :=
  try_except
    (rms <- lift (audioop.rms raw);;
     let gain := gain_for_rms rms in
     if negb (Qeq_bool gain 1) then lift (audioop.mul raw gain)
     else ret raw)
    (fun _ => ret raw).

Definition _convert_wav_to_pcm (wav_data : pyval) : M (bytes * Z) :=
  emit (Call "_convert_wav_to_pcm");;
  try_except
    (buf <- lift (BytesIO wav_data);;
     emit (WaveOpen buf);;
     wav_reader <- lift (wave_open W buf);;
     let src_rate := framerate wav_reader in
     let sample_width := sampwidth wav_reader in
     let channels := nchannels wav_reader in
     let frames := nframes wav_reader in
     if negb (sample_width =? 2) then
       raise (mkExn ValueError
                ("Unsupported WAV sample width: " ++ str_of_Z (sample_width * 8)
                 ++ " bits. Only 16-bit PCM supported"))
     else
       emit (ReadFrames frames);;
       let raw := readframes wav_reader frames in
       raw <- (if channels >? 1 then lift (audioop.tomono raw (1 # 2) (1 # 2))
               else ret raw);;
       raw <- normalize_gain raw;;
       ret (raw, src_rate))
    (fun e =>
       emit (Log Error ("WAV to PCM conversion failed: " ++ exn_msg e));;
       raise (mkExn ValueError ("Failed to process WAV file: " ++ exn_msg e))).

(** Lines 324-333: parse as WAV; on any failure transcode and parse again. *)
Definition normalize (audio_data : pyval) : M (bytes * Z) :=
  try_except
    (_convert_wav_to_pcm audio_data)
    (fun _ =>
       wav_data <- _convert_audio_to_wav audio_data;;
       _convert_wav_to_pcm (PyBytes wav_data)).

(** Lines 354-363: the message of a response that is not 200. *)
Definition api_error_message (response : Response) : string :=
  let detail :=
    match json_body response with
    | inr error_data =>
        match py_get error_data "error" (PyDict []) with
        | inr err =>
            match py_get err "message" (PyStr "Unknown error") with
            | inr m => Some (py_str W m)
            | inl _ => None
            end
        | inl _ => None
        end
    | inl _ => None
    end in
  "API error: " ++ str_of_Z (status_code response) ++ " - "
  ++ match detail with Some m => m | None => text response end.

Definition stt_url : string :=
  "https://stt.api.cloud.yandex.net/speech/v1/stt:recognize".

(** Lines 336-343 and 348-350: the recognition request. *)
Definition recognition_request (api_key language topic : pyval)
    (pcm_data : bytes) (sample_rate : Z) : Request :=
  mkRequest stt_url
    [("Authorization", "Api-Key " ++ py_str W api_key)]
    [("lang", language); ("format", PyStr "lpcm"); ("topic", topic);
     ("sampleRateHertz", PyStr (str_of_Z sample_rate))]
    (PyBytes pcm_data) 30.

Definition _invoke (tool_parameters : list (string * pyval)) : M unit :=
  try_except
    (let audio_file := dict_get tool_parameters "audio_file" in
     let language := dict_get_default tool_parameters "language" (PyStr "ru-RU") in
     let topic := dict_get_default tool_parameters "topic" (PyStr "general") in
     if negb (truthy audio_file) then
       raise (mkExn Exception "No audio file provided")
     else
     let api_key := dict_get (credentials W) "api_key" in
     if negb (truthy api_key) then
       raise (mkExn Exception "API key is required")
     else
     audio_data <-
       try_except
         (audio_data <- _get_audio_data_from_file audio_file;;
          if negb (truthy audio_data) then
            raise (mkExn Exception "Could not read audio file")
          else ret audio_data)
         (fun e =>
            emit (Log Error ("Failed to read audio file: " ++ exn_msg e));;
            raise (mkExn Exception
                     ("Failed to read audio file - " ++ exn_msg e)));;
     lift (py_len audio_data);;
     pcm <- normalize audio_data;;
     let '(pcm_data, sample_rate) := pcm in
     let req :=
       recognition_request api_key language topic pcm_data sample_rate in
     emit (HttpPost req);;
     response <- lift (requests_post W req);;
     if negb (status_code response =? 200) then
       let error_msg := api_error_message response in
       emit (Log Error error_msg);;
       raise (mkExn Exception error_msg)
     else
       result <- lift (json_body response);;
       recognized_text <- lift (py_get result "result" (PyStr ""));;
       if negb (truthy recognized_text) then
         raise (mkExn Exception "No speech detected in the audio file")
       else
         lift (py_sliceable recognized_text);;
         emit (Yield (TextMessage recognized_text)))
    (fun e =>
       emit (Log Error ("Speech recognition error: " ++ exn_msg e));;
       raise e).

End Tool.

End SpeechToText.

(** ** tools/text_to_speech.py *)

Module TextToSpeech.

(** The keys of [VOICE_DESCRIPTIONS].  The descriptions themselves are only
    formatted into [result_text], a string the tool builds and never uses. *)
Definition VOICE_DESCRIPTIONS : list string :=
  ["marina"; "alena"; "filipp"; "jane"; "omazh"; "ermil"; "zahar"; "madi_ru"].

Definition VOICE_ALLOWED_EMOTIONS : list (string * list string) :=
  [ ("marina", ["neutral"; "whisper"; "friendly"]);
    ("alena", ["neutral"; "good"]);
    ("filipp", ["neutral"]);
    ("jane", ["neutral"; "good"; "evil"]);
    ("omazh", ["neutral"; "evil"]);
    ("ermil", ["neutral"; "good"]);
    ("zahar", ["neutral"; "good"]);
    ("madi_ru", ["neutral"]) ].

Definition FORMAT_MIME : list (string * string) :=
  [("mp3", "audio/mpeg"); ("oggopus", "audio/ogg")].

Definition mem (s : string) (l : list string) : bool :=
  existsb (String.eqb s) l.

(** [v in l] for a list of strings: equality with each element. *)
Definition in_list (v : pyval) (l : list string) : bool :=
  match v with PyStr s => mem s l | _ => false end.

(** [v in d] for a dict or set with string keys: [v] is hashed first. *)
Definition in_keys (v : pyval) (keys : list string) : exn + bool :=
  match v with
  | PyStr s => inr (mem s keys)
  | PyList _ | PyDict _ | PyByteArray _ =>
      inl (mkExn TypeError ("unhashable type: '" ++ type_name v ++ "'"))
  | _ => inr false
  end.

Definition eq_str (v : pyval) (s : string) : bool :=
  match v with PyStr s' => String.eqb s' s | _ => false end.

(** Characters [str.isspace] accepts, among the code points 0..255, and the
    ASCII whitespace [bytes.strip] removes. *)
Definition is_space (c : ascii) : bool :=
  let n := nat_of_ascii c in
  (((9 <=? n) && (n <=? 13)) || ((28 <=? n) && (n <=? 32))
   || (n =? 133) || (n =? 160))%nat.

Definition is_space_byte (b : byte) : bool :=
  let n := N.to_nat (Byte.to_N b) in
  (((9 <=? n) && (n <=? 13)) || (n =? 32))%nat.

Fixpoint lstrip (s : string) : string :=
  match s with
  | String c rest => if is_space c then lstrip rest else s
  | EmptyString => EmptyString
  end.

Fixpoint rstrip (s : string) : string :=
  match s with
  | String c rest =>
      match rstrip rest with
      | EmptyString => if is_space c then EmptyString else String c EmptyString
      | r => String c r
      end
  | EmptyString => EmptyString
  end.

Definition strip (s : string) : string := rstrip (lstrip s).

Fixpoint lstrip_bytes (b : bytes) : bytes :=
  match b with
  | c :: rest => if is_space_byte c then lstrip_bytes rest else b
  | [] => []
  end.

Definition strip_bytes (b : bytes) : bytes :=
  rev (lstrip_bytes (rev (lstrip_bytes b))).

(** [v.strip()]: [str], [bytes] and [bytearray] have it. *)
Definition py_strip (v : pyval) : exn + pyval :=
  match v with
  | PyStr s => inr (PyStr (strip s))
  | PyBytes b => inr (PyBytes (strip_bytes b))
  | PyByteArray b => inr (PyByteArray (strip_bytes b))
  | _ => inl (mkExn AttributeError
                ("'" ++ type_name v ++ "' object has no attribute 'strip'"))
  end.

(** [text.lstrip().startswith("<speak")] for a stripped [text]. *)
Definition looks_like_ssml (text : pyval) : exn + bool :=
  match text with
  | PyStr s => inr (startswith (lstrip s) "<speak")
  | _ => inl (mkExn TypeError
                "startswith first arg must be bytes or a tuple of bytes, not str")
  end.

(** [sorted(l)] on strings. *)
Fixpoint insert_sorted (x : string) (l : list string) : list string :=
  match l with
  | [] => [x]
  | y :: rest => if String.leb x y then x :: l else y :: insert_sorted x rest
  end.

Definition sorted (l : list string) : list string :=
  fold_right insert_sorted [] l.

Record ValidParams := mkParams {
  p_text : pyval;
  p_voice : pyval;
  p_emotion : pyval;
  p_speed : string;
  p_format : pyval
}.

Section Tool.

Variable W : World.

(** [float(v)] *)
Definition py_float (v : pyval) : exn + float :=
  match v with
  | PyFloat f => inr f
  | _ => builtin_float W v
  end.

(** [errors.append(msg)] *)
Definition append (errors : list string) (msg : string) : list string :=
  (errors ++ [msg])%list.

Definition raise_if_errors (errors : list string) : M unit :=
  match errors with
  | [] => ret tt
  | _ => raise (mkExn ValueError (join "; " errors))
  end.

Definition _validate_parameters (tool_parameters : list (string * pyval))
    : M ValidParams :=
  emit (Call "_validate_parameters");;
  let errors : list string := [] in
  text <- lift (py_strip (dict_get_default tool_parameters "text" (PyStr "")));;
  (* len(text): text is a str, bytes or bytearray here *)
  text_len <- lift (py_len text);;
  let errors :=
    if negb (truthy text) then append errors ("Text content is required")
    else if text_len >? 5000 then
      append errors ("Text is too long (maximum 5000 characters)")
    else errors in
  let voice := dict_get_default tool_parameters "voice" (PyStr "marina") in
  known_voice <- lift (in_keys voice VOICE_DESCRIPTIONS);;
  let errors :=
    if negb known_voice then
      append errors ("Invalid voice: " ++ py_str W voice)
    else errors in
  let emotion := dict_get_default tool_parameters "emotion" (PyStr "neutral") in
  let errors :=
    if negb (in_list emotion ["neutral"; "good"; "evil"; "friendly"; "whisper"])
    then append errors ("Invalid emotion: " ++ py_str W emotion)
    else errors in
  speed <-
    match py_float (dict_get_default tool_parameters "speed" (PyFloat 1%float)) with
    | inr speed => ret (Some speed)
    | inl e =>
        if isinstance_exn e ValueError || isinstance_exn e TypeError
        then ret None else raise e
    end;;
  let errors :=
    match speed with
    | Some speed =>
        (* 0x1.999999999999ap-4 is the binary64 value of the literal 0.1 *)
        if negb (PrimFloat.leb 0x1.999999999999ap-4%float speed
                 && PrimFloat.leb speed 3%float)
        then append errors ("Speed must be between 0.1 and 3.0")
        else errors
    | None => append errors ("Speed must be a valid number")
    end in
  let format_type := dict_get_default tool_parameters "format" (PyStr "mp3") in
  let format_type :=
    if eq_str format_type "opus" then PyStr "oggopus" else format_type in
  let errors :=
    if negb (in_list format_type ["mp3"; "oggopus"]) then
      append errors ("Invalid format: " ++ py_str W format_type)
    else errors in
  raise_if_errors errors;;
  let allowed :=
    match voice with
    | PyStr v =>
        match assoc v VOICE_ALLOWED_EMOTIONS with
        | Some a => a
        | None => ["neutral"]
        end
    | _ => ["neutral"]
    end in
  let errors :=
    if negb (in_list emotion allowed) then
      append errors ("Emotion '" ++ py_str W emotion
                  ++ "' is not supported by voice '" ++ py_str W voice
                  ++ "'. Allowed: " ++ join ", " (sorted allowed))
    else errors in
  raise_if_errors errors;;
  (* speed is bound here: had float() failed, errors were raised above *)
  let speed := match speed with Some f => f | None => 1%float end in
  ret (mkParams text voice emotion (py_str W (PyFloat speed)) format_type).

Definition tts_url : string :=
  "https://tts.api.cloud.yandex.net/speech/v1/tts:synthesize".

(** Lines 152-179: what the body of a response that is not 200 adds to the
    error message. *)
Definition error_detail (response : Response) : string :=
  match json_body response with
  | inr (PyDict error_data) =>
      let nested := dict_get error_data "error" in
      let code :=
        match nested with
        | PyDict n => py_or (dict_get n "code") (dict_get n "error_code")
        | _ => py_or (dict_get error_data "error_code")
                 (dict_get error_data "code")
        end in
      let msg :=
        match nested with
        | PyDict n => py_or (dict_get n "message") (dict_get n "error_message")
        | _ => py_or (dict_get error_data "message")
                 (dict_get error_data "error_message")
        end in
      let msg :=
        if negb (truthy msg) then
          match dict_get error_data "details" with
          | (PyList _ | PyDict _) as details =>
              PyStr (take 200 (py_str W details))
          | _ => msg
          end
        else msg in
      (if truthy code then " [" ++ py_str W code ++ "]" else "")
      ++ (if truthy msg then " - " ++ py_str W msg else "")
  | _ => " - " ++ take 200 (text response)
  end.

(** Lines 127-146: the synthesis request; [ssml] tells whether the text
    starts with an SSML root tag. *)
Definition synthesis_request (api_key : pyval) (params : ValidParams)
    (ssml : bool) : Request :=
  let headers := [("Authorization", "Api-Key " ++ py_str W api_key)] in
  let data :=
    [ (if ssml then "ssml" else "text", p_text params);
      ("voice", p_voice params);
      ("speed", PyStr (p_speed params));
      ("format", p_format params);
      ("lang", PyStr "ru-RU") ] in
  let data :=
    if negb (eq_str (p_emotion params) "neutral") then
      (data ++ [("emotion", p_emotion params)])%list
    else data in
  mkRequest tts_url headers [] (PyDict data) 30.

Definition _invoke (tool_parameters : list (string * pyval)) : M unit :=
  try_except
    (let api_key := dict_get (credentials W) "api_key" in
     if negb (truthy api_key) then
       raise (mkExn Exception "API key is required")
     else
     params <-
       try_except
         (_validate_parameters tool_parameters)
         (fun e =>
            if isinstance_exn e ValueError then
              raise (mkExn Exception ("Parameter error: " ++ exn_msg e))
            else raise e);;
     lift (py_sliceable (p_text params));;
     ssml <- lift (looks_like_ssml (p_text params));;
     let req := synthesis_request api_key params ssml in
     emit (HttpPost req);;
     response <- lift (requests_post W req);;
     if negb (status_code response =? 200) then
       let error_msg :=
         "API error: " ++ str_of_Z (status_code response)
         ++ error_detail response
         ++ " | voice=" ++ py_str W (p_voice params)
         ++ ", emotion=" ++ py_str W (p_emotion params)
         ++ ", speed=" ++ p_speed params
         ++ ", format=" ++ py_str W (p_format params) in
       emit (Log Error error_msg);;
       raise (mkExn Exception error_msg)
     else
       let audio_content := content response in
       if negb (truthy (PyBytes audio_content)) then
         raise (mkExn Exception "Empty response from TTS service")
       else
         text_length <- lift (py_len (p_text params));;
         emit (Yield (JsonMessage
                        [ ("voice", p_voice params);
                          ("emotion", p_emotion params);
                          ("speed", PyStr (p_speed params));
                          ("format", if eq_str (p_format params) "oggopus"
                                     then PyStr "opus" else p_format params);
                          ("text_length", PyInt text_length) ]));;
         let ext := if eq_str (p_format params) "oggopus" then PyStr "ogg"
                    else p_format params in
         emit (Yield (BlobMessage audio_content
                        [ ("mime_type",
                           PyStr match p_format params with
                                 | PyStr f =>
                                     match assoc f FORMAT_MIME with
                                     | Some m => m
                                     | None => "application/octet-stream"
                                     end
                                 | _ => "application/octet-stream"
                                 end);
                          ("filename", PyStr ("speech." ++ py_str W ext)) ])))
    (fun e =>
       if isinstance_exn e Timeout then
         emit (Log Error "TTS request timeout");;
         raise (mkExn Exception
                  "Request timeout. Please try again with shorter text.")
       else if isinstance_exn e RequestException then
         emit (Log Error ("TTS request error: " ++ exn_msg e));;
         raise (mkExn Exception ("Network error: " ++ exn_msg e))
       else
         emit (Log Error ("TTS error: " ++ exn_msg e));;
         raise e).

End Tool.

End TextToSpeech.

(** ** Vocabulary of the statements *)

(** The range of a 16-bit signed sample, and saturation into it. *)
Definition in_range (v : Z) : Prop := -32768 <= v <= 32767.

Definition clamp (v : Z) : Z := Z.max (-32768) (Z.min 32767 v).

(** The gain law as the specification words it: below 300 times four,
    below 1000 times two, otherwise no gain. *)
Definition spec_gain (rms : Z) : Q :=
  if rms <? 300 then 4%Q else if rms <? 1000 then 2%Q else 1%Q.

(** The final error of acquisition from a metadata mapping (lines 188-191). *)
Definition no_bytes_from_metadata : exn :=
  mkExn ValueError
    ("Could not retrieve file bytes from provided metadata (no SDK method worked, "
     ++ "and no absolute URL available).").

(** ** A concrete environment

    Used to run the tools on explicit inputs. *)

Module Example.

Definition response (status : Z) (body : bytes) (json : exn + pyval)
    : Response :=
  mkResponse status "" "https://example.org/a.wav" body "" json.

(** An environment with the given credentials, WAV parser and HTTP
    behaviour; no file accessor, no file system, no pydub. *)
Definition world (creds : list (string * pyval))
    (wav : bytes -> exn + WavReader)
    (get post : exn + Response) : World :=
  {| credentials := creds;
     self_get_file_content := None;
     runtime_get_file_content := None;
     runtime_get_file := None;
     session_get_file_content := None;
     session_get_file := None;
     session_files_get := None;
     session_file_get := None;
     requests_get := fun _ _ => get;
     requests_post := fun _ => post;
     read_file := fun _ => inl (mkExn OSError "No such file or directory");
     wave_open := wav;
     pydub_installed := false;
     ffmpeg_found := false;
     pydub_to_wav := fun _ => inl (mkExn Exception "decoding failed");
     py_repr := fun v =>
                  match v with
                  | PyFloat f => if PrimFloat.eqb f 1 then "1.0" else "<float>"
                  | _ => "<object>"
                  end;
     builtin_float := fun _ => inl (mkExn TypeError "float() argument") |}.

Definition not_wav : bytes -> exn + WavReader :=
  fun _ => inl (mkExn WaveError "file does not start with RIFF id").

Definition unreachable : exn + Response :=
  inl (mkExn RequestException "connection refused").

(** Every input parses as the given container. *)
Definition always (r : WavReader) : bytes -> exn + WavReader :=
  fun _ => inr r.

(** Two mono frames, samples 16 and 32, at 16 kHz. *)
Definition mono16 : WavReader :=
  mkWavReader 16000 2 1 2 [x10; x00; x20; x00].

(** Two mono frames of 8-bit samples. *)
Definition mono8 : WavReader :=
  mkWavReader 8000 1 1 2 [x80; x81].

(** Two stereo frames, (16, 32) and (-2, 1), at 44.1 kHz. *)
Definition stereo16 : WavReader :=
  mkWavReader 44100 2 2 2 [x10; x00; x20; x00; xfe; xff; x01; x00].

(** Mono samples 10000, -20000 and 100. *)
Definition loud : bytes := [x10; x27; xe0; xb1; x64; x00].

(** Mono samples 250 and 250: the RMS is 250. *)
Definition quiet : bytes := [xfa; x00; xfa; x00].

(** Mono samples 1 and 0: the RMS is 0 although the signal is not silent. *)
Definition faint : bytes := [x01; x00; x00; x00].

(** Mono containers at 16 kHz holding those two signals. *)
Definition quiet16 : WavReader := mkWavReader 16000 2 1 2 quiet.

Definition faint16 : WavReader := mkWavReader 16000 2 1 2 faint.

(** A mono container whose header declares two frames and whose data chunk
    holds three bytes. *)
Definition truncated16 : WavReader :=
  mkWavReader 16000 2 1 2 [x10; x00; x20].

(** The network answers every GET with status 200 and a two-byte body. *)
Definition web : World :=
  world [] not_wav
    (inr (response 200 [x52; x49] (inl (mkExn ValueError ""))))
    unreachable.

(** Offline environments in which every input parses as one container. *)
Definition stereo_world : World :=
  world [] (always stereo16) unreachable unreachable.

Definition eight_bit_world : World :=
  world [] (always mono8) unreachable unreachable.

Definition quiet_world : World :=
  world [] (always quiet16) unreachable unreachable.

Definition faint_world : World :=
  world [] (always faint16) unreachable unreachable.

Definition truncated_world : World :=
  world [] (always truncated16) unreachable unreachable.

Definition key : list (string * pyval) := [("api_key", PyStr "secret")].

(** The recognition endpoint answers 200 with [{"result": ""}]. *)
Definition no_speech : Response :=
  response 200 [] (inr (PyDict [("result", PyStr "")])).

Definition no_speech_world : World :=
  world key (always mono16) unreachable (inr no_speech).

(** The synthesis request of the specification's scenario. *)
Definition filipp_good : list (string * pyval) :=
  [ ("text", PyStr "hello"); ("voice", PyStr "filipp");
    ("emotion", PyStr "good"); ("speed", PyFloat 1%float);
    ("format", PyStr "mp3") ].

(** A request that passes validation (default voice, emotion, speed and
    format), and a synthesis endpoint that answers 200 with no body. *)
Definition hello : list (string * pyval) := [("text", PyStr "hello")].

Definition empty_audio_world : World :=
  world key not_wav unreachable
    (inr (response 200 [] (inl (mkExn ValueError "")))).

End Example.

(** ** Further vocabulary *)

(** The messages a generator yielded, in order. *)
Fixpoint yielded (t : Trace) : list ToolInvokeMessage :=
  match t with
  | [] => []
  | Yield m :: rest => m :: yielded rest
  | _ :: rest => yielded rest
  end.

(** The requests a trace posted, in order. *)
Fixpoint posted (t : Trace) : list Request :=
  match t with
  | [] => []
  | HttpPost req :: rest => req :: posted rest
  | _ :: rest => posted rest
  end.

(** *** Synthesis: the parts of [TextToSpeechTool._invoke] by name *)

(** Lines 236-244: the exception the tool ends with when [e] reaches its
    outer handlers. *)
Definition tts_surfaced (e : exn) : exn :=
  if isinstance_exn e Timeout then
    mkExn Exception "Request timeout. Please try again with shorter text."
  else if isinstance_exn e RequestException then
    mkExn Exception ("Network error: " ++ exn_msg e)
  else e.

(** Lines 236-244: what the outer handlers log for [e]. *)
Definition tts_logged (e : exn) : string :=
  if isinstance_exn e Timeout then "TTS request timeout"
  else if isinstance_exn e RequestException then
    "TTS request error: " ++ exn_msg e
  else "TTS error: " ++ exn_msg e.

(** Lines 151-185: the message of a response that is not 200. *)
Definition tts_api_error (W : World) (params : TextToSpeech.ValidParams)
    (response : Response) : string :=
  "API error: " ++ str_of_Z (status_code response)
  ++ TextToSpeech.error_detail W response
  ++ " | voice=" ++ py_str W (TextToSpeech.p_voice params)
  ++ ", emotion=" ++ py_str W (TextToSpeech.p_emotion params)
  ++ ", speed=" ++ TextToSpeech.p_speed params
  ++ ", format=" ++ py_str W (TextToSpeech.p_format params).

(** Lines 212-222: the metadata record. *)
Definition metadata_message (params : TextToSpeech.ValidParams)
    (text_length : Z) : ToolInvokeMessage :=
  JsonMessage
    [ ("voice", TextToSpeech.p_voice params);
      ("emotion", TextToSpeech.p_emotion params);
      ("speed", PyStr (TextToSpeech.p_speed params));
      ("format", if TextToSpeech.eq_str (TextToSpeech.p_format params) "oggopus"
                 then PyStr "opus" else TextToSpeech.p_format params);
      ("text_length", PyInt text_length) ].

(** Lines 225-234: the audio blob. *)
Definition audio_message (W : World) (params : TextToSpeech.ValidParams)
    (audio_content : bytes) : ToolInvokeMessage :=
  let ext := if TextToSpeech.eq_str (TextToSpeech.p_format params) "oggopus"
             then PyStr "ogg" else TextToSpeech.p_format params in
  BlobMessage audio_content
    [ ("mime_type",
       PyStr match TextToSpeech.p_format params with
             | PyStr f =>
                 match assoc f TextToSpeech.FORMAT_MIME with
                 | Some m => m
                 | None => "application/octet-stream"
                 end
             | _ => "application/octet-stream"
             end);
      ("filename", PyStr ("speech." ++ py_str W ext)) ].

(** *** Recognition: the parts of [SpeechToTextTool._invoke] by name *)

(** Lines 354-372: what a response amounts to, the recognized text or the
    exception raised. *)
Definition stt_result (W : World) (response : Response) : exn + pyval :=
  if negb (status_code response =? 200) then
    inl (mkExn Exception (SpeechToText.api_error_message W response))
  else
    match json_body response with
    | inl e => inl e
    | inr result =>
        match py_get result "result" (PyStr "") with
        | inl e => inl e
        | inr recognized_text =>
            if negb (truthy recognized_text) then
              inl (mkExn Exception "No speech detected in the audio file")
            else
              match py_sliceable recognized_text with
              | inl e => inl e
              | inr _ => inr recognized_text
              end
        end
    end.

(** Lines 375-378: the record of the outer handler. *)
Definition stt_logged (e : exn) : Event :=
  Log Error ("Speech recognition error: " ++ exn_msg e).

(** *** Acquisition *)

(** The effects acquisition may have: entering the method, log records, a
    lookup by file id, opening a path, and a GET of an absolute HTTP(S) URL
    with a 30 second timeout. *)
Definition acquisition_event (ev : Event) : bool :=
  match ev with
  | Call method => String.eqb method "_get_audio_data_from_file"
  | Log _ _ | GetFile _ _ | OpenFile _ => true
  | HttpGet url timeout =>
      match SpeechToText.is_absolute_url (PyStr url) with
      | Some _ => timeout =? 30
      | None => false
      end
  | _ => false
  end.

(** Built-in values: everything but an object with attributes of its own.
    Probing and reading them runs no foreign code. *)
Definition builtin (v : pyval) : bool :=
  match v with PyObject _ _ => false | _ => true end.

(** The file accessors of the runtime return built-in values only. *)
Definition plain_accessors (W : World) : Prop :=
  forall name f related_id res,
    In (name, Some f) (SpeechToText.accessors W) ->
    f related_id = inr res ->
    builtin res = true.

(** The error of an unsupported reference (lines 201-204). *)
Definition unsupported_reference (audio_file : pyval) : exn :=
  mkExn ValueError
    ("Unsupported audio file type: <class '" ++ type_name audio_file ++ "'>. "
     ++ "Expected Dify File object with .blob property.").

(** The record of acquisition's outer handler (line 207). *)
Definition acquisition_logged (e : exn) : Event :=
  Log Error ("Error extracting audio data: " ++ exn_msg e).

(** *** Downmix *)

(** The mean of each left/right pair of samples, rounded towards minus
    infinity. *)
Fixpoint downmix (s : list Z) : list Z :=
  match s with
  | l :: r :: rest => (l + r) / 2 :: downmix rest
  | _ => []
  end.

Definition is_transcode (ev : Event) : bool :=
  match ev with Transcode _ => true | _ => false end.

(** ** The provider

    [YandexSpeechkitProvider._validate_credentials] of
    [provider/yandex_speechkit.py].  It returns [None] or raises
    [ToolProviderCredentialValidationError]; the synthesis tool it runs is
    the one modelled above.  Three facts are taken from the plugin SDK:
    [TextToSpeechTool.from_credentials(c)] is a tool whose
    [runtime.credentials] is [c] (the tests of the repository build their
    tools this way); [invoke(tool_parameters=p)] hands [p] to [_invoke]; and
    a message object is truthy and has the attribute [text] only when it is
    a text message. *)

Module Provider.

Inductive CredentialError :=
| ToolProviderCredentialValidationError (message : string).

(** What the [try] block of lines 27-59 can raise. *)
Inductive Raised :=
| Validation (err : CredentialError)
| Other (e : exn).

(** The environment of a tool built by [from_credentials(credentials)]. *)
Definition from_credentials (W : World) (credentials : list (string * pyval))
    : World :=
  {| credentials := credentials;
     self_get_file_content := self_get_file_content W;
     runtime_get_file_content := runtime_get_file_content W;
     runtime_get_file := runtime_get_file W;
     session_get_file_content := session_get_file_content W;
     session_get_file := session_get_file W;
     session_files_get := session_files_get W;
     session_file_get := session_file_get W;
     requests_get := requests_get W;
     requests_post := requests_post W;
     read_file := read_file W;
     wave_open := wave_open W;
     pydub_installed := pydub_installed W;
     ffmpeg_found := ffmpeg_found W;
     pydub_to_wav := pydub_to_wav W;
     py_repr := py_repr W;
     builtin_float := builtin_float W |}.

(** Lines 32-38 *)
Definition test_params : list (string * pyval) :=
  [ ("text", PyStr "test");
    ("voice", PyStr "marina");
    ("emotion", PyStr "neutral");
    ("speed", PyFloat 1%float);
    ("format", PyStr "mp3") ].

(** Lines 54-59 for one result: [Some t] when its text [t] starts with
    "Error:". *)
Definition reported_error (result : ToolInvokeMessage)
    : exn + option string :=
  match result with
  | TextMessage (PyStr message_text) =>
      inr (if startswith message_text "Error:" then Some message_text
           else None)
  | TextMessage (PyBytes _) | TextMessage (PyByteArray _) =>
      inl (mkExn TypeError
             "startswith first arg must be bytes or a tuple of bytes, not str")
  | TextMessage v =>
      inl (mkExn AttributeError
             ("'" ++ type_name v ++ "' object has no attribute 'startswith'"))
  | JsonMessage _ | BlobMessage _ _ => inr None
  end.

(** Lines 53-59: the loop over the results. *)
Fixpoint check_results (results : list ToolInvokeMessage) : Raised + unit :=
  match results with
  | [] => inr tt
  | result :: rest =>
      match reported_error result with
      | inl e => inl (Other e)
      | inr (Some message_text) =>
          inl (Validation
                 (ToolProviderCredentialValidationError
                    ("API validation failed: " ++ message_text)))
      | inr None => check_results rest
      end
  end.

(** Lines 66-82: the message chosen for an exception whose text is
    [error_msg]. *)
Definition classify (error_msg : string) : string :=
  if contains "401" error_msg || contains "unauthorized" (lower error_msg)
  then "Invalid API key - unauthorized access"
  else if contains "403" error_msg || contains "forbidden" (lower error_msg)
  then "API key does not have required permissions"
  else if contains "timeout" (lower error_msg)
  then "API request timeout - please check your connection"
  else "Credential validation failed: " ++ error_msg.

(** Lines 61-82: the two handlers. *)
Definition handle (r : Raised + unit) : CredentialError + unit :=
  match r with
  | inr tt => inr tt
  | inl (Validation err) => inl err
  | inl (Other e) =>
      inl (ToolProviderCredentialValidationError (classify (exn_msg e)))
  end.

(** The outcome, and the effects of the run: the messages the tool yields
    are consumed by [list(...)] and are no effect of the provider. *)
Definition _validate_credentials (W : World)
    (credentials : list (string * pyval)) : (CredentialError + unit) * Trace :=
  let api_key := dict_get credentials "api_key" in
  if negb (truthy api_key) then
    (inl (ToolProviderCredentialValidationError "API key is required"), [])
  else if match api_key with
          | PyStr s => (String.length (TextToSpeech.strip s) =? 0)%nat
          | _ => true
          end then
    (inl (ToolProviderCredentialValidationError "API key is required"), [])
  else
    let tts_tool := from_credentials W credentials in
    let run := TextToSpeech._invoke tts_tool test_params in
    (handle
       match outcome run with
       | inl e => inl (Other e)
       | inr _ =>
           let results := yielded (trace run) in
           match results with
           | [] =>
               inl (Validation
                      (ToolProviderCredentialValidationError
                         "No response from Yandex SpeechKit API"))
           | _ => check_results results
           end
       end,
     filter (fun ev => negb (is_yield ev)) (trace run)).

(** The request the validation sends for the key [s]. *)
Definition test_request (W : World) (s : string) : Request :=
  mkRequest TextToSpeech.tts_url [("Authorization", "Api-Key " ++ s)] []
    (PyDict [ ("text", PyStr "test");
              ("voice", PyStr "marina");
              ("speed", PyStr (py_repr W (PyFloat 1%float)));
              ("format", PyStr "mp3");
              ("lang", PyStr "ru-RU") ])
    30.

End Provider.

(** ** Further inputs and environments *)

Module Scenario.

(** Environments with an API key, whose endpoint gives the same outcome to
    every POST: one whose WAV parser refuses every input, and one in which
    every input parses as the two-frame mono container. *)
Definition synthesizing (post : exn + Response) : World :=
  Example.world Example.key Example.not_wav Example.unreachable post.

Definition recognizing (post : exn + Response) : World :=
  Example.world Example.key (Example.always Example.mono16)
    Example.unreachable post.

(** Responses: three bytes of audio, a recognized text, a rejected key. *)
Definition audio : Response :=
  Example.response 200 [x49; x44; x33] (inl (mkExn ValueError "")).

Definition heard : Response :=
  Example.response 200 [] (inr (PyDict [("result", PyStr "hello")])).

Definition unauthorized : Response :=
  Example.response 401 []
    (inr (PyDict [("error", PyDict [("message", PyStr "Invalid API key")])])).

Definition timed_out : exn + Response :=
  inl (mkExn Timeout "read timed out").

(** Synthesis parameters: a speed out of range; a blank text together with
    an unknown voice. *)
Definition too_fast : list (string * pyval) :=
  [("text", PyStr "hello"); ("speed", PyFloat 5%float)].



(** Recognition parameters: two bytes of audio, a number where the audio
    should be. *)
Definition wav_file : list (string * pyval) :=
  [("audio_file", PyBytes [x52; x49])].

Definition number_file : list (string * pyval) :=
  [("audio_file", PyInt 5)].

(** A managed file whose [download()] returns two bytes and whose [blob]
    holds something else. *)
Definition managed_file : pyval :=
  PyObject "File"
    [ ("download", Method (inr (PyBytes [x52; x49])));
      ("blob", Field (PyBytes [x00])) ].

(** A metadata mapping with an identifier and an absolute URL, and an
    environment in which the plugin's own [get_file_content] knows every
    identifier. *)
Definition metadata : list (string * pyval) :=
  [("id", PyStr "f-1"); ("url", PyStr "https://example.org/a.wav")].

Definition lookup_world : World :=
  {| credentials := [];
     self_get_file_content := Some (fun _ => inr (PyBytes [x52; x49]));
     runtime_get_file_content := None;
     runtime_get_file := None;
     session_get_file_content := None;
     session_get_file := None;
     session_files_get := None;
     session_file_get := None;
     requests_get := fun _ _ => Example.unreachable;
     requests_post := fun _ => Example.unreachable;
     read_file := fun _ => inl (mkExn OSError "No such file or directory");
     wave_open := Example.not_wav;
     pydub_installed := false;
     ffmpeg_found := false;
     pydub_to_wav := fun _ => inl (mkExn Exception "decoding failed");
     py_repr := fun _ => "<object>";
     builtin_float := fun _ => inl (mkExn TypeError "float() argument") |}.

(** A mapping with a relative URL only. *)
Definition relative : list (string * pyval) :=
  [("url", PyStr "/files/a.wav")].

(** Two stereo frames, (3, 4) and (-3, -4). *)
Definition pairs : bytes := [x03; x00; x04; x00; xfd; xff; xfc; xff].

(** One frame of a four-channel container, and three frames of a
    three-channel one, of which only two are whole stereo pairs. *)
Definition quad16 : WavReader :=
  mkWavReader 48000 2 4 1 [x01; x00; x03; x00; x05; x00; x07; x00].

Definition triple16 : WavReader :=
  mkWavReader 48000 2 3 1 [x01; x00; x03; x00; x05; x00].

Definition quad_world : World :=
  Example.world [] (Example.always quad16) Example.unreachable
    Example.unreachable.

End Scenario.

(** * Properties *)

(** ** Traces of composed computations *)

Section Silent.

Context {A B : Type} (p : Event -> bool).

Lemma silent_ret (a : A) : silent p (ret a).
Proof. reflexivity. Qed.

Lemma silent_raise (e : exn) : silent p (@raise A e).
Proof. reflexivity. Qed.

Lemma silent_lift (r : exn + A) : silent p (lift r).
Proof. reflexivity. Qed.

Lemma silent_emit (ev : Event) : p ev = false -> silent p (emit ev).
Proof. unfold silent, trace, emit. simpl. intros ->. reflexivity. Qed.

Lemma silent_bind (m : M A) (k : A -> M B) :
  silent p m -> (forall a, silent p (k a)) -> silent p (bind m k).
Proof.
  unfold silent, trace, bind. intros Hm Hk.
  destruct (fst m) as [e | a]; simpl; [exact Hm|].
  rewrite filter_app, Hm, Hk. reflexivity.
Qed.

Lemma silent_try (m : M A) (h : exn -> M A) :
  silent p m -> (forall e, silent p (h e)) -> silent p (try_except m h).
Proof.
  unfold silent, trace, try_except. intros Hm Hh.
  destruct (fst m) as [e | a]; simpl; [|exact Hm].
  rewrite filter_app, Hm, Hh. reflexivity.
Qed.

End Silent.

Lemma outcome_pair {A : Type} (r : exn + A) (t : Trace) : outcome (r, t) = r.
Proof. reflexivity. Qed.

Lemma trace_pair {A : Type} (r : exn + A) (t : Trace) : trace (r, t) = t.
Proof. reflexivity. Qed.

Section Steps.

Context {A B : Type}.

Lemma bind_inl (m : M A) (k : A -> M B) (e : exn) :
  outcome m = inl e -> bind m k = (inl e, trace m).
Proof. unfold outcome, trace, bind. intros ->. reflexivity. Qed.

Lemma bind_inr (m : M A) (k : A -> M B) (a : A) :
  outcome m = inr a ->
  bind m k = (outcome (k a), (trace m ++ trace (k a))%list).
Proof. unfold outcome, trace, bind. intros ->. reflexivity. Qed.

Lemma try_except_inl (m : M A) (h : exn -> M A) (e : exn) :
  outcome m = inl e ->
  try_except m h = (outcome (h e), (trace m ++ trace (h e))%list).
Proof. unfold outcome, trace, try_except. intros ->. reflexivity. Qed.

Lemma try_except_inr (m : M A) (h : exn -> M A) (a : A) :
  outcome m = inr a -> try_except m h = m.
Proof. unfold outcome, try_except. intros ->. reflexivity. Qed.

Lemma outcome_lift (r : exn + A) : outcome (lift r) = r.
Proof. reflexivity. Qed.

Lemma outcome_bind_inl (m : M A) (k : A -> M B) (e : exn) :
  outcome m = inl e -> outcome (bind m k) = inl e.
Proof. intros H. rewrite (bind_inl m k e H). reflexivity. Qed.

Lemma outcome_bind_inr (m : M A) (k : A -> M B) (a : A) :
  outcome m = inr a -> outcome (bind m k) = outcome (k a).
Proof. intros H. rewrite (bind_inr m k a H). reflexivity. Qed.

Lemma outcome_try_inl (m : M A) (h : exn -> M A) (e : exn) :
  outcome m = inl e -> outcome (try_except m h) = outcome (h e).
Proof. intros H. rewrite (try_except_inl m h e H). reflexivity. Qed.

Lemma outcome_try_inr (m : M A) (h : exn -> M A) (a : A) :
  outcome m = inr a -> outcome (try_except m h) = inr a.
Proof. intros H. rewrite (try_except_inr m h a H). exact H. Qed.

Lemma silent_bind_inl (p : Event -> bool) (m : M A) (k : A -> M B) (e : exn) :
  outcome m = inl e -> silent p m -> silent p (bind m k).
Proof. intros H Hm. unfold silent. rewrite (bind_inl m k e H). exact Hm. Qed.

Lemma silent_bind_inr (p : Event -> bool) (m : M A) (k : A -> M B) (a : A) :
  outcome m = inr a -> silent p m -> silent p (k a) -> silent p (bind m k).
Proof.
  intros H Hm Hk. unfold silent in *. rewrite (bind_inr m k a H), trace_pair.
  rewrite filter_app, Hm, Hk. reflexivity.
Qed.

Lemma silent_try_inl (p : Event -> bool) (m : M A) (h : exn -> M A) (e : exn) :
  outcome m = inl e -> silent p m -> silent p (h e) ->
  silent p (try_except m h).
Proof.
  intros H Hm Hh. unfold silent in *.
  rewrite (try_except_inl m h e H), trace_pair.
  rewrite filter_app, Hm, Hh. reflexivity.
Qed.

Lemma silent_try_inr (p : Event -> bool) (m : M A) (h : exn -> M A) (a : A) :
  outcome m = inr a -> silent p m -> silent p (try_except m h).
Proof. intros H Hm. rewrite (try_except_inr m h a H). exact Hm. Qed.

End Steps.

Lemma calls_app (method : string) (t1 t2 : Trace) :
  calls method (t1 ++ t2)%list = (calls method t1 ++ calls method t2)%list.
Proof. apply filter_app. Qed.

(** Decompose a computation along its binds, handlers and case analyses. *)
Ltac silence :=
  repeat first
    [ apply silent_ret
    | apply silent_raise
    | apply silent_lift
    | apply silent_emit; reflexivity
    | apply silent_bind; [|intros]
    | apply silent_try; [|intros]
    | match goal with
      | |- silent _ (match ?x with _ => _ end) => destruct x
      end ].

Lemma trace_bind_emit {A : Type} (ev : Event) (k : unit -> M A) :
  trace (bind (emit ev) k) = ev :: trace (k tt).
Proof. reflexivity. Qed.

Lemma outcome_bind_emit {A : Type} (ev : Event) (k : unit -> M A) :
  outcome (bind (emit ev) k) = outcome (k tt).
Proof. reflexivity. Qed.

Lemma silent_bind_emit {A : Type} (p : Event -> bool) (ev : Event)
    (k : unit -> M A) :
  p ev = false -> silent p (k tt) -> silent p (bind (emit ev) k).
Proof.
  intros Hev Hk. unfold silent in *. rewrite trace_bind_emit. cbn [filter].
  rewrite Hev. exact Hk.
Qed.

(** ** Acquisition, WAV parsing, normalization, recognition *)

Section Recognition.

Import SpeechToText.

Lemma try_accessors_silent (p : Event -> bool)
    (accs : list (string * Accessor)) (related_id : pyval)
    (otherwise : M pyval) :
  (forall name id, p (GetFile name id) = false) ->
  (forall l m, p (Log l m) = false) ->
  silent p otherwise ->
  silent p (try_accessors accs related_id otherwise).
Proof.
  intros Hget Hlog Ho. induction accs as [|acc accs IH]; [exact Ho|].
  cbn [try_accessors]. apply silent_bind.
  - unfold try_accessor. apply silent_try.
    + destruct (snd acc); [|apply silent_ret].
      apply silent_bind; [apply silent_emit, Hget|]. intros _.
      apply silent_bind; [apply silent_lift|]. intros res. silence.
    + intros e. apply silent_bind; [apply silent_emit, Hlog|]. intros _.
      apply silent_ret.
  - intros [v|]; [apply silent_ret | exact IH].
Qed.

Lemma get_audio_data_never_yields (W : World) (audio_file : pyval) :
  silent is_yield (_get_audio_data_from_file W audio_file).
Proof.
  unfold _get_audio_data_from_file.
  apply silent_bind; [apply silent_emit; reflexivity|]. intros _.
  apply silent_try; [|intros; silence].
  destruct (hasattr audio_file "download" || hasattr audio_file "blob").
  - unfold from_dify_file, fetch. silence.
  - destruct (getattr audio_file "read"); [silence|].
    destruct audio_file; silence.
    unfold from_metadata.
    apply try_accessors_silent; try reflexivity.
    unfold fetch. silence.
Qed.

Lemma normalize_gain_trace (raw : bytes) : trace (normalize_gain raw) = [].
Proof.
  unfold normalize_gain, trace, try_except, bind, lift, ret.
  destruct (audioop.rms raw) as [e | rms]; [reflexivity|]. cbn [fst snd].
  destruct (negb (Qeq_bool (gain_for_rms rms) 1)); [|reflexivity].
  destruct (audioop.mul raw (gain_for_rms rms)); reflexivity.
Qed.

Lemma normalize_gain_silent (p : Event -> bool) (raw : bytes) :
  silent p (normalize_gain raw).
Proof. unfold silent. rewrite normalize_gain_trace. reflexivity. Qed.

(** Besides its entry event, [_convert_wav_to_pcm] only opens the container,
    reads frames and logs. *)
Lemma convert_wav_to_pcm_trace (W : World) (p : Event -> bool)
    (wav_data : pyval) :
  (forall b, p (WaveOpen b) = false) ->
  (forall n, p (ReadFrames n) = false) ->
  (forall l m, p (Log l m) = false) ->
  filter p (trace (_convert_wav_to_pcm W wav_data))
  = filter p [Call "_convert_wav_to_pcm"].
Proof.
  intros Hw Hr Hl. unfold _convert_wav_to_pcm. rewrite trace_bind_emit.
  cbn [filter].
  match goal with |- context [filter p (trace ?m)] =>
    assert (Hrest : silent p m) end.
  { apply silent_try.
    - apply silent_bind; [apply silent_lift|]. intros buf.
      apply silent_bind; [apply silent_emit, Hw|]. intros _.
      apply silent_bind; [apply silent_lift|]. intros r.
      destruct (negb (sampwidth r =? 2)); [apply silent_raise|].
      apply silent_bind; [apply silent_emit, Hr|]. intros _.
      apply silent_bind; [destruct (nchannels r >? 1); silence|]. intros raw.
      apply silent_bind; [apply normalize_gain_silent|]. intros; silence.
    - intros e. apply silent_bind; [apply silent_emit, Hl|]. intros; silence. }
  unfold silent in Hrest. rewrite Hrest. reflexivity.
Qed.

(** Besides its entry event, [_convert_audio_to_wav] only transcodes and
    logs. *)
Lemma convert_audio_to_wav_trace (W : World) (p : Event -> bool)
    (audio_data : pyval) :
  (forall b, p (Transcode b) = false) ->
  (forall l m, p (Log l m) = false) ->
  filter p (trace (_convert_audio_to_wav W audio_data))
  = filter p [Call "_convert_audio_to_wav"].
Proof.
  intros Ht Hl. unfold _convert_audio_to_wav. rewrite trace_bind_emit.
  cbn [filter].
  match goal with |- context [filter p (trace ?m)] =>
    assert (Hrest : silent p m) end.
  { apply silent_try.
    - destruct (pydub_installed W); [|apply silent_raise].
      apply silent_bind.
      { destruct (ffmpeg_found W); [apply silent_ret | apply silent_emit, Hl]. }
      intros _. apply silent_bind; [apply silent_lift|]. intros buf.
      apply silent_bind; [apply silent_emit, Ht|]. intros; silence.
    - intros e. destruct (isinstance_exn e ImportError);
        (apply silent_bind; [apply silent_emit, Hl|]; intros; silence). }
  unfold silent in Hrest. rewrite Hrest. reflexivity.
Qed.

Lemma normalize_never_yields (W : World) (audio_data : pyval) :
  silent is_yield (normalize W audio_data).
Proof.
  unfold normalize, silent.
  assert (Hp : forall d, filter is_yield (trace (_convert_wav_to_pcm W d)) = []).
  { intros d. rewrite convert_wav_to_pcm_trace; reflexivity. }
  apply silent_try; [apply Hp|]. intros _.
  apply silent_bind; [|intros; apply Hp].
  unfold silent. rewrite convert_audio_to_wav_trace; reflexivity.
Qed.

Lemma absolute_url_ok (u : string) :
  startswith (lower u) "http://" = true \/
  startswith (lower u) "https://" = true ->
  is_absolute_url (PyStr u) = Some u /\ truthy (PyStr u) = true.
Proof.
  intros H. split.
  - unfold is_absolute_url. destruct H as [H | H]; rewrite H.
    + reflexivity.
    + rewrite orb_true_r. reflexivity.
  - destruct u as [|c u]; [destruct H; discriminate | reflexivity].
Qed.

(** C9: acquisition of an audio reference that is already raw bytes returns
    exactly those bytes, for every byte string and in every environment; it
    performs no effect besides entering the method. *)
Theorem raw_bytes_pass_through (W : World) (b : bytes) :
  outcome (_get_audio_data_from_file W (PyBytes b)) = inr (PyBytes b) /\
  trace (_get_audio_data_from_file W (PyBytes b))
  = [Call "_get_audio_data_from_file"].
Proof.
  split; reflexivity.
Qed.

(** C7: for a metadata mapping whose identifiers are absent or empty and whose
    [remote_url] is an absolute HTTP(S) URL, acquisition issues exactly one
    GET, to that URL with a 30 second timeout.  When the fetch succeeds the
    response body is what acquisition returns.  When it fails (the request
    raises, or the status is an error status) the failure is logged and
    acquisition ends with its own final error, not with the fetch's. *)
Theorem remote_url_mapping_fetch (W : World) (d : list (string * pyval))
    (u : string) :
  truthy (dict_get d "related_id") = false ->
  truthy (dict_get d "id") = false ->
  dict_get d "remote_url" = PyStr u ->
  startswith (lower u) "http://" = true \/
  startswith (lower u) "https://" = true ->
  let run := _get_audio_data_from_file W (PyDict d) in
  filter is_http_get (trace run) = [HttpGet u 30] /\
  (forall resp,
      requests_get W u 30 = inr resp -> raise_for_status resp = inr tt ->
      outcome run = inr (PyBytes (content resp))) /\
  (forall e,
      requests_get W u 30 = inl e \/
      (exists resp, requests_get W u 30 = inr resp /\
                    raise_for_status resp = inl e) ->
      outcome run = inl no_bytes_from_metadata /\
      In (Log Debug ("Absolute URL fetch failed: " ++ exn_msg e)) (trace run)).
Proof.
  intros Hrel Hid Hurl Habs run.
  destruct (absolute_url_ok u Habs) as [Hisabs Htruthy].
  assert (Hrun : run =
    bind (emit (Call "_get_audio_data_from_file"))
      (fun _ => try_except
         (r <- try_except (v <- fetch W u;; ret (Some v))
                 (fun url_err =>
                    emit (Log Debug ("Absolute URL fetch failed: "
                                       ++ exn_msg url_err));;
                    ret None);;
          match r with
          | Some v => ret v
          | None => raise no_bytes_from_metadata
          end)
         (fun e =>
            emit (Log Error ("Error extracting audio data: " ++ exn_msg e));;
            raise e))).
  { unfold run, _get_audio_data_from_file, from_metadata. cbn [hasattr getattr orb].
    unfold py_or at 1. rewrite Hrel, Hid. cbn [try_accessors].
    unfold py_or. rewrite Hurl, Htruthy, Hisabs. reflexivity. }
  rewrite Hrun. unfold fetch.
  destruct (requests_get W u 30) as [e | resp] eqn:Hget.
  - split; [reflexivity|]. split.
    + intros resp Hr. discriminate.
    + intros e' [He | [resp [Hr _]]]; [|discriminate].
      injection He as <-. split; [reflexivity|]. cbn. auto.
  - destruct (raise_for_status resp) as [e | []] eqn:Hst.
    + unfold bind, try_except, emit, lift, ret, raise, trace, outcome.
      cbn. rewrite Hst. cbn. split; [reflexivity|]. split.
      * intros resp' Hr Hs. injection Hr as <-. congruence.
      * intros e' [He | [resp' [Hr Hs]]]; [discriminate|].
        injection Hr as <-. rewrite Hst in Hs. injection Hs as <-.
        split; [reflexivity|]. cbn. auto.
    + unfold bind, try_except, emit, lift, ret, raise, trace, outcome.
      cbn. rewrite Hst. cbn. split; [reflexivity|]. split.
      * intros resp' Hr Hs. injection Hr as <-. reflexivity.
      * intros e' [He | [resp' [Hr Hs]]]; [discriminate|].
        injection Hr as <-. congruence.
Qed.

Lemma remote_url_mapping_fetch_witness :
  outcome (_get_audio_data_from_file Example.web
             (PyDict [("remote_url", PyStr "HTTP://example.org/a.wav")]))
  = inr (PyBytes [x52; x49]).
Proof.
  refine (proj1 (proj2 (remote_url_mapping_fetch Example.web
            [("remote_url", PyStr "HTTP://example.org/a.wav")]
            "HTTP://example.org/a.wav" _ _ _ _))
            (Example.response 200 [x52; x49] (inl (mkExn ValueError ""))) _ _);
    solve [reflexivity | left; reflexivity].
Defined.

(** ** Samples and fragments *)

Lemma clamp_in_range (v : Z) : in_range (clamp v).
Proof. unfold in_range, clamp. lia. Qed.

Lemma byte_of_Z_value (z : Z) :
  Z.of_N (Byte.to_N (audioop.byte_of_Z z)) = z mod 256.
Proof.
  unfold audioop.byte_of_Z.
  assert (Hb : 0 <= z mod 256 < 256) by (apply Z.mod_pos_bound; lia).
  destruct (Byte.of_N (Z.to_N (z mod 256))) as [b|] eqn:E.
  - apply Byte.to_of_N in E. rewrite E. lia.
  - apply Byte.of_N_None_iff in E. lia.
Qed.

Lemma getsample_in_range (b0 b1 : byte) : in_range (audioop.getsample b0 b1).
Proof.
  unfold in_range, audioop.getsample.
  pose proof (Byte.to_N_bounded b0). pose proof (Byte.to_N_bounded b1).
  destruct (_ <? 32768) eqn:E; [apply Z.ltb_lt in E | apply Z.ltb_ge in E]; lia.
Qed.

Lemma getsample_setsample (v : Z) :
  in_range v ->
  audioop.getsample (audioop.byte_of_Z v) (audioop.byte_of_Z (v / 256)) = v.
Proof.
  unfold in_range, audioop.getsample. intros Hv.
  rewrite !byte_of_Z_value.
  pose proof (Z.div_mod v 256 ltac:(lia)) as Hd.
  pose proof (Z.mod_pos_bound v 256 ltac:(lia)) as Hm.
  assert (Hq : -128 <= v / 256 <= 127).
  { split.
    - apply Z.div_le_lower_bound; lia.
    - apply Z.lt_succ_r. apply Z.div_lt_upper_bound; lia. }
  destruct (Z.ltb_spec 0 (v / 256 + 1)) as [Hpos | Hneg].
  - rewrite (Z.mod_small (v / 256) 256) by lia.
    destruct (Z.ltb_spec (v mod 256 + 256 * (v / 256)) 32768); lia.
  - replace ((v / 256) mod 256) with (v / 256 + 256).
    + destruct (Z.ltb_spec (v mod 256 + 256 * (v / 256 + 256)) 32768); lia.
    + apply Z.mod_unique with (q := -1); lia.
Qed.

Lemma samples_in_range (fragment : bytes) :
  Forall in_range (audioop.samples fragment).
Proof.
  assert (H : forall n l, (List.length l <= n)%nat ->
                          Forall in_range (audioop.samples l)).
  { induction n as [|n IH]; intros l Hl.
    - destruct l; [constructor | simpl in Hl; lia].
    - destruct l as [|a [|b l]]; try constructor.
      + apply getsample_in_range.
      + apply IH. simpl in Hl. lia. }
  apply (H (List.length fragment)). lia.
Qed.

Lemma whole_2_even (l : bytes) :
  audioop.whole 2 l = true -> exists n, List.length l = (2 * n)%nat.
Proof.
  unfold audioop.whole. intros H. apply Z.eqb_eq in H.
  exists (Z.to_nat (Z.of_nat (List.length l) / 2)).
  pose proof (Z.div_mod (Z.of_nat (List.length l)) 2 ltac:(lia)). lia.
Qed.

Lemma even_whole_2 (l : bytes) (n : nat) :
  List.length l = (2 * n)%nat -> audioop.whole 2 l = true.
Proof.
  unfold audioop.whole. intros ->. apply Z.eqb_eq.
  rewrite Nat2Z.inj_mul, Z.mul_comm. apply Z.mod_mul. lia.
Qed.

Lemma samples_length (n : nat) :
  forall l : bytes, List.length l = (2 * n)%nat ->
                    List.length (audioop.samples l) = n.
Proof.
  induction n as [|n IH]; intros l Hl.
  - destruct l; [reflexivity | discriminate].
  - destruct l as [|a [|b l]]; simpl in Hl; try lia.
    simpl. f_equal. apply IH. lia.
Qed.

Lemma tomono_samples_length (lf rf : Q) (n : nat) :
  forall s : list Z, List.length s = (2 * n)%nat ->
                     List.length (audioop.tomono_samples lf rf s) = (2 * n)%nat.
Proof.
  induction n as [|n IH]; intros s Hs.
  - destruct s; [reflexivity | discriminate].
  - destruct s as [|a [|b s]]; simpl in Hs; try lia.
    simpl. rewrite IH by lia. lia.
Qed.

Lemma concat_setsample_length (f : Z -> Z) (s : list Z) :
  List.length (List.concat (map (fun v => audioop.setsample (f v)) s))
  = (2 * List.length s)%nat.
Proof.
  induction s as [|v s IH]; [reflexivity|].
  simpl. rewrite IH. lia.
Qed.

Lemma samples_concat_setsample (f : Z -> Z) (s : list Z) :
  (forall v, in_range (f v)) ->
  audioop.samples (List.concat (map (fun v => audioop.setsample (f v)) s))
  = map f s.
Proof.
  intros Hf. induction s as [|v s IH]; [reflexivity|].
  simpl. rewrite getsample_setsample by apply Hf. f_equal. exact IH.
Qed.

(** [fbound] of an integer: the integer, saturated. *)
Lemma fbound_integer (z : Z) :
  audioop.fbound (inject_Z z) audioop.minval audioop.maxval = clamp z.
Proof.
  unfold audioop.fbound, audioop.Qltb, audioop.minval, audioop.maxval, clamp,
    Qle_bool. simpl. rewrite !Z.mul_1_r.
  destruct (Z.leb_spec z 32767); cbn [negb].
  - destruct (Z.leb_spec (-32767) z); cbn [negb]; rewrite Qfloor_Z; lia.
  - rewrite Qfloor_Z. lia.
Qed.

Lemma fbound_scaled (v n : Z) :
  audioop.fbound (inject_Z v * inject_Z n)%Q audioop.minval audioop.maxval
  = clamp (v * n).
Proof.
  rewrite <- fbound_integer. unfold audioop.fbound, audioop.Qltb, Qle_bool.
  simpl. reflexivity.
Qed.

Lemma mul_ok (raw : bytes) (factor : Q) :
  audioop.whole 2 raw = true ->
  exists out, audioop.mul raw factor = inr out /\
              List.length out = List.length raw.
Proof.
  intros H. unfold audioop.mul. rewrite H. eexists. split; [reflexivity|].
  destruct (whole_2_even raw H) as [n Hn].
  rewrite (concat_setsample_length
             (fun v => audioop.fbound (inject_Z v * factor)%Q
                         audioop.minval audioop.maxval)).
  rewrite (samples_length n raw Hn). lia.
Qed.

Lemma rms_ok (raw : bytes) (rms : Z) :
  audioop.rms raw = inr rms -> audioop.whole 2 raw = true /\ 0 <= rms.
Proof.
  unfold audioop.rms. destruct (audioop.whole 2 raw); [|discriminate].
  intros H. injection H as <-. split; [reflexivity|].
  destruct (audioop.samples raw); [lia | apply Z.sqrt_nonneg].
Qed.

Lemma whole_2_rms (raw : bytes) :
  audioop.whole 2 raw = true -> exists rms, audioop.rms raw = inr rms.
Proof.
  intros H. unfold audioop.rms. rewrite H. eexists. reflexivity.
Qed.

Lemma normalize_gain_ok (raw : bytes) :
  audioop.whole 2 raw = true ->
  exists out, normalize_gain raw = (inr out, []) /\
              List.length out = List.length raw.
Proof.
  intros H. destruct (whole_2_rms raw H) as [rms Hrms].
  unfold normalize_gain. rewrite Hrms.
  unfold bind, try_except, lift, ret. cbn [fst snd].
  destruct (negb (Qeq_bool (gain_for_rms rms) 1)).
  - destruct (mul_ok raw (gain_for_rms rms) H) as [out [Hout Hlen]].
    rewrite Hout. cbn. exists out. split; [reflexivity | exact Hlen].
  - cbn. exists raw. split; reflexivity.
Qed.

Lemma readframes_length (r : WavReader) :
  0 <= nframes r -> 0 <= framesize r ->
  nframes r * framesize r <= Z.of_nat (List.length (data_chunk r)) ->
  List.length (readframes r (nframes r)) = Z.to_nat (nframes r * framesize r).
Proof.
  intros Hn Hf Hlen. unfold readframes. apply firstn_length_le. lia.
Qed.

Lemma tomono_ok (raw : bytes) (lf rf : Q) (n : nat) :
  List.length raw = (4 * n)%nat ->
  exists mono, audioop.tomono raw lf rf = inr mono /\
               List.length mono = (2 * n)%nat.
Proof.
  intros Hlen. unfold audioop.tomono.
  rewrite (even_whole_2 raw (2 * n)) by lia.
  replace (audioop.whole 4 raw) with true.
  - cbn. eexists. split; [reflexivity|].
    apply tomono_samples_length. apply samples_length. lia.
  - symmetry. unfold audioop.whole. rewrite Hlen. apply Z.eqb_eq.
    rewrite Nat2Z.inj_mul, Z.mul_comm. apply Z.mod_mul. lia.
Qed.

(** A complete 16-bit mono or stereo container parses: the trace is the
    three library steps, the rate is the header's, the PCM holds one 16-bit
    sample per frame. *)
Lemma convert_wav_to_pcm_ok (W : World) (wav_data : pyval) (buf : bytes)
    (r : WavReader) :
  BytesIO wav_data = inr buf ->
  wave_open W buf = inr r ->
  sampwidth r = 2 ->
  nchannels r = 1 \/ nchannels r = 2 ->
  0 <= nframes r ->
  nframes r * framesize r <= Z.of_nat (List.length (data_chunk r)) ->
  exists pcm,
    _convert_wav_to_pcm W wav_data
    = (inr (pcm, framerate r),
       [Call "_convert_wav_to_pcm"; WaveOpen buf; ReadFrames (nframes r)]) /\
    Z.of_nat (List.length pcm) = 2 * nframes r.
Proof.
  intros Hbuf Hopen Hw Hch Hn Hdata.
  assert (Hfs : framesize r = 2 * nchannels r) by (unfold framesize; lia).
  pose proof (readframes_length r Hn ltac:(lia) Hdata) as Hraw.
  unfold _convert_wav_to_pcm. rewrite Hbuf.
  unfold bind, try_except, lift, emit, ret. cbn [fst snd]. rewrite Hopen.
  cbn [fst snd]. rewrite Hw. cbn [Z.eqb Pos.eqb negb fst snd].
  rewrite Hfs in Hraw.
  destruct Hch as [Hch | Hch]; rewrite Hch in *; cbn [Z.gtb Z.compare Pos.compare
    Pos.compare_cont fst snd].
  - destruct (normalize_gain_ok (readframes r (nframes r))) as [out [Ho Hl]].
    { apply (even_whole_2 _ (Z.to_nat (nframes r))). lia. }
    rewrite Ho. cbn [fst snd app]. exists out. split; [reflexivity | lia].
  - destruct (tomono_ok (readframes r (nframes r)) (1 # 2) (1 # 2)
                (Z.to_nat (nframes r))) as [mono [Hm Hml]]; [lia|].
    rewrite Hm. cbn [fst snd].
    destruct (normalize_gain_ok mono) as [out [Ho Hl]].
    { apply (even_whole_2 _ (Z.to_nat (nframes r))). lia. }
    rewrite Ho. cbn [fst snd app]. exists out. split; [reflexivity | lia].
Qed.

(** ** WAV parsing and gain *)

(** C6, as amended: a 16-bit mono or stereo container whose data chunk holds
    the frames its header declares parses successfully; the PCM returned has
    two bytes per frame (stereo is mixed down to one sample per frame) and
    the rate returned is the header's. *)
Theorem pcm_two_bytes_per_frame (W : World) (wav_data : pyval) (buf : bytes)
    (r : WavReader) :
  BytesIO wav_data = inr buf ->
  wave_open W buf = inr r ->
  sampwidth r = 2 ->
  nchannels r = 1 \/ nchannels r = 2 ->
  0 <= nframes r ->
  nframes r * framesize r <= Z.of_nat (List.length (data_chunk r)) ->
  exists pcm,
    outcome (_convert_wav_to_pcm W wav_data) = inr (pcm, framerate r) /\
    Z.of_nat (List.length pcm) = 2 * nframes r.
Proof.
  intros Hbuf Hopen Hw Hch Hn Hdata.
  destruct (convert_wav_to_pcm_ok W wav_data buf r Hbuf Hopen Hw Hch Hn Hdata)
    as [pcm [Hrun Hlen]].
  exists pcm. rewrite Hrun. split; [reflexivity | exact Hlen].
Qed.

Lemma pcm_two_bytes_per_frame_witness :
  exists pcm,
    outcome (_convert_wav_to_pcm Example.stereo_world (PyBytes [x52; x49]))
    = inr (pcm, 44100) /\
    Z.of_nat (List.length pcm) = 2 * 2.
Proof.
  apply (pcm_two_bytes_per_frame Example.stereo_world (PyBytes [x52; x49])
           [x52; x49] Example.stereo16);
    solve [reflexivity | right; reflexivity | cbn; lia | discriminate].
Defined.

(** C6 as the specification states it fails: a mono 16-bit container whose
    header declares two frames and whose data chunk holds three bytes parses,
    and the PCM returned is those three bytes, not two bytes for each of the
    two frames. *)
Lemma pcm_two_bytes_per_frame_counterexample :
  BytesIO (PyBytes [x52; x49]) = inr [x52; x49] /\
  wave_open Example.truncated_world [x52; x49] = inr Example.truncated16 /\
  sampwidth Example.truncated16 = 2 /\
  nchannels Example.truncated16 = 1 /\
  nframes Example.truncated16 = 2 /\
  outcome (_convert_wav_to_pcm Example.truncated_world (PyBytes [x52; x49]))
  = inr ([x10; x00; x20], 16000) /\
  Z.of_nat (List.length [x10; x00; x20]) <> 2 * nframes Example.truncated16.
Proof.
  repeat split; try reflexivity. cbn. lia.
Qed.

(** C4: a container whose sample width is not 2 bytes is rejected with a
    [ValueError] whose message gives the width in bits; no PCM is returned
    and no frame is read. *)
Theorem non_16_bit_rejected (W : World) (wav_data : pyval) (buf : bytes)
    (r : WavReader) :
  BytesIO wav_data = inr buf ->
  wave_open W buf = inr r ->
  sampwidth r <> 2 ->
  outcome (_convert_wav_to_pcm W wav_data)
  = inl (mkExn ValueError
           ("Failed to process WAV file: Unsupported WAV sample width: "
            ++ str_of_Z (sampwidth r * 8)
            ++ " bits. Only 16-bit PCM supported")) /\
  silent is_read_frames (_convert_wav_to_pcm W wav_data).
Proof.
  intros Hbuf Hopen Hw. apply Z.eqb_neq in Hw.
  unfold silent, outcome, trace, _convert_wav_to_pcm. rewrite Hbuf.
  unfold bind, try_except, lift, emit, ret, raise. cbn [fst snd].
  rewrite Hopen. cbn [fst snd]. rewrite Hw. split; reflexivity.
Qed.

Lemma non_16_bit_rejected_witness :
  outcome (_convert_wav_to_pcm Example.eight_bit_world (PyBytes [x52; x49]))
  = inl (mkExn ValueError
           ("Failed to process WAV file: Unsupported WAV sample width: 8"
            ++ " bits. Only 16-bit PCM supported")).
Proof.
  apply (non_16_bit_rejected Example.eight_bit_world (PyBytes [x52; x49])
           [x52; x49] Example.mono8);
    solve [reflexivity | discriminate].
Defined.

(** C5: multiplying a fragment of 16-bit samples by the gain 4.0 or 2.0
    succeeds, keeps the number of samples, and turns every sample [v] into
    [v] times the gain saturated to [-32768, 32767]; no output sample lies
    outside that range. *)
Theorem gain_saturates (raw : bytes) (n : Z) :
  audioop.whole 2 raw = true ->
  n = 4 \/ n = 2 ->
  exists out,
    audioop.mul raw (inject_Z n) = inr out /\
    audioop.samples out = map (fun v => clamp (v * n)) (audioop.samples raw) /\
    Forall in_range (audioop.samples out).
Proof.
  intros Hw Hn. unfold audioop.mul. rewrite Hw. eexists.
  split; [reflexivity|].
  assert (Hs : audioop.samples
                 (List.concat
                    (map (fun v => audioop.setsample
                                     (audioop.fbound (inject_Z v * inject_Z n)%Q
                                        audioop.minval audioop.maxval))
                       (audioop.samples raw)))
               = map (fun v => clamp (v * n)) (audioop.samples raw)).
  { rewrite (samples_concat_setsample
               (fun v => audioop.fbound (inject_Z v * inject_Z n)%Q
                           audioop.minval audioop.maxval)).
    - apply map_ext. intros v. apply fbound_scaled.
    - intros v. rewrite fbound_scaled. apply clamp_in_range. }
  split; [exact Hs | apply samples_in_range].
Qed.

Lemma gain_saturates_witness :
  exists out,
    audioop.mul Example.loud 4 = inr out /\
    audioop.samples out = [32767; -32768; 400] /\
    Forall in_range (audioop.samples out).
Proof.
  apply (gain_saturates Example.loud 4); [reflexivity | left; reflexivity].
Defined.

(** The gain block on a signal whose RMS is known. *)
Lemma normalize_gain_law (raw : bytes) (rms : Z) :
  audioop.rms raw = inr rms ->
  (0 < rms < 300 ->
   gain_for_rms rms = 4%Q /\
   outcome (normalize_gain raw) = audioop.mul raw 4) /\
  (300 <= rms < 1000 ->
   gain_for_rms rms = 2%Q /\
   outcome (normalize_gain raw) = audioop.mul raw 2) /\
  (rms = 0 \/ 1000 <= rms ->
   gain_for_rms rms = 1%Q /\
   outcome (normalize_gain raw) = inr raw).
Proof.
  intros Hrms. destruct (rms_ok raw rms Hrms) as [Hw Hpos].
  assert (Hrun : forall g,
             gain_for_rms rms = g ->
             outcome (normalize_gain raw)
             = if negb (Qeq_bool g 1) then audioop.mul raw g else inr raw).
  { intros g <-. unfold outcome, normalize_gain. rewrite Hrms.
    unfold bind, try_except, lift, ret. cbn [fst snd].
    destruct (negb (Qeq_bool (gain_for_rms rms) 1)); [|reflexivity].
    destruct (mul_ok raw (gain_for_rms rms) Hw) as [out [Hout _]].
    rewrite Hout. reflexivity. }
  unfold gain_for_rms in *. cbn [truthy] in *.
  repeat split.
  - destruct (Z.eqb_spec rms 0), (Z.ltb_spec rms 300); try lia. reflexivity.
  - apply (Hrun 4%Q).
    destruct (Z.eqb_spec rms 0), (Z.ltb_spec rms 300); try lia. reflexivity.
  - destruct (Z.eqb_spec rms 0), (Z.ltb_spec rms 300), (Z.ltb_spec rms 1000);
      try lia. reflexivity.
  - apply (Hrun 2%Q).
    destruct (Z.eqb_spec rms 0), (Z.ltb_spec rms 300), (Z.ltb_spec rms 1000);
      try lia. reflexivity.
  - destruct (Z.eqb_spec rms 0), (Z.ltb_spec rms 300), (Z.ltb_spec rms 1000);
      try lia; reflexivity.
  - apply (Hrun 1%Q).
    destruct (Z.eqb_spec rms 0), (Z.ltb_spec rms 300), (Z.ltb_spec rms 1000);
      try lia; reflexivity.
Qed.

(** C2, as amended: let [mono] be the 16-bit signal [_convert_wav_to_pcm] has
    after the downmix step and [rms] the RMS [audioop.rms] returns for it
    (the integer part of the root mean square).  The PCM returned is [mono]
    times 4.0 for an RMS from 1 to 299, [mono] times 2.0 for an RMS from 300
    to 999, and [mono] itself for an RMS of 1000 or more and for an RMS
    of 0. *)
Theorem gain_law (W : World) (wav_data : pyval) (buf : bytes) (r : WavReader)
    (mono : bytes) (rms : Z) :
  BytesIO wav_data = inr buf ->
  wave_open W buf = inr r ->
  sampwidth r = 2 ->
  (if nchannels r >? 1
   then audioop.tomono (readframes r (nframes r)) (1 # 2) (1 # 2)
   else inr (readframes r (nframes r))) = inr mono ->
  audioop.rms mono = inr rms ->
  let result := outcome (_convert_wav_to_pcm W wav_data) in
  (0 < rms < 300 ->
   gain_for_rms rms = 4%Q /\
   exists pcm, audioop.mul mono 4 = inr pcm /\ result = inr (pcm, framerate r)) /\
  (300 <= rms < 1000 ->
   gain_for_rms rms = 2%Q /\
   exists pcm, audioop.mul mono 2 = inr pcm /\ result = inr (pcm, framerate r)) /\
  (rms = 0 \/ 1000 <= rms ->
   gain_for_rms rms = 1%Q /\ result = inr (mono, framerate r)).
Proof.
  intros Hbuf Hopen Hw Hmono Hrms result.
  destruct (rms_ok mono rms Hrms) as [Hwhole _].
  assert (Hresult : result
                    = match outcome (normalize_gain mono) with
                      | inr pcm => inr (pcm, framerate r)
                      | inl e =>
                          inl (mkExn ValueError
                                 ("Failed to process WAV file: " ++ exn_msg e))
                      end).
  { unfold result, _convert_wav_to_pcm. rewrite outcome_bind_emit.
    pose proof (Hbuf : outcome (lift (BytesIO wav_data)) = inr buf) as Hbuf'.
    pose proof (Hopen : outcome (lift (wave_open W buf)) = inr r) as Hopen'.
    assert (Hmono' : outcome (if nchannels r >? 1
                              then lift (audioop.tomono
                                           (readframes r (nframes r))
                                           (1 # 2) (1 # 2))
                              else ret (readframes r (nframes r)))
                     = inr mono).
    { destruct (nchannels r >? 1); exact Hmono. }
    destruct (outcome (normalize_gain mono)) as [e | pcm] eqn:Hgain.
    - rewrite (outcome_try_inl _ _ e); [reflexivity|].
      rewrite (outcome_bind_inr _ _ buf Hbuf'), outcome_bind_emit.
      rewrite (outcome_bind_inr _ _ r Hopen'). rewrite Hw. cbn [Z.eqb Pos.eqb negb].
      rewrite outcome_bind_emit, (outcome_bind_inr _ _ mono Hmono').
      apply outcome_bind_inl. exact Hgain.
    - apply outcome_try_inr.
      rewrite (outcome_bind_inr _ _ buf Hbuf'), outcome_bind_emit.
      rewrite (outcome_bind_inr _ _ r Hopen'). rewrite Hw. cbn [Z.eqb Pos.eqb negb].
      rewrite outcome_bind_emit, (outcome_bind_inr _ _ mono Hmono').
      rewrite (outcome_bind_inr _ _ pcm Hgain). reflexivity. }
  destruct (normalize_gain_law mono rms Hrms) as [H4 [H2 H1]].
  split; [|split].
  - intros Hr. destruct (H4 Hr) as [Hg Ho]. split; [exact Hg|].
    destruct (mul_ok mono 4 Hwhole) as [pcm [Hpcm _]]. exists pcm.
    split; [exact Hpcm|]. rewrite Hresult, Ho, Hpcm. reflexivity.
  - intros Hr. destruct (H2 Hr) as [Hg Ho]. split; [exact Hg|].
    destruct (mul_ok mono 2 Hwhole) as [pcm [Hpcm _]]. exists pcm.
    split; [exact Hpcm|]. rewrite Hresult, Ho, Hpcm. reflexivity.
  - intros Hr. destruct (H1 Hr) as [Hg Ho]. split; [exact Hg|].
    rewrite Hresult, Ho. reflexivity.
Qed.

Lemma gain_law_witness :
  outcome (_convert_wav_to_pcm Example.quiet_world (PyBytes [x52; x49]))
  = inr ([xe8; x03; xe8; x03], 16000).
Proof.
  destruct (proj1 (gain_law Example.quiet_world (PyBytes [x52; x49])
                     [x52; x49] Example.quiet16 Example.quiet 250
                     eq_refl eq_refl eq_refl eq_refl eq_refl)
              (conj eq_refl eq_refl)) as [_ [pcm [Hpcm Hrun]]].
  rewrite Hrun. injection Hpcm as <-. reflexivity.
Defined.

(** C2 as the specification states it fails: the mono signal with samples 1
    and 0 has RMS 0, which is below 300, yet the PCM returned is that signal
    and not the signal multiplied by four. *)
Lemma gain_law_counterexample :
  audioop.rms Example.faint = inr 0 /\
  spec_gain 0 = 4%Q /\
  gain_for_rms 0 = 1%Q /\
  audioop.mul Example.faint (spec_gain 0) = inr [x04; x00; x00; x00] /\
  outcome (_convert_wav_to_pcm Example.faint_world (PyBytes [x52; x49]))
  = inr (Example.faint, 16000) /\
  outcome (_convert_wav_to_pcm Example.faint_world (PyBytes [x52; x49]))
  <> inr ([x04; x00; x00; x00], 16000).
Proof.
  repeat split; try reflexivity. discriminate.
Qed.

(** ** Normalization *)

Lemma calls_parse_in_parse (W : World) (d : pyval) :
  calls "_convert_wav_to_pcm" (trace (_convert_wav_to_pcm W d))
  = [Call "_convert_wav_to_pcm"].
Proof. unfold calls. rewrite convert_wav_to_pcm_trace; reflexivity. Qed.

Lemma calls_adapter_in_parse (W : World) (d : pyval) :
  calls "_convert_audio_to_wav" (trace (_convert_wav_to_pcm W d)) = [].
Proof. unfold calls. rewrite convert_wav_to_pcm_trace; reflexivity. Qed.

Lemma calls_adapter_in_adapter (W : World) (d : pyval) :
  calls "_convert_audio_to_wav" (trace (_convert_audio_to_wav W d))
  = [Call "_convert_audio_to_wav"].
Proof. unfold calls. rewrite convert_audio_to_wav_trace; reflexivity. Qed.

Lemma calls_parse_in_adapter (W : World) (d : pyval) :
  calls "_convert_wav_to_pcm" (trace (_convert_audio_to_wav W d)) = [].
Proof. unfold calls. rewrite convert_audio_to_wav_trace; reflexivity. Qed.

(** C3: normalization starts with the direct WAV parse.  When that parse
    succeeds its result is the result and [_convert_audio_to_wav] is never
    entered; in particular so for a complete mono 16-bit container.  When it
    fails the adapter is entered exactly once; if the adapter fails, that is
    the result; if it returns a container, the result, failure included, is
    that of the second parse, and the parser has been entered twice in all. *)
Theorem two_attempt_normalization (W : World) (audio_data : pyval) :
  let first := _convert_wav_to_pcm W audio_data in
  let adapter := _convert_audio_to_wav W audio_data in
  let run := normalize W audio_data in
  (exists rest, trace run = (trace first ++ rest)%list) /\
  (forall pcm,
      outcome first = inr pcm ->
      outcome run = inr pcm /\
      calls "_convert_audio_to_wav" (trace run) = [] /\
      calls "_convert_wav_to_pcm" (trace run) = [Call "_convert_wav_to_pcm"]) /\
  (forall buf r,
      BytesIO audio_data = inr buf -> wave_open W buf = inr r ->
      sampwidth r = 2 -> nchannels r = 1 -> 0 <= nframes r ->
      nframes r * framesize r <= Z.of_nat (List.length (data_chunk r)) ->
      calls "_convert_audio_to_wav" (trace run) = []) /\
  (forall e,
      outcome first = inl e ->
      calls "_convert_audio_to_wav" (trace run)
      = [Call "_convert_audio_to_wav"] /\
      (forall e', outcome adapter = inl e' ->
                  outcome run = inl e' /\
                  calls "_convert_wav_to_pcm" (trace run)
                  = [Call "_convert_wav_to_pcm"]) /\
      (forall wav, outcome adapter = inr wav ->
                   outcome run = outcome (_convert_wav_to_pcm W (PyBytes wav)) /\
                   calls "_convert_wav_to_pcm" (trace run)
                   = [Call "_convert_wav_to_pcm"; Call "_convert_wav_to_pcm"])).
Proof.
  intros first adapter run.
  set (second := wav_data <- adapter;; _convert_wav_to_pcm W (PyBytes wav_data)).
  assert (Hok : forall pcm, outcome first = inr pcm -> run = first).
  { intros pcm H. apply (try_except_inr _ _ pcm H). }
  assert (Hfail : forall e,
             outcome first = inl e ->
             run = (outcome second, (trace first ++ trace second)%list)).
  { intros e H. apply (try_except_inl _ _ e H). }
  split; [|split; [|split]].
  - destruct (outcome first) as [e | pcm] eqn:H.
    + exists (trace second). rewrite (Hfail e eq_refl). reflexivity.
    + exists []. rewrite (Hok pcm eq_refl). symmetry. apply app_nil_r.
  - intros pcm H. rewrite (Hok pcm H).
    split; [exact H|]. split.
    + apply calls_adapter_in_parse.
    + apply calls_parse_in_parse.
  - intros buf r Hbuf Hopen Hw Hch Hn Hdata.
    destruct (convert_wav_to_pcm_ok W audio_data buf r Hbuf Hopen Hw
                (or_introl Hch) Hn Hdata) as [pcm [Hrun _]].
    rewrite (Hok (pcm, framerate r)).
    + apply calls_adapter_in_parse.
    + unfold first. rewrite Hrun. reflexivity.
  - intros e H.
    assert (Ho : outcome run = outcome second)
      by (rewrite (Hfail e H); reflexivity).
    assert (Ht : trace run = (trace first ++ trace second)%list)
      by (rewrite (Hfail e H); reflexivity).
    rewrite Ho, Ht, !calls_app.
    unfold first. rewrite calls_adapter_in_parse, calls_parse_in_parse.
    cbn [app].
    split; [|split].
    + destruct (outcome adapter) as [e' | wav] eqn:Ha.
      * unfold second. rewrite (bind_inl _ _ e' Ha). rewrite trace_pair. apply calls_adapter_in_adapter.
      * unfold second. rewrite (bind_inr _ _ wav Ha). rewrite trace_pair. rewrite calls_app. unfold adapter.
        rewrite calls_adapter_in_adapter, calls_adapter_in_parse. reflexivity.
    + intros e' Ha. unfold second. rewrite (bind_inl _ _ e' Ha).
      rewrite outcome_pair, trace_pair.
      split; [reflexivity|]. unfold adapter.
      rewrite calls_parse_in_adapter. reflexivity.
    + intros wav Ha. unfold second. rewrite (bind_inr _ _ wav Ha).
      rewrite outcome_pair, trace_pair. split; [reflexivity|].
      rewrite calls_app. unfold adapter.
      rewrite calls_parse_in_adapter, calls_parse_in_parse. reflexivity.
Qed.

Lemma two_attempt_normalization_witness :
  calls "_convert_audio_to_wav"
    (trace (normalize Example.stereo_world (PyBytes [x52; x49]))) = [] /\
  outcome (normalize Example.eight_bit_world (PyBytes [x52; x49]))
  = inl (mkExn ValueError "Audio conversion library not available").
Proof.
  split.
  - exact (proj1 (proj2 (proj1 (proj2
             (two_attempt_normalization Example.stereo_world
                (PyBytes [x52; x49]))) _ eq_refl))).
  - exact (proj1 (proj1 (proj2 (proj2 (proj2 (proj2
             (two_attempt_normalization Example.eight_bit_world
                (PyBytes [x52; x49])))) _ eq_refl)) _ eq_refl)).
Defined.

(** ** Recognition *)

(** C1, what the code does: whenever an invocation reaches the recognition
    endpoint and the response has status 200 and a JSON body whose [result]
    is the empty string, the tool raises
    [Exception("No speech detected in the audio file")] and yields no
    message. *)
Theorem empty_result_raises (W : World)
    (tool_parameters : list (string * pyval)) (audio_data : pyval) (size : Z)
    (pcm_data : bytes) (sample_rate : Z) (response : Response)
    (body : list (string * pyval)) :
  let audio_file := dict_get tool_parameters "audio_file" in
  let api_key := dict_get (credentials W) "api_key" in
  let language := dict_get_default tool_parameters "language" (PyStr "ru-RU") in
  let topic := dict_get_default tool_parameters "topic" (PyStr "general") in
  truthy audio_file = true ->
  truthy api_key = true ->
  outcome (_get_audio_data_from_file W audio_file) = inr audio_data ->
  truthy audio_data = true ->
  py_len audio_data = inr size ->
  outcome (normalize W audio_data) = inr (pcm_data, sample_rate) ->
  requests_post W
    (recognition_request W api_key language topic pcm_data sample_rate)
  = inr response ->
  status_code response = 200 ->
  json_body response = inr (PyDict body) ->
  dict_get_default body "result" (PyStr "") = PyStr "" ->
  outcome (_invoke W tool_parameters)
  = inl (mkExn Exception "No speech detected in the audio file") /\
  silent is_yield (_invoke W tool_parameters).
Proof.
  intros audio_file api_key language topic
    Haf Hkey Hacq Hdata Hlen Hnorm Hpost Hstatus Hjson Hresult.
  pose proof (get_audio_data_never_yields W audio_file) as Hq1.
  pose proof (normalize_never_yields W audio_data) as Hq2.
  (* the acquisition step of _invoke *)
  assert (Hread : forall h,
             outcome (try_except
                        (audio_data <- _get_audio_data_from_file W audio_file;;
                         if negb (truthy audio_data) then
                           raise (mkExn Exception "Could not read audio file")
                         else ret audio_data) h) = inr audio_data).
  { intros h. apply outcome_try_inr.
    rewrite (outcome_bind_inr _ _ audio_data Hacq), Hdata. reflexivity. }
  assert (Hread_silent : forall h,
             silent is_yield
               (try_except
                  (audio_data <- _get_audio_data_from_file W audio_file;;
                   if negb (truthy audio_data) then
                     raise (mkExn Exception "Could not read audio file")
                   else ret audio_data) h)).
  { intros h. apply (silent_try_inr _ _ _ audio_data).
    - rewrite (outcome_bind_inr _ _ audio_data Hacq), Hdata. reflexivity.
    - apply (silent_bind_inr _ _ _ audio_data Hacq Hq1).
      rewrite Hdata. reflexivity. }
  (* from the response on *)
  set (tail := (if negb (status_code response =? 200) then
                  let error_msg := api_error_message W response in
                  emit (Log Error error_msg);;
                  raise (mkExn Exception error_msg)
                else
                  result <- lift (json_body response);;
                  recognized_text <- lift (py_get result "result" (PyStr ""));;
                  if negb (truthy recognized_text) then
                    raise (mkExn Exception "No speech detected in the audio file")
                  else
                    lift (py_sliceable recognized_text);;
                    emit (Yield (TextMessage recognized_text))) : M unit).
  assert (Htail : tail = raise (mkExn Exception
                                  "No speech detected in the audio file")).
  { unfold tail. rewrite Hstatus. cbn [Z.eqb Pos.eqb negb].
    unfold bind, lift. cbn [fst snd]. rewrite Hjson. cbn [fst snd py_get].
    rewrite Hresult. reflexivity. }
  pose proof (Hlen : outcome (lift (py_len audio_data)) = inr size) as Hlen'.
  pose proof (Hpost : outcome (lift (requests_post W _)) = inr response)
    as Hpost'.
  unfold _invoke. cbv zeta. fold audio_file api_key language topic.
  rewrite Haf, Hkey. cbn [negb].
  split.
  - erewrite outcome_try_inl; [reflexivity|].
    rewrite (outcome_bind_inr _ _ audio_data (Hread _)).
    rewrite (outcome_bind_inr _ _ size Hlen').
    rewrite (outcome_bind_inr _ _ (pcm_data, sample_rate) Hnorm).
    rewrite outcome_bind_emit.
    rewrite (outcome_bind_inr _ _ response Hpost').
    fold tail. rewrite Htail. reflexivity.
  - eapply silent_try_inl; [| |reflexivity].
    + rewrite (outcome_bind_inr _ _ audio_data (Hread _)).
      rewrite (outcome_bind_inr _ _ size Hlen').
      rewrite (outcome_bind_inr _ _ (pcm_data, sample_rate) Hnorm).
      rewrite outcome_bind_emit.
      rewrite (outcome_bind_inr _ _ response Hpost').
      fold tail. rewrite Htail. reflexivity.
    + apply (silent_bind_inr _ _ _ audio_data (Hread _) (Hread_silent _)).
      apply (silent_bind_inr _ _ _ size Hlen' (silent_lift _ _)).
      apply (silent_bind_inr _ _ _ (pcm_data, sample_rate) Hnorm Hq2).
      apply silent_bind_emit; [reflexivity|].
      apply (silent_bind_inr _ _ _ response Hpost' (silent_lift _ _)).
      fold tail. rewrite Htail. reflexivity.
Qed.

Lemma empty_result_raises_witness :
  outcome (_invoke Example.no_speech_world
             [("audio_file", PyBytes [x52; x49])])
  = inl (mkExn Exception "No speech detected in the audio file").
Proof.
  refine (proj1 (empty_result_raises Example.no_speech_world
                   [("audio_file", PyBytes [x52; x49])]
                   (PyBytes [x52; x49]) 2 [x40; x00; x80; x00] 16000
                   Example.no_speech [("result", PyStr "")]
                   _ _ _ _ _ _ _ _ _ _)); reflexivity.
Defined.

End Recognition.

(** ** Synthesis *)

Section Synthesis.

Import TextToSpeech.

(** Validation performs no effect besides entering the method. *)
Lemma validate_parameters_trace (W : World) (p : Event -> bool)
    (tool_parameters : list (string * pyval)) :
  filter p (trace (_validate_parameters W tool_parameters))
  = filter p [Call "_validate_parameters"].
Proof.
  unfold _validate_parameters. rewrite trace_bind_emit. cbn [filter].
  match goal with |- context [filter p (trace ?m)] =>
    assert (Hrest : silent p m) end.
  { cbv zeta. unfold raise_if_errors. silence. }
  unfold silent in Hrest. rewrite Hrest. reflexivity.
Qed.

Lemma validate_parameters_silent (W : World) (p : Event -> bool)
    (tool_parameters : list (string * pyval)) :
  p (Call "_validate_parameters") = false ->
  silent p (_validate_parameters W tool_parameters).
Proof.
  intros Hp. unfold silent. rewrite validate_parameters_trace. cbn [filter].
  rewrite Hp. reflexivity.
Qed.

(** C8: validating text "hello", voice "filipp", emotion "good", speed 1.0,
    format "mp3" raises a [ValueError] saying that the emotion is not
    supported by the voice, whose only allowed emotion is "neutral".  The
    tool turns it into a parameter error (when an API key is configured; a
    missing key is reported first), sends no request and yields nothing. *)
Theorem filipp_rejects_good (W : World) :
  outcome (_validate_parameters W Example.filipp_good)
  = inl (mkExn ValueError
           "Emotion 'good' is not supported by voice 'filipp'. Allowed: neutral") /\
  contains "not supported by voice"
    "Emotion 'good' is not supported by voice 'filipp'. Allowed: neutral"
  = true /\
  outcome (_invoke W Example.filipp_good)
  = inl (mkExn Exception
           (if truthy (dict_get (credentials W) "api_key") then
              "Parameter error: Emotion 'good' is not supported by voice 'filipp'. Allowed: neutral"
            else "API key is required")) /\
  silent is_http_post (_invoke W Example.filipp_good) /\
  silent is_yield (_invoke W Example.filipp_good).
Proof.
  split; [reflexivity|]. split; [reflexivity|].
  unfold silent, outcome, trace, _invoke.
  destruct (truthy (dict_get (credentials W) "api_key"));
    repeat split; reflexivity.
Qed.

(** The handler of the tool's outer [try] never yields. *)
Lemma handler_never_yields (e : exn) :
  silent is_yield
    (if isinstance_exn e Timeout then
       emit (Log Error "TTS request timeout");;
       @raise unit (mkExn Exception
                "Request timeout. Please try again with shorter text.")
     else if isinstance_exn e RequestException then
       emit (Log Error ("TTS request error: " ++ exn_msg e));;
       raise (mkExn Exception ("Network error: " ++ exn_msg e))
     else
       emit (Log Error ("TTS error: " ++ exn_msg e));;
       raise e).
Proof. silence. Qed.

(** C10: when the synthesis endpoint answers 200 with an empty body the tool
    raises [Exception("Empty response from TTS service")] and yields neither
    the metadata record nor the blob; and whenever the tool yields anything,
    the endpoint answered 200 with a body that is not empty. *)
Theorem empty_audio_raises (W : World)
    (tool_parameters : list (string * pyval)) :
  let api_key := dict_get (credentials W) "api_key" in
  let run := _invoke W tool_parameters in
  (forall params ssml response,
      truthy api_key = true ->
      outcome (_validate_parameters W tool_parameters) = inr params ->
      looks_like_ssml (p_text params) = inr ssml ->
      requests_post W (synthesis_request W api_key params ssml) = inr response ->
      status_code response = 200 ->
      content response = [] ->
      outcome run = inl (mkExn Exception "Empty response from TTS service") /\
      silent is_yield run) /\
  (~ silent is_yield run ->
   exists params ssml response,
     outcome (_validate_parameters W tool_parameters) = inr params /\
     requests_post W (synthesis_request W api_key params ssml) = inr response /\
     status_code response = 200 /\
     content response <> []).
Proof.
  intros api_key run.
  pose proof (validate_parameters_silent W is_yield tool_parameters eq_refl)
    as Hquiet.
  set (wrap := fun e : exn =>
                 if isinstance_exn e ValueError then
                   @raise ValidParams
                     (mkExn Exception ("Parameter error: " ++ exn_msg e))
                 else raise e).
  assert (Hwrap : silent is_yield
                    (try_except (_validate_parameters W tool_parameters) wrap)).
  { apply silent_try; [exact Hquiet|]. intros e. unfold wrap. silence. }
  split.
  - intros params ssml response Hkey Hvalid Hssml Hpost Hstatus Hcontent.
    assert (Hslice : py_sliceable (p_text params) = inr tt).
    { destruct (p_text params); try discriminate. reflexivity. }
    assert (Hv : outcome (try_except (_validate_parameters W tool_parameters)
                            wrap) = inr params)
      by (apply outcome_try_inr; exact Hvalid).
    pose proof (Hslice : outcome (lift (py_sliceable (p_text params))) = inr tt)
      as Hslice'.
    pose proof (Hssml : outcome (lift (looks_like_ssml (p_text params)))
                        = inr ssml) as Hssml'.
    pose proof (Hpost : outcome (lift (requests_post W _)) = inr response)
      as Hpost'.
    assert (Hbody : forall k : M unit,
               (if negb (status_code response =? 200) then k
                else if negb (truthy (PyBytes (content response))) then
                  raise (mkExn Exception "Empty response from TTS service")
                else k)
               = raise (mkExn Exception "Empty response from TTS service")).
    { intros k. rewrite Hstatus, Hcontent. reflexivity. }
    unfold run, _invoke. cbv zeta. fold api_key. fold wrap.
    rewrite Hkey. cbn [negb].
    split.
    + rewrite (outcome_try_inl _ _
                 (mkExn Exception "Empty response from TTS service"));
        [reflexivity|].
      rewrite (outcome_bind_inr _ _ params Hv).
      rewrite (outcome_bind_inr _ _ tt Hslice').
      rewrite (outcome_bind_inr _ _ ssml Hssml').
      rewrite outcome_bind_emit.
      rewrite (outcome_bind_inr _ _ response Hpost').
      rewrite Hstatus, Hcontent. reflexivity.
    + apply (silent_try_inl _ _ _
                 (mkExn Exception "Empty response from TTS service"));
        [| |reflexivity].
      * rewrite (outcome_bind_inr _ _ params Hv).
        rewrite (outcome_bind_inr _ _ tt Hslice').
        rewrite (outcome_bind_inr _ _ ssml Hssml').
        rewrite outcome_bind_emit.
        rewrite (outcome_bind_inr _ _ response Hpost').
        rewrite Hstatus, Hcontent. reflexivity.
      * apply (silent_bind_inr _ _ _ params Hv Hwrap).
        apply (silent_bind_inr _ _ _ tt Hslice' (silent_lift _ _)).
        apply (silent_bind_inr _ _ _ ssml Hssml' (silent_lift _ _)).
        apply silent_bind_emit; [reflexivity|].
        apply (silent_bind_inr _ _ _ response Hpost' (silent_lift _ _)).
        rewrite Hstatus, Hcontent. reflexivity.
  - intros Hloud.
    assert (Hcases :
              silent is_yield run \/
              exists params ssml response,
                outcome (_validate_parameters W tool_parameters) = inr params /\
                requests_post W (synthesis_request W api_key params ssml)
                = inr response /\
                status_code response = 200 /\
                content response <> []).
    { unfold run, _invoke. cbv zeta. fold api_key. fold wrap.
      destruct (truthy api_key); cbn [negb].
      2: { left. apply silent_try; [silence | apply handler_never_yields]. }
      destruct (outcome (_validate_parameters W tool_parameters))
        as [e | params] eqn:Hvalid.
      { left. apply silent_try; [|apply handler_never_yields].
        destruct (isinstance_exn e ValueError) eqn:Hclass.
        - apply (silent_bind_inl _ _ _
                   (mkExn Exception ("Parameter error: " ++ exn_msg e)));
            [|exact Hwrap].
          rewrite (outcome_try_inl _ _ e Hvalid). unfold wrap.
          rewrite Hclass. reflexivity.
        - apply (silent_bind_inl _ _ _ e); [|exact Hwrap].
          rewrite (outcome_try_inl _ _ e Hvalid). unfold wrap.
          rewrite Hclass. reflexivity. }
      assert (Hv : outcome (try_except (_validate_parameters W tool_parameters)
                              wrap) = inr params)
        by (apply outcome_try_inr; exact Hvalid).
      destruct (looks_like_ssml (p_text params)) as [e | ssml] eqn:Hssml.
      { left. apply silent_try; [|apply handler_never_yields].
        apply (silent_bind_inr _ _ _ params Hv Hwrap).
        apply silent_bind; [apply silent_lift|]. intros _.
        rewrite Hssml. eapply silent_bind_inl; [reflexivity | apply silent_lift]. }
      destruct (requests_post W (synthesis_request W api_key params ssml))
        as [e | response] eqn:Hpost.
      { left. apply silent_try; [|apply handler_never_yields].
        apply (silent_bind_inr _ _ _ params Hv Hwrap).
        apply silent_bind; [apply silent_lift|]. intros _.
        rewrite Hssml. eapply silent_bind_inr; [reflexivity | apply silent_lift |].
        apply silent_bind_emit; [reflexivity|].
        rewrite Hpost. eapply silent_bind_inl; [reflexivity | apply silent_lift]. }
      destruct (status_code response =? 200) eqn:Hstatus.
      2: { left. apply silent_try; [|apply handler_never_yields].
           apply (silent_bind_inr _ _ _ params Hv Hwrap).
           apply silent_bind; [apply silent_lift|]. intros _.
           rewrite Hssml.
           eapply silent_bind_inr; [reflexivity | apply silent_lift |].
           apply silent_bind_emit; [reflexivity|].
           rewrite Hpost.
           eapply silent_bind_inr; [reflexivity | apply silent_lift |].
           rewrite Hstatus. cbn [negb]. silence. }
      destruct (content response) as [|b bs] eqn:Hcontent.
      { left. apply silent_try; [|apply handler_never_yields].
        apply (silent_bind_inr _ _ _ params Hv Hwrap).
        apply silent_bind; [apply silent_lift|]. intros _.
        rewrite Hssml.
        eapply silent_bind_inr; [reflexivity | apply silent_lift |].
        apply silent_bind_emit; [reflexivity|].
        rewrite Hpost.
        eapply silent_bind_inr; [reflexivity | apply silent_lift |].
        rewrite Hstatus, Hcontent. reflexivity. }
      right. exists params, ssml, response.
      apply Z.eqb_eq in Hstatus. rewrite Hcontent.
      repeat split; try assumption. discriminate. }
    destruct Hcases as [Hs | Hex]; [contradiction | exact Hex].
Qed.

Lemma empty_audio_raises_witness :
  outcome (_invoke Example.empty_audio_world Example.hello)
  = inl (mkExn Exception "Empty response from TTS service").
Proof.
  refine (proj1 (proj1 (empty_audio_raises Example.empty_audio_world
                          Example.hello)
                   (mkParams (PyStr "hello") (PyStr "marina") (PyStr "neutral")
                      "1.0" (PyStr "mp3"))
                   false (Example.response 200 [] (inl (mkExn ValueError "")))
                   _ _ _ _ _ _)); reflexivity.
Defined.

End Synthesis.

(** * Further properties *)

(** ** Inverting a successful computation *)

Lemma outcome_bind_inv {A B : Type} (m : M A) (k : A -> M B) (b : B) :
  outcome (bind m k) = inr b ->
  exists a, outcome m = inr a /\ outcome (k a) = inr b.
Proof.
  unfold outcome, bind. destruct (fst m) as [e | a]; cbn [fst];
    [discriminate|].
  intros H. exists a. split; [reflexivity | exact H].
Qed.

Lemma outcome_bind_fail {A B : Type} (m : M A) (k : A -> M B) (e : exn) :
  outcome (bind m k) = inl e ->
  outcome m = inl e \/ exists a, outcome m = inr a /\ outcome (k a) = inl e.
Proof.
  unfold outcome, bind. destruct (fst m) as [e' | a]; cbn [fst]; intros H.
  - left. injection H as ->. reflexivity.
  - right. exists a. split; [reflexivity | exact H].
Qed.

Lemma mem_In (s : string) (l : list string) :
  TextToSpeech.mem s l = true <-> In s l.
Proof.
  unfold TextToSpeech.mem. rewrite existsb_exists. split.
  - intros [x [Hx Heq]]. apply String.eqb_eq in Heq. subst. exact Hx.
  - intros H. exists s. split; [exact H | apply String.eqb_refl].
Qed.

Lemma append_not_nil (errors : list string) (msg : string) :
  TextToSpeech.append errors msg <> [].
Proof. unfold TextToSpeech.append. destruct errors; discriminate. Qed.

Lemma check_nil (c : bool) (errors : list string) (msg : string) :
  (if c then TextToSpeech.append errors msg else errors) = [] ->
  c = false /\ errors = [].
Proof.
  destruct c; intros H.
  - exfalso. exact (append_not_nil _ _ H).
  - split; [reflexivity | exact H].
Qed.

Lemma raise_if_errors_ok (errors : list string) (u : unit) :
  outcome (TextToSpeech.raise_if_errors errors) = inr u -> errors = [].
Proof. destruct errors; [reflexivity | discriminate]. Qed.

Lemma outcome_bind_lift_inr {A B : Type} (a : A) (k : A -> M B) :
  outcome (bind (lift (inr a)) k) = outcome (k a).
Proof. reflexivity. Qed.


Lemma outcome_bind_ret {A B : Type} (a : A) (k : A -> M B) :
  outcome (bind (ret a) k) = outcome (k a).
Proof. reflexivity. Qed.


Section SynthesisParameters.

Import TextToSpeech.

(** X1: what validation guarantees.  Parameters that [_validate_parameters]
    returns hold a text that is not empty and has at most 5000 characters, a
    voice of [VOICE_DESCRIPTIONS], an emotion that the voice allows, a speed
    that is the [str] of a float between 0.1 and 3.0, and the format "mp3"
    or "oggopus" (never "opus"). *)
Theorem validated_parameters (W : World)
    (tool_parameters : list (string * pyval)) (params : ValidParams) :
  outcome (_validate_parameters W tool_parameters) = inr params ->
  exists (n : Z) (voice emotion format : string) (allowed : list string)
         (speed : float),
    truthy (p_text params) = true /\
    py_len (p_text params) = inr n /\ n <= 5000 /\
    p_voice params = PyStr voice /\ In voice VOICE_DESCRIPTIONS /\
    assoc voice VOICE_ALLOWED_EMOTIONS = Some allowed /\
    p_emotion params = PyStr emotion /\ In emotion allowed /\
    p_speed params = py_str W (PyFloat speed) /\
    PrimFloat.leb 0x1.999999999999ap-4%float speed = true /\
    PrimFloat.leb speed 3%float = true /\
    p_format params = PyStr format /\ (format = "mp3" \/ format = "oggopus").
Proof.
  unfold _validate_parameters. rewrite outcome_bind_emit. cbv zeta.
  intros H.
  apply outcome_bind_inv in H. destruct H as [text [Htext H]].
  apply outcome_bind_inv in H. destruct H as [n [Hn H]].
  apply outcome_bind_inv in H. destruct H as [known [Hknown H]].
  apply outcome_bind_inv in H. destruct H as [speed [Hspeed H]].
  apply outcome_bind_inv in H. destruct H as [u1 [Herr1 H]].
  apply outcome_bind_inv in H. destruct H as [u2 [Herr2 H]].
  apply raise_if_errors_ok in Herr1.
  apply check_nil in Herr1. destruct Herr1 as [Hfmt Herr1].
  destruct speed as [speed|]; [|exfalso; exact (append_not_nil _ _ Herr1)].
  apply check_nil in Herr1. destruct Herr1 as [Hrange Herr1].
  apply check_nil in Herr1. destruct Herr1 as [Hemo Herr1].
  apply check_nil in Herr1. destruct Herr1 as [Hvoice Herr1].
  rewrite Herr1 in *.
  apply raise_if_errors_ok in Herr2.
  apply check_nil in Herr2. destruct Herr2 as [Hallowed _].
  apply negb_false_iff in Hfmt, Hrange, Hemo, Hvoice, Hallowed.
  subst known. rewrite outcome_lift in Hn. rewrite outcome_lift in Hknown.
  injection H as <-. cbn [p_text p_voice p_emotion p_speed p_format].
  (* the text *)
  assert (Htruthy : truthy text = true /\ n <= 5000).
  { destruct (negb (truthy text)) eqn:Ht.
    - exfalso. exact (append_not_nil _ _ Herr1).
    - apply negb_false_iff in Ht. split; [exact Ht|].
      destruct (n >? 5000) eqn:Hlen.
      + exfalso. exact (append_not_nil _ _ Herr1).
      + rewrite Z.gtb_ltb in Hlen. apply Z.ltb_ge in Hlen. exact Hlen. }
  destruct Htruthy as [Htruthy Hlen].
  (* the voice *)
  destruct (dict_get_default tool_parameters "voice" (PyStr "marina"))
    as [| | | | voice | | | | | |] eqn:Ev; try discriminate.
  cbn [in_keys] in Hknown. injection Hknown as Hknown.
  change (mem voice VOICE_DESCRIPTIONS = true) in Hknown.
  (* the emotion *)
  destruct (dict_get_default tool_parameters "emotion" (PyStr "neutral"))
    as [| | | | emotion | | | | | |] eqn:Ee; try discriminate.
  cbn [in_list] in Hemo, Hallowed.
  (* the format *)
  set (fmt0 := dict_get_default tool_parameters "format" (PyStr "mp3")) in *.
  set (fmt := if eq_str fmt0 "opus" then PyStr "oggopus" else fmt0) in *.
  destruct fmt as [| | | | format | | | | | |] eqn:Ef; try discriminate.
  cbn [in_list] in Hfmt.
  apply andb_prop in Hrange. destruct Hrange as [Hlo Hhi].
  assert (Hvoices : exists allowed,
             assoc voice VOICE_ALLOWED_EMOTIONS = Some allowed).
  { apply mem_In in Hknown. cbn in Hknown.
    repeat (destruct Hknown as [<- | Hknown]; [eexists; reflexivity|]).
    contradiction. }
  destruct Hvoices as [allowed Hassoc]. rewrite Hassoc in Hallowed.
  exists n, voice, emotion, format, allowed, speed.
  repeat split; try assumption; try reflexivity.
  - apply mem_In. exact Hknown.
  - apply mem_In. exact Hallowed.
  - apply mem_In in Hfmt. cbn in Hfmt.
    destruct Hfmt as [<- | [<- | []]]; [left | right]; reflexivity.
Qed.

Lemma validated_parameters_witness :
  exists (n : Z) (voice emotion format : string) (allowed : list string)
         (speed : float),
    truthy (PyStr "hello") = true /\
    py_len (PyStr "hello") = inr n /\ n <= 5000 /\
    PyStr "marina" = PyStr voice /\ In voice VOICE_DESCRIPTIONS /\
    assoc voice VOICE_ALLOWED_EMOTIONS = Some allowed /\
    PyStr "neutral" = PyStr emotion /\ In emotion allowed /\
    "1.0" = py_str (Scenario.synthesizing (inr Scenario.audio)) (PyFloat speed) /\
    PrimFloat.leb 0x1.999999999999ap-4%float speed = true /\
    PrimFloat.leb speed 3%float = true /\
    PyStr "mp3" = PyStr format /\ (format = "mp3" \/ format = "oggopus").
Proof.
  apply (validated_parameters (Scenario.synthesizing (inr Scenario.audio))
           Example.hello
           (mkParams (PyStr "hello") (PyStr "marina") (PyStr "neutral") "1.0"
              (PyStr "mp3"))).
  reflexivity.
Defined.

End SynthesisParameters.

Section SynthesisValidation.

Import TextToSpeech.

Lemma allowed_voice_known (voice : string) (allowed : list string) :
  assoc voice VOICE_ALLOWED_EMOTIONS = Some allowed ->
  mem voice VOICE_DESCRIPTIONS = true.
Proof.
  unfold VOICE_ALLOWED_EMOTIONS, VOICE_DESCRIPTIONS, mem.
  cbn [assoc existsb].
  repeat (destruct (String.eqb voice _); [intros _; reflexivity|]).
  discriminate.
Qed.

Lemma nonempty_truthy (s : string) : s <> "" -> truthy (PyStr s) = true.
Proof.
  intros H. cbn [truthy]. destruct (String.eqb_spec s ""); [contradiction|].
  reflexivity.
Qed.

(** The text check of validation, for a text that passes it. *)
Lemma text_check_passes (s : string) (errors : list string) :
  s <> "" -> Z.of_nat (String.length s) <= 5000 ->
  (if negb (truthy (PyStr s)) then append errors "Text content is required"
   else if Z.of_nat (String.length s) >? 5000 then
     append errors "Text is too long (maximum 5000 characters)"
   else errors) = errors.
Proof.
  intros Hs Hlen. rewrite (nonempty_truthy s Hs). cbn [negb].
  rewrite Z.gtb_ltb. destruct (Z.ltb_spec 5000 (Z.of_nat (String.length s)));
    [lia | reflexivity].
Qed.

(** X2: validation of parameters that pass the basic checks.  The text is
    stripped, "opus" becomes "oggopus", the speed is given as [str(speed)];
    the outcome is decided by the voice's allowed emotions alone. *)
Theorem emotion_must_suit_voice (W : World)
    (tool_parameters : list (string * pyval))
    (text voice emotion format : string) (allowed : list string)
    (speed : float) :
  dict_get_default tool_parameters "text" (PyStr "") = PyStr text ->
  strip text <> "" ->
  Z.of_nat (String.length (strip text)) <= 5000 ->
  dict_get_default tool_parameters "voice" (PyStr "marina") = PyStr voice ->
  assoc voice VOICE_ALLOWED_EMOTIONS = Some allowed ->
  dict_get_default tool_parameters "emotion" (PyStr "neutral") = PyStr emotion ->
  mem emotion ["neutral"; "good"; "evil"; "friendly"; "whisper"] = true ->
  py_float W (dict_get_default tool_parameters "speed" (PyFloat 1%float))
  = inr speed ->
  PrimFloat.leb 0x1.999999999999ap-4%float speed = true ->
  PrimFloat.leb speed 3%float = true ->
  dict_get_default tool_parameters "format" (PyStr "mp3") = PyStr format ->
  mem format ["mp3"; "opus"; "oggopus"] = true ->
  outcome (_validate_parameters W tool_parameters)
  = if mem emotion allowed then
      inr (mkParams (PyStr (strip text)) (PyStr voice) (PyStr emotion)
             (py_str W (PyFloat speed))
             (PyStr (if String.eqb format "opus" then "oggopus" else format)))
    else
      inl (mkExn ValueError
             ("Emotion '" ++ emotion ++ "' is not supported by voice '"
              ++ voice ++ "'. Allowed: " ++ join ", " (sorted allowed))).
Proof.
  intros Htext Hne Hlen Hvoice Hallowed Hemotion Hemo Hspeed Hlo Hhi
    Hformat Hfmt.
  pose proof (allowed_voice_known voice allowed Hallowed) as Hknown.
  unfold _validate_parameters. rewrite outcome_bind_emit. cbv zeta.
  rewrite Htext, Hvoice, Hemotion, Hformat, Hspeed.
  cbn [py_strip in_keys in_list eq_str py_str].
  rewrite outcome_bind_lift_inr. cbn [py_len]. rewrite outcome_bind_lift_inr.
  rewrite Hknown, outcome_bind_lift_inr, outcome_bind_ret.
  rewrite Hemo, Hlo, Hhi, Hallowed. cbn [negb andb].
  rewrite (text_check_passes (strip text) [] Hne Hlen).
  assert (Hf : in_list (if String.eqb format "opus" then PyStr "oggopus"
                        else PyStr format) ["mp3"; "oggopus"] = true).
  { unfold mem in Hfmt. cbn [existsb] in Hfmt.
    destruct (String.eqb_spec format "opus") as [-> | Hn]; [reflexivity|].
    cbn [in_list mem existsb].
    destruct (String.eqb format "mp3"); [reflexivity|].
    destruct (String.eqb format "oggopus"); [reflexivity|].
    discriminate. }
  rewrite Hf. cbn [negb].
  destruct (mem emotion allowed), (String.eqb format "opus"); reflexivity.
Qed.

Lemma emotion_must_suit_voice_witness :
  outcome (_validate_parameters (Scenario.synthesizing (inr Scenario.audio))
             Example.filipp_good)
  = inl (mkExn ValueError
           "Emotion 'good' is not supported by voice 'filipp'. Allowed: neutral").
Proof.
  apply (emotion_must_suit_voice (Scenario.synthesizing (inr Scenario.audio))
           Example.filipp_good "hello" "filipp" "good" "mp3" ["neutral"]
           1%float);
    solve [reflexivity | discriminate | cbn; lia].
Defined.

End SynthesisValidation.

Section SynthesisRejections.

Import TextToSpeech.

Lemma format_check_passes (format : string) :
  mem format ["mp3"; "opus"; "oggopus"] = true ->
  in_list (if String.eqb format "opus" then PyStr "oggopus" else PyStr format)
    ["mp3"; "oggopus"] = true.
Proof.
  intros Hfmt. unfold mem in Hfmt. cbn [existsb] in Hfmt.
  destruct (String.eqb format "opus"); [reflexivity|].
  cbn [in_list mem existsb].
  destruct (String.eqb format "mp3"); [reflexivity|].
  destruct (String.eqb format "oggopus"); [reflexivity|].
  discriminate.
Qed.

(** X3: the speed check.  With the other parameters passing their checks, a
    float outside [0.1, 3.0] (a NaN included) is rejected as out of range, a
    value [float()] refuses with a [ValueError] or [TypeError] is rejected as
    not a number, and any other exception of [float()] ends validation as it
    is. *)
Theorem speed_is_checked (W : World)
    (tool_parameters : list (string * pyval))
    (text voice emotion format : string) (allowed : list string) :
  dict_get_default tool_parameters "text" (PyStr "") = PyStr text ->
  strip text <> "" ->
  Z.of_nat (String.length (strip text)) <= 5000 ->
  dict_get_default tool_parameters "voice" (PyStr "marina") = PyStr voice ->
  assoc voice VOICE_ALLOWED_EMOTIONS = Some allowed ->
  dict_get_default tool_parameters "emotion" (PyStr "neutral") = PyStr emotion ->
  mem emotion ["neutral"; "good"; "evil"; "friendly"; "whisper"] = true ->
  dict_get_default tool_parameters "format" (PyStr "mp3") = PyStr format ->
  mem format ["mp3"; "opus"; "oggopus"] = true ->
  let speed :=
    py_float W (dict_get_default tool_parameters "speed" (PyFloat 1%float)) in
  let result := outcome (_validate_parameters W tool_parameters) in
  (forall f,
      speed = inr f ->
      PrimFloat.leb 0x1.999999999999ap-4%float f && PrimFloat.leb f 3%float
      = false ->
      result = inl (mkExn ValueError "Speed must be between 0.1 and 3.0")) /\
  (forall e,
      speed = inl e ->
      isinstance_exn e ValueError || isinstance_exn e TypeError = true ->
      result = inl (mkExn ValueError "Speed must be a valid number")) /\
  (forall e,
      speed = inl e ->
      isinstance_exn e ValueError || isinstance_exn e TypeError = false ->
      result = inl e).
Proof.
  intros Htext Hne Hlen Hvoice Hallowed Hemotion Hemo Hformat Hfmt speed result.
  pose proof (allowed_voice_known voice allowed Hallowed) as Hknown.
  pose proof (format_check_passes format Hfmt) as Hf.
  unfold result, _validate_parameters. rewrite outcome_bind_emit. cbv zeta.
  rewrite Htext, Hvoice, Hemotion, Hformat. fold speed.
  cbn [py_strip in_keys in_list eq_str py_str].
  rewrite outcome_bind_lift_inr. cbn [py_len]. rewrite outcome_bind_lift_inr.
  rewrite Hknown, outcome_bind_lift_inr, Hemo, Hf.
  rewrite (text_check_passes (strip text) [] Hne Hlen). cbn [negb].
  split; [|split].
  - intros f Hs Hr. rewrite Hs. rewrite (outcome_bind_ret (Some f)).
    rewrite Hr. reflexivity.
  - intros e Hs Hc. rewrite Hs, Hc. rewrite (outcome_bind_ret None).
    reflexivity.
  - intros e Hs Hc. rewrite Hs, Hc. reflexivity.
Qed.

Lemma speed_is_checked_witness :
  outcome (_validate_parameters (Scenario.synthesizing (inr Scenario.audio))
             Scenario.too_fast)
  = inl (mkExn ValueError "Speed must be between 0.1 and 3.0").
Proof.
  refine (proj1 (speed_is_checked (Scenario.synthesizing (inr Scenario.audio))
                   Scenario.too_fast "hello" "marina" "neutral" "mp3"
                   ["neutral"; "whisper"; "friendly"] _ _ _ _ _ _ _ _ _)
            5%float _ _);
    solve [reflexivity | discriminate | cbn; lia].
Defined.

End SynthesisRejections.

Section SynthesisText.

Import TextToSpeech.









End SynthesisText.

Section SynthesisRuns.

Import TextToSpeech.

Lemma validate_parameters_run (W : World)
    (tool_parameters : list (string * pyval)) :
  _validate_parameters W tool_parameters
  = (outcome (_validate_parameters W tool_parameters),
     [Call "_validate_parameters"]).
Proof.
  pose proof (validate_parameters_trace W (fun _ => true) tool_parameters) as H.
  cbn [filter] in H.
  assert (Hall : forall t : Trace, filter (fun _ => true) t = t).
  { induction t as [|ev t IH]; [reflexivity|]. cbn. rewrite IH. reflexivity. }
  rewrite Hall in H. unfold outcome, trace in *.
  destruct (_validate_parameters W tool_parameters) as [o t].
  cbn [fst snd] in *. rewrite H. reflexivity.
Qed.

(** Symbolic execution of a computation whose sub-results are known. *)
Ltac run_monad :=
  unfold bind, try_except, lift, emit, ret, raise; cbn [fst snd negb app].

(** The run that reaches the endpoint and gets a response. *)
Lemma invoke_with_response (W : World)
    (tool_parameters : list (string * pyval)) (params : ValidParams)
    (text : string) (response : Response) :
  let api_key := dict_get (credentials W) "api_key" in
  let req := synthesis_request W api_key params
               (startswith (lstrip text) "<speak") in
  truthy api_key = true ->
  outcome (_validate_parameters W tool_parameters) = inr params ->
  p_text params = PyStr text ->
  requests_post W req = inr response ->
  _invoke W tool_parameters
  = if negb (status_code response =? 200) then
      let e := mkExn Exception (tts_api_error W params response) in
      (inl e, [Call "_validate_parameters"; HttpPost req;
               Log Error (tts_api_error W params response);
               Log Error (tts_logged e)])
    else
      match content response with
      | [] =>
          let e := mkExn Exception "Empty response from TTS service" in
          (inl e, [Call "_validate_parameters"; HttpPost req;
                   Log Error (tts_logged e)])
      | _ =>
          (inr tt,
           [Call "_validate_parameters"; HttpPost req;
            Yield (metadata_message params (Z.of_nat (String.length text)));
            Yield (audio_message W params (content response))])
      end.
Proof.
  intros api_key req Hkey Hvalid Htext Hpost.
  unfold _invoke. cbv zeta. fold api_key. rewrite Hkey.
  rewrite (validate_parameters_run W tool_parameters), Hvalid.
  run_monad. rewrite Htext. cbn [py_sliceable looks_like_ssml fst snd].
  fold api_key. rewrite <- Htext. fold req. rewrite Hpost. cbn [fst snd].
  destruct (status_code response =? 200); cbn [negb fst snd app].
  - destruct (content response) as [|b bs]; cbn [truthy negb fst snd app].
    + reflexivity.
    + rewrite Htext. reflexivity.
  - reflexivity.
Qed.

(** The runs that end before any response. *)
Lemma invoke_without_key (W : World)
    (tool_parameters : list (string * pyval)) :
  truthy (dict_get (credentials W) "api_key") = false ->
  _invoke W tool_parameters
  = (inl (mkExn Exception "API key is required"),
     [Log Error "TTS error: API key is required"]).
Proof.
  intros Hkey. unfold _invoke. cbv zeta. rewrite Hkey. reflexivity.
Qed.

Lemma invoke_invalid (W : World)
    (tool_parameters : list (string * pyval)) (e : exn) :
  truthy (dict_get (credentials W) "api_key") = true ->
  outcome (_validate_parameters W tool_parameters) = inl e ->
  let e' := if isinstance_exn e ValueError
            then mkExn Exception ("Parameter error: " ++ exn_msg e) else e in
  _invoke W tool_parameters
  = (inl (tts_surfaced e'),
     [Call "_validate_parameters"; Log Error (tts_logged e')]).
Proof.
  intros Hkey Hvalid e'. unfold _invoke. cbv zeta. rewrite Hkey.
  rewrite (validate_parameters_run W tool_parameters), Hvalid.
  run_monad. subst e'. unfold tts_surfaced, tts_logged.
  destruct (isinstance_exn e ValueError); cbn [fst snd app].
  - reflexivity.
  - destruct (isinstance_exn e Timeout); [reflexivity|].
    destruct (isinstance_exn e RequestException); reflexivity.
Qed.

Lemma invoke_text_not_str (W : World)
    (tool_parameters : list (string * pyval)) (params : ValidParams) (e : exn) :
  truthy (dict_get (credentials W) "api_key") = true ->
  outcome (_validate_parameters W tool_parameters) = inr params ->
  match py_sliceable (p_text params) with
  | inl e' => inl e'
  | inr _ => looks_like_ssml (p_text params)
  end = inl e ->
  _invoke W tool_parameters
  = (inl (tts_surfaced e),
     [Call "_validate_parameters"; Log Error (tts_logged e)]).
Proof.
  intros Hkey Hvalid Htext. unfold _invoke. cbv zeta. rewrite Hkey.
  rewrite (validate_parameters_run W tool_parameters), Hvalid.
  run_monad. unfold tts_surfaced, tts_logged.
  destruct (py_sliceable (p_text params)) as [e' | u]; cbn [fst snd app].
  - injection Htext as ->.
    destruct (isinstance_exn e Timeout); [reflexivity|].
    destruct (isinstance_exn e RequestException); reflexivity.
  - rewrite Htext. cbn [fst snd app].
    destruct (isinstance_exn e Timeout); [reflexivity|].
    destruct (isinstance_exn e RequestException); reflexivity.
Qed.

Lemma invoke_unanswered (W : World)
    (tool_parameters : list (string * pyval)) (params : ValidParams)
    (text : string) (e : exn) :
  let api_key := dict_get (credentials W) "api_key" in
  let req := synthesis_request W api_key params
               (startswith (lstrip text) "<speak") in
  truthy api_key = true ->
  outcome (_validate_parameters W tool_parameters) = inr params ->
  p_text params = PyStr text ->
  requests_post W req = inl e ->
  _invoke W tool_parameters
  = (inl (tts_surfaced e),
     [Call "_validate_parameters"; HttpPost req; Log Error (tts_logged e)]).
Proof.
  intros api_key req Hkey Hvalid Htext Hpost.
  unfold _invoke. cbv zeta. fold api_key. rewrite Hkey.
  rewrite (validate_parameters_run W tool_parameters), Hvalid.
  run_monad. rewrite Htext. cbn [py_sliceable looks_like_ssml fst snd].
  fold api_key. rewrite <- Htext. fold req. rewrite Hpost. cbn [fst snd app].
  unfold tts_surfaced, tts_logged.
  destruct (isinstance_exn e Timeout); [reflexivity|].
  destruct (isinstance_exn e RequestException); reflexivity.
Qed.

End SynthesisRuns.

Section SynthesisProperties.

Import TextToSpeech.

(** Read the requests and the messages off an explicit run. *)
Ltac observe :=
  unfold outcome, trace; cbn [fst snd posted yielded].

(** X5: synthesis stops before the network when it cannot start.  Without an
    API key the parameters are not even validated; with a key, parameters that
    validation rejects with a [ValueError] end the run with
    "Parameter error: ..." and neither a request nor a message. *)
Theorem synthesis_stops_before_request (W : World)
    (tool_parameters : list (string * pyval)) :
  let api_key := dict_get (credentials W) "api_key" in
  let run := _invoke W tool_parameters in
  (truthy api_key = false ->
   outcome run = inl (mkExn Exception "API key is required") /\
   calls "_validate_parameters" (trace run) = [] /\
   posted (trace run) = []) /\
  (truthy api_key = true ->
   forall e,
     outcome (_validate_parameters W tool_parameters) = inl e ->
     isinstance_exn e ValueError = true ->
     outcome run
     = inl (mkExn Exception ("Parameter error: " ++ exn_msg e)) /\
     posted (trace run) = [] /\ yielded (trace run) = []).
Proof.
  intros api_key run. split.
  - intros Hkey. unfold run. rewrite (invoke_without_key W _ Hkey).
    repeat split; reflexivity.
  - intros Hkey e Hvalid Hclass. unfold run.
    rewrite (invoke_invalid W _ e Hkey Hvalid). rewrite Hclass. observe.
    repeat split; reflexivity.
Qed.

(** X6: a successful synthesis.  When the endpoint answers 200 with a body
    that is not empty, the tool ends normally after one request and yields
    exactly two messages: the metadata record, then the audio blob holding
    the response body. *)
Theorem synthesis_success (W : World)
    (tool_parameters : list (string * pyval)) (params : ValidParams)
    (text : string) (response : Response) :
  let api_key := dict_get (credentials W) "api_key" in
  let req := synthesis_request W api_key params
               (startswith (lstrip text) "<speak") in
  let run := _invoke W tool_parameters in
  truthy api_key = true ->
  outcome (_validate_parameters W tool_parameters) = inr params ->
  p_text params = PyStr text ->
  requests_post W req = inr response ->
  status_code response = 200 ->
  content response <> [] ->
  outcome run = inr tt /\
  posted (trace run) = [req] /\
  yielded (trace run)
  = [metadata_message params (Z.of_nat (String.length text));
     audio_message W params (content response)].
Proof.
  intros api_key req run Hkey Hvalid Htext Hpost Hstatus Hcontent.
  unfold run.
  rewrite (invoke_with_response W _ params text response Hkey Hvalid Htext Hpost).
  rewrite Hstatus. cbn [Z.eqb Pos.eqb negb].
  destruct (content response) as [|b bs]; [contradiction|].
  repeat split; reflexivity.
Qed.

Lemma synthesis_success_witness :
  outcome (_invoke (Scenario.synthesizing (inr Scenario.audio)) Example.hello)
  = inr tt /\
  posted (trace (_invoke (Scenario.synthesizing (inr Scenario.audio))
                   Example.hello))
  = [mkRequest tts_url [("Authorization", "Api-Key secret")] []
       (PyDict [("text", PyStr "hello"); ("voice", PyStr "marina");
                ("speed", PyStr "1.0"); ("format", PyStr "mp3");
                ("lang", PyStr "ru-RU")])
       30] /\
  yielded (trace (_invoke (Scenario.synthesizing (inr Scenario.audio))
                    Example.hello))
  = [JsonMessage [("voice", PyStr "marina"); ("emotion", PyStr "neutral");
                  ("speed", PyStr "1.0"); ("format", PyStr "mp3");
                  ("text_length", PyInt 5)];
     BlobMessage [x49; x44; x33]
       [("mime_type", PyStr "audio/mpeg");
        ("filename", PyStr "speech.mp3")]].
Proof.
  apply (synthesis_success (Scenario.synthesizing (inr Scenario.audio))
           Example.hello
           (mkParams (PyStr "hello") (PyStr "marina") (PyStr "neutral") "1.0"
              (PyStr "mp3"))
           "hello" Scenario.audio);
    solve [reflexivity | discriminate].
Defined.

(** X7: transport failures of synthesis.  When [requests.post] raises, nothing
    is yielded; a timeout becomes "Request timeout. Please try again with
    shorter text.", any other [RequestException] becomes
    "Network error: <its message>", and any other exception is re-raised as
    it is. *)
Theorem synthesis_transport_errors (W : World)
    (tool_parameters : list (string * pyval)) (params : ValidParams)
    (text : string) (e : exn) :
  let api_key := dict_get (credentials W) "api_key" in
  let req := synthesis_request W api_key params
               (startswith (lstrip text) "<speak") in
  let run := _invoke W tool_parameters in
  truthy api_key = true ->
  outcome (_validate_parameters W tool_parameters) = inr params ->
  p_text params = PyStr text ->
  requests_post W req = inl e ->
  yielded (trace run) = [] /\
  posted (trace run) = [req] /\
  (isinstance_exn e Timeout = true ->
   outcome run
   = inl (mkExn Exception
            "Request timeout. Please try again with shorter text.")) /\
  (isinstance_exn e Timeout = false ->
   isinstance_exn e RequestException = true ->
   outcome run = inl (mkExn Exception ("Network error: " ++ exn_msg e))) /\
  (isinstance_exn e RequestException = false -> outcome run = inl e).
Proof.
  intros api_key req run Hkey Hvalid Htext Hpost. unfold run.
  rewrite (invoke_unanswered W _ params text e Hkey Hvalid Htext Hpost).
  observe. unfold tts_surfaced.
  split; [|split; [|split; [|split]]].
  - reflexivity.
  - reflexivity.
  - intros ->. reflexivity.
  - intros -> ->. reflexivity.
  - intros Hr. destruct e as [c m]. destruct c; try discriminate; reflexivity.
Qed.

Lemma synthesis_transport_errors_witness :
  outcome (_invoke (Scenario.synthesizing Scenario.timed_out) Example.hello)
  = inl (mkExn Exception
           "Request timeout. Please try again with shorter text.").
Proof.
  apply (synthesis_transport_errors (Scenario.synthesizing Scenario.timed_out)
           Example.hello
           (mkParams (PyStr "hello") (PyStr "marina") (PyStr "neutral") "1.0"
              (PyStr "mp3"))
           "hello" (mkExn Timeout "read timed out")
           eq_refl eq_refl eq_refl eq_refl).
  reflexivity.
Defined.

(** X8: a response of synthesis that is not 200.  The tool raises an
    [Exception] whose message starts with "API error: <status>" and ends with
    the parameters used; the same message is logged; one request was sent and
    nothing is yielded. *)
Theorem synthesis_api_error (W : World)
    (tool_parameters : list (string * pyval)) (params : ValidParams)
    (text : string) (response : Response) :
  let api_key := dict_get (credentials W) "api_key" in
  let req := synthesis_request W api_key params
               (startswith (lstrip text) "<speak") in
  let run := _invoke W tool_parameters in
  truthy api_key = true ->
  outcome (_validate_parameters W tool_parameters) = inr params ->
  p_text params = PyStr text ->
  requests_post W req = inr response ->
  status_code response <> 200 ->
  outcome run
  = inl (mkExn Exception
           ("API error: " ++ str_of_Z (status_code response)
            ++ error_detail W response
            ++ " | voice=" ++ py_str W (p_voice params)
            ++ ", emotion=" ++ py_str W (p_emotion params)
            ++ ", speed=" ++ p_speed params
            ++ ", format=" ++ py_str W (p_format params))) /\
  In (Log Error (tts_api_error W params response)) (trace run) /\
  posted (trace run) = [req] /\
  yielded (trace run) = [].
Proof.
  intros api_key req run Hkey Hvalid Htext Hpost Hstatus. unfold run.
  rewrite (invoke_with_response W _ params text response Hkey Hvalid Htext Hpost).
  apply Z.eqb_neq in Hstatus. rewrite Hstatus. cbn [negb].
  split; [reflexivity|]. split; [cbn; auto|]. observe.
  split; reflexivity.
Qed.

Lemma synthesis_api_error_witness :
  outcome (_invoke (Scenario.synthesizing (inr Scenario.unauthorized))
             Example.hello)
  = inl (mkExn Exception
           ("API error: 401 - Invalid API key"
            ++ " | voice=marina, emotion=neutral, speed=1.0, format=mp3")).
Proof.
  apply (synthesis_api_error (Scenario.synthesizing (inr Scenario.unauthorized))
           Example.hello
           (mkParams (PyStr "hello") (PyStr "marina") (PyStr "neutral") "1.0"
              (PyStr "mp3"))
           "hello" Scenario.unauthorized);
    solve [reflexivity | discriminate].
Defined.

(** X9: every run of synthesis, whatever the parameters and the environment.
    At most one request is sent, and it goes to the synthesis endpoint with a
    30 second timeout.  Either the run fails and yields nothing, or it ends
    normally and has yielded exactly a metadata record followed by a blob that
    is not empty. *)
Theorem synthesis_all_or_nothing (W : World)
    (tool_parameters : list (string * pyval)) :
  let run := _invoke W tool_parameters in
  (posted (trace run) = [] \/
   exists req, posted (trace run) = [req] /\
               req_url req = tts_url /\ req_timeout req = 30) /\
  ((exists e, outcome run = inl e /\ yielded (trace run) = []) \/
   (exists json blob meta,
       outcome run = inr tt /\
       yielded (trace run) = [JsonMessage json; BlobMessage blob meta] /\
       blob <> [])).
Proof.
  intros run. unfold run.
  destruct (truthy (dict_get (credentials W) "api_key")) eqn:Hkey.
  2: { rewrite (invoke_without_key W _ Hkey). split; [left; reflexivity|].
       left. eexists. split; reflexivity. }
  destruct (outcome (_validate_parameters W tool_parameters))
    as [e | params] eqn:Hvalid.
  { rewrite (invoke_invalid W _ e Hkey Hvalid). observe.
    split; [left; reflexivity|]. left. eexists. split; reflexivity. }
  destruct (p_text params) as [| | | | text | | | | | |] eqn:Htext.
  5: { destruct (requests_post W
                   (synthesis_request W (dict_get (credentials W) "api_key")
                      params (startswith (lstrip text) "<speak")))
         as [e | response] eqn:Hpost.
       - rewrite (invoke_unanswered W _ params text e Hkey Hvalid Htext Hpost).
         observe. split.
         + right. eexists. repeat split; reflexivity.
         + left. eexists. split; reflexivity.
       - rewrite (invoke_with_response W _ params text response
                    Hkey Hvalid Htext Hpost).
         destruct (negb (status_code response =? 200)).
         + observe. split.
           * right. eexists. repeat split; reflexivity.
           * left. eexists. split; reflexivity.
         + destruct (content response) as [|b bs] eqn:Hcontent.
           * observe. split.
             -- right. eexists. repeat split; reflexivity.
             -- left. eexists. split; reflexivity.
           * observe. split.
             -- right. eexists. repeat split; reflexivity.
             -- right. do 3 eexists. repeat split; try reflexivity.
                discriminate. }
  all: (erewrite (invoke_text_not_str W _ params _ Hkey Hvalid);
        [|rewrite Htext; reflexivity]); observe;
    (split; [left; reflexivity | left; eexists; split; reflexivity]).
Qed.

End SynthesisProperties.

Section RecognitionRuns.

Import SpeechToText.

Lemma run_eta {A : Type} (m : M A) : m = (outcome m, trace m).
Proof. destruct m. reflexivity. Qed.

Ltac run_monad :=
  unfold bind, try_except, lift, emit, ret, raise; cbn [fst snd negb app].

(** The runs that end before the request. *)
Lemma recognize_without_audio (W : World)
    (tool_parameters : list (string * pyval)) :
  truthy (dict_get tool_parameters "audio_file") = false ->
  _invoke W tool_parameters
  = (inl (mkExn Exception "No audio file provided"),
     [stt_logged (mkExn Exception "No audio file provided")]).
Proof. intros H. unfold _invoke. cbv zeta. rewrite H. reflexivity. Qed.

Lemma recognize_without_key (W : World)
    (tool_parameters : list (string * pyval)) :
  truthy (dict_get tool_parameters "audio_file") = true ->
  truthy (dict_get (credentials W) "api_key") = false ->
  _invoke W tool_parameters
  = (inl (mkExn Exception "API key is required"),
     [stt_logged (mkExn Exception "API key is required")]).
Proof.
  intros Ha Hk. unfold _invoke. cbv zeta. rewrite Ha, Hk. reflexivity.
Qed.

Lemma recognize_unreadable (W : World)
    (tool_parameters : list (string * pyval)) (msg : string) :
  let audio_file := dict_get tool_parameters "audio_file" in
  let acquisition := _get_audio_data_from_file W audio_file in
  truthy audio_file = true ->
  truthy (dict_get (credentials W) "api_key") = true ->
  match outcome acquisition with
  | inl e => Some (exn_msg e)
  | inr audio_data =>
      if truthy audio_data then None else Some "Could not read audio file"
  end = Some msg ->
  let e := mkExn Exception ("Failed to read audio file - " ++ msg) in
  _invoke W tool_parameters
  = (inl e,
     (trace acquisition
      ++ [Log Error ("Failed to read audio file: " ++ msg); stt_logged e])%list).
Proof.
  intros audio_file acquisition Ha Hk Hmsg e.
  unfold _invoke. cbv zeta. fold audio_file. rewrite Ha, Hk.
  fold acquisition. rewrite (run_eta acquisition). run_monad.
  rewrite ?outcome_pair, ?trace_pair in *.
  destruct (outcome acquisition) as [e0 | audio_data]; cbn [fst snd app].
  - injection Hmsg as <-. rewrite <- app_assoc. reflexivity.
  - destruct (truthy audio_data); [discriminate|]. injection Hmsg as <-.
    cbn [negb fst snd app]. rewrite app_nil_r, <- app_assoc. reflexivity.
Qed.

Lemma recognize_unsized (W : World)
    (tool_parameters : list (string * pyval)) (audio_data : pyval) (e : exn) :
  let audio_file := dict_get tool_parameters "audio_file" in
  let acquisition := _get_audio_data_from_file W audio_file in
  truthy audio_file = true ->
  truthy (dict_get (credentials W) "api_key") = true ->
  outcome acquisition = inr audio_data ->
  truthy audio_data = true ->
  py_len audio_data = inl e ->
  _invoke W tool_parameters
  = (inl e, (trace acquisition ++ [stt_logged e])%list).
Proof.
  intros audio_file acquisition Ha Hk Hacq Hdata Hlen.
  unfold _invoke. cbv zeta. fold audio_file. rewrite Ha, Hk.
  fold acquisition. rewrite (run_eta acquisition), Hacq. run_monad.
  rewrite Hdata. cbn [negb fst snd app]. rewrite Hlen. cbn [fst snd app].
  rewrite !app_nil_r. reflexivity.
Qed.

Lemma recognize_unprocessable (W : World)
    (tool_parameters : list (string * pyval)) (audio_data : pyval) (n : Z)
    (e : exn) :
  let audio_file := dict_get tool_parameters "audio_file" in
  let acquisition := _get_audio_data_from_file W audio_file in
  truthy audio_file = true ->
  truthy (dict_get (credentials W) "api_key") = true ->
  outcome acquisition = inr audio_data ->
  truthy audio_data = true ->
  py_len audio_data = inr n ->
  outcome (normalize W audio_data) = inl e ->
  _invoke W tool_parameters
  = (inl e,
     (trace acquisition ++ trace (normalize W audio_data)
      ++ [stt_logged e])%list).
Proof.
  intros audio_file acquisition Ha Hk Hacq Hdata Hlen Hnorm.
  unfold _invoke. cbv zeta. fold audio_file. rewrite Ha, Hk.
  fold acquisition. rewrite (run_eta acquisition), Hacq. run_monad.
  rewrite Hdata. cbn [negb fst snd app]. rewrite Hlen. cbn [fst snd app].
  rewrite (run_eta (normalize W audio_data)), Hnorm. cbn [fst snd app].
  rewrite ?trace_pair, !app_nil_r, <- !app_assoc. reflexivity.
Qed.

(** The run that sends the request. *)
Lemma recognize_with_request (W : World)
    (tool_parameters : list (string * pyval)) (audio_data : pyval) (n : Z)
    (pcm_data : bytes) (sample_rate : Z) :
  let audio_file := dict_get tool_parameters "audio_file" in
  let api_key := dict_get (credentials W) "api_key" in
  let language := dict_get_default tool_parameters "language" (PyStr "ru-RU") in
  let topic := dict_get_default tool_parameters "topic" (PyStr "general") in
  let acquisition := _get_audio_data_from_file W audio_file in
  let req := recognition_request W api_key language topic pcm_data sample_rate in
  let pre := (trace acquisition ++ trace (normalize W audio_data)
              ++ [HttpPost req])%list in
  truthy audio_file = true ->
  truthy api_key = true ->
  outcome acquisition = inr audio_data ->
  truthy audio_data = true ->
  py_len audio_data = inr n ->
  outcome (normalize W audio_data) = inr (pcm_data, sample_rate) ->
  _invoke W tool_parameters
  = match requests_post W req with
    | inl e => (inl e, (pre ++ [stt_logged e])%list)
    | inr response =>
        match stt_result W response with
        | inl e =>
            (inl e,
             (pre
              ++ (if negb (status_code response =? 200)
                  then [Log Error (api_error_message W response)] else [])
              ++ [stt_logged e])%list)
        | inr recognized_text =>
            (inr tt, (pre ++ [Yield (TextMessage recognized_text)])%list)
        end
    end.
Proof.
  intros audio_file api_key language topic acquisition req pre
    Ha Hk Hacq Hdata Hlen Hnorm.
  unfold _invoke. cbv zeta.
  fold audio_file api_key language topic. rewrite Ha, Hk.
  fold acquisition. rewrite (run_eta acquisition), Hacq. run_monad.
  rewrite Hdata. cbn [negb fst snd app]. rewrite Hlen. cbn [fst snd app].
  rewrite (run_eta (normalize W audio_data)), Hnorm. cbn [fst snd app].
  fold req. unfold stt_result, stt_logged, pre.
  rewrite ?trace_pair, ?app_nil_r.
  destruct (requests_post W req) as [e | response]; cbn [fst snd app].
  { rewrite <- !app_assoc. reflexivity. }
  destruct (negb (status_code response =? 200)); cbn [fst snd app].
  { rewrite <- !app_assoc. reflexivity. }
  destruct (json_body response) as [e | result]; cbn [fst snd app].
  { rewrite <- !app_assoc. reflexivity. }
  destruct (py_get result "result" (PyStr "")) as [e | recognized_text];
    cbn [fst snd app].
  { rewrite <- !app_assoc. reflexivity. }
  destruct (negb (truthy recognized_text)); cbn [fst snd app].
  { rewrite <- !app_assoc. reflexivity. }
  destruct (py_sliceable recognized_text) as [e | u]; cbn [fst snd app].
  { rewrite <- !app_assoc. reflexivity. }
  rewrite <- !app_assoc. reflexivity.
Qed.

End RecognitionRuns.

Section Observations.

Lemma yielded_app (t1 t2 : Trace) :
  yielded (t1 ++ t2)%list = (yielded t1 ++ yielded t2)%list.
Proof.
  induction t1 as [|ev t1 IH]; [reflexivity|].
  destruct ev; cbn; rewrite ?IH; reflexivity.
Qed.

Lemma posted_app (t1 t2 : Trace) :
  posted (t1 ++ t2)%list = (posted t1 ++ posted t2)%list.
Proof.
  induction t1 as [|ev t1 IH]; [reflexivity|].
  destruct ev; cbn; rewrite ?IH; reflexivity.
Qed.

Lemma not_yielding (t : Trace) : filter is_yield t = [] -> yielded t = [].
Proof.
  induction t as [|ev t IH]; [reflexivity|].
  destruct ev; cbn; try exact IH. discriminate.
Qed.

Lemma not_posting (t : Trace) : filter is_http_post t = [] -> posted t = [].
Proof.
  induction t as [|ev t IH]; [reflexivity|].
  destruct ev; cbn; try exact IH. discriminate.
Qed.

Lemma silent_forall {A : Type} (p : Event -> bool) (m : M A) :
  silent (fun ev => negb (p ev)) m -> forallb p (trace m) = true.
Proof.
  unfold silent. generalize (trace m). intros t.
  induction t as [|ev t IH]; [reflexivity|]. cbn.
  destruct (p ev); cbn; [exact IH | discriminate].
Qed.

End Observations.

Section AcquisitionTraces.

Import SpeechToText.

Variable W : World.
Variable p : Event -> bool.
Hypothesis p_call : p (Call "_get_audio_data_from_file") = false.
Hypothesis p_log : forall l m, p (Log l m) = false.
Hypothesis p_get_file : forall name id, p (GetFile name id) = false.
Hypothesis p_open : forall path, p (OpenFile path) = false.
Hypothesis p_get :
  forall v u, is_absolute_url v = Some u -> p (HttpGet u 30) = false.

Lemma fetch_silent (v : pyval) (u : string) :
  is_absolute_url v = Some u -> silent p (fetch W u).
Proof.
  intros Hu. unfold fetch.
  apply silent_bind; [apply silent_emit; exact (p_get v u Hu)|]. intros _.
  silence.
Qed.

(** As [silence], with the events the section's hypotheses allow. *)
Ltac silence_acquisition :=
  repeat first
    [ apply silent_ret
    | apply silent_raise
    | apply silent_lift
    | apply silent_emit; solve [apply p_log | apply p_get_file | apply p_open]
    | eapply fetch_silent; eassumption
    | apply silent_bind; [|intros]
    | apply silent_try; [|intros]
    | match goal with
      | |- silent _ (match is_absolute_url ?x with _ => _ end) =>
          destruct (is_absolute_url x) eqn:?
      | |- silent _ (match ?x with _ => _ end) => destruct x
      end ].

Lemma try_accessors_quiet (accs : list (string * Accessor))
    (related_id : pyval) (otherwise : M pyval) :
  silent p otherwise -> silent p (try_accessors accs related_id otherwise).
Proof.
  intros Ho. apply try_accessors_silent; [apply p_get_file | apply p_log | exact Ho].
Qed.

Lemma get_audio_data_silent (audio_file : pyval) :
  silent p (_get_audio_data_from_file W audio_file).
Proof.
  unfold _get_audio_data_from_file.
  apply silent_bind; [apply silent_emit; exact p_call|]. intros _.
  apply silent_try; [|intros; silence_acquisition].
  destruct (hasattr audio_file "download" || hasattr audio_file "blob").
  - unfold from_dify_file. silence_acquisition.
  - destruct (getattr audio_file "read"); [silence_acquisition|].
    destruct audio_file; silence_acquisition.
    unfold from_metadata. apply try_accessors_quiet. silence_acquisition.
Qed.

End AcquisitionTraces.

Section RecognitionProperties.

Import SpeechToText.

Lemma acquisition_posts_nothing (W : World) (audio_file : pyval) :
  posted (trace (_get_audio_data_from_file W audio_file)) = [].
Proof.
  apply not_posting. apply (get_audio_data_silent W is_http_post);
    intros; reflexivity.
Qed.

Lemma acquisition_yields_nothing (W : World) (audio_file : pyval) :
  yielded (trace (_get_audio_data_from_file W audio_file)) = [].
Proof. apply not_yielding. apply get_audio_data_never_yields. Qed.

Lemma normalize_posts_nothing (W : World) (audio_data : pyval) :
  posted (trace (normalize W audio_data)) = [].
Proof.
  apply not_posting. unfold normalize.
  assert (Hp : forall d,
             filter is_http_post (trace (_convert_wav_to_pcm W d)) = []).
  { intros d. rewrite convert_wav_to_pcm_trace; reflexivity. }
  apply silent_try; [apply Hp|]. intros _.
  apply silent_bind; [|intros; apply Hp].
  unfold silent. rewrite convert_audio_to_wav_trace; reflexivity.
Qed.

Lemma normalize_yields_nothing (W : World) (audio_data : pyval) :
  yielded (trace (normalize W audio_data)) = [].
Proof. apply not_yielding. apply normalize_never_yields. Qed.

(** Read the requests and the messages off a run given by its parts. *)
Ltac observe_recognition :=
  rewrite ?outcome_pair, ?trace_pair, ?posted_app, ?yielded_app,
    ?acquisition_posts_nothing, ?acquisition_yields_nothing,
    ?normalize_posts_nothing, ?normalize_yields_nothing;
  cbn [posted yielded app stt_logged].

(** X10: recognition does nothing without its inputs.  A missing or empty audio
    reference (an empty byte string included) ends the run with
    "No audio file provided"; with audio but no API key the run ends with
    "API key is required".  In both cases the only effect is the error
    record: the audio is not read and nothing is sent. *)
Theorem recognition_needs_audio_and_key (W : World)
    (tool_parameters : list (string * pyval)) :
  let audio_file := dict_get tool_parameters "audio_file" in
  let api_key := dict_get (credentials W) "api_key" in
  (truthy audio_file = false ->
   _invoke W tool_parameters
   = (inl (mkExn Exception "No audio file provided"),
      [Log Error "Speech recognition error: No audio file provided"])) /\
  (truthy audio_file = true -> truthy api_key = false ->
   _invoke W tool_parameters
   = (inl (mkExn Exception "API key is required"),
      [Log Error "Speech recognition error: API key is required"])).
Proof.
  intros audio_file api_key. split.
  - intros Ha. apply (recognize_without_audio W _ Ha).
  - intros Ha Hk. apply (recognize_without_key W _ Ha Hk).
Qed.

(** X11: audio that cannot be acquired.  When acquisition raises, the run ends
    with "Failed to read audio file - <the acquisition error>"; when it
    returns an empty value, with
    "Failed to read audio file - Could not read audio file".  No request is
    sent and nothing is yielded. *)
Theorem recognition_acquisition_failure (W : World)
    (tool_parameters : list (string * pyval)) :
  let audio_file := dict_get tool_parameters "audio_file" in
  let acquisition := _get_audio_data_from_file W audio_file in
  let run := _invoke W tool_parameters in
  truthy audio_file = true ->
  truthy (dict_get (credentials W) "api_key") = true ->
  (forall e,
      outcome acquisition = inl e ->
      outcome run
      = inl (mkExn Exception ("Failed to read audio file - " ++ exn_msg e)) /\
      posted (trace run) = [] /\ yielded (trace run) = []) /\
  (forall audio_data,
      outcome acquisition = inr audio_data -> truthy audio_data = false ->
      outcome run
      = inl (mkExn Exception
               "Failed to read audio file - Could not read audio file") /\
      posted (trace run) = [] /\ yielded (trace run) = []).
Proof.
  intros audio_file acquisition run Ha Hk. split.
  - intros e He. unfold run.
    rewrite (recognize_unreadable W tool_parameters (exn_msg e) Ha Hk).
    + observe_recognition. repeat split; reflexivity.
    + fold audio_file acquisition. rewrite He. reflexivity.
  - intros audio_data Hd Ht. unfold run.
    rewrite (recognize_unreadable W tool_parameters
               "Could not read audio file" Ha Hk).
    + observe_recognition. repeat split; reflexivity.
    + fold audio_file acquisition. rewrite Hd, Ht. reflexivity.
Qed.

Lemma recognition_acquisition_failure_witness :
  outcome (_invoke (Scenario.recognizing (inr Scenario.heard))
             Scenario.number_file)
  = inl (mkExn Exception
           ("Failed to read audio file - Unsupported audio file type: "
            ++ "<class 'int'>. Expected Dify File object with .blob property.")).
Proof.
  apply (proj1 (recognition_acquisition_failure
                  (Scenario.recognizing (inr Scenario.heard))
                  Scenario.number_file eq_refl eq_refl)
           (unsupported_reference (PyInt 5)) eq_refl).
Defined.

(** X12: audio that cannot be normalized.  When both the direct parse and the
    transcoding path fail, the exception of normalization is the exception of
    the run, unchanged, and no request is sent. *)
Theorem recognition_normalization_failure (W : World)
    (tool_parameters : list (string * pyval)) (audio_data : pyval) (n : Z)
    (e : exn) :
  let audio_file := dict_get tool_parameters "audio_file" in
  let run := _invoke W tool_parameters in
  truthy audio_file = true ->
  truthy (dict_get (credentials W) "api_key") = true ->
  outcome (_get_audio_data_from_file W audio_file) = inr audio_data ->
  truthy audio_data = true ->
  py_len audio_data = inr n ->
  outcome (normalize W audio_data) = inl e ->
  outcome run = inl e /\ posted (trace run) = [] /\ yielded (trace run) = [].
Proof.
  intros audio_file run Ha Hk Hacq Hd Hlen Hnorm. unfold run.
  rewrite (recognize_unprocessable W tool_parameters audio_data n e
             Ha Hk Hacq Hd Hlen Hnorm).
  observe_recognition. repeat split; reflexivity.
Qed.

Lemma recognition_normalization_failure_witness :
  outcome (_invoke (Scenario.synthesizing (inr Scenario.heard))
             Scenario.wav_file)
  = inl (mkExn ValueError "Audio conversion library not available").
Proof.
  apply (recognition_normalization_failure
           (Scenario.synthesizing (inr Scenario.heard)) Scenario.wav_file
           (PyBytes [x52; x49]) 2
           (mkExn ValueError "Audio conversion library not available"));
    reflexivity.
Defined.

(** X13: a successful recognition.  When the endpoint answers 200 with a JSON
    object whose [result] is a string that is not empty, the run ends
    normally and yields exactly one text message holding that string.  The
    one request sent carries the PCM bytes as body, the language and topic
    given (or their defaults), the format "lpcm" and the sample rate of the
    audio in decimal. *)
Theorem recognition_success (W : World)
    (tool_parameters : list (string * pyval)) (audio_data : pyval) (n : Z)
    (pcm_data : bytes) (sample_rate : Z) (response : Response)
    (body : list (string * pyval)) (recognized : string) :
  let audio_file := dict_get tool_parameters "audio_file" in
  let api_key := dict_get (credentials W) "api_key" in
  let language := dict_get_default tool_parameters "language" (PyStr "ru-RU") in
  let topic := dict_get_default tool_parameters "topic" (PyStr "general") in
  let req := recognition_request W api_key language topic pcm_data sample_rate in
  let run := _invoke W tool_parameters in
  truthy audio_file = true ->
  truthy api_key = true ->
  outcome (_get_audio_data_from_file W audio_file) = inr audio_data ->
  truthy audio_data = true ->
  py_len audio_data = inr n ->
  outcome (normalize W audio_data) = inr (pcm_data, sample_rate) ->
  requests_post W req = inr response ->
  status_code response = 200 ->
  json_body response = inr (PyDict body) ->
  dict_get_default body "result" (PyStr "") = PyStr recognized ->
  recognized <> "" ->
  outcome run = inr tt /\
  yielded (trace run) = [TextMessage (PyStr recognized)] /\
  posted (trace run) = [req] /\
  req_url req = stt_url /\ req_timeout req = 30 /\
  req_data req = PyBytes pcm_data /\
  req_headers req = [("Authorization", "Api-Key " ++ py_str W api_key)] /\
  req_params req
  = [("lang", language); ("format", PyStr "lpcm"); ("topic", topic);
     ("sampleRateHertz", PyStr (str_of_Z sample_rate))].
Proof.
  intros audio_file api_key language topic req run
    Ha Hk Hacq Hd Hlen Hnorm Hpost Hstatus Hjson Hresult Hne.
  unfold run.
  rewrite (recognize_with_request W tool_parameters audio_data n pcm_data
             sample_rate Ha Hk Hacq Hd Hlen Hnorm).
  fold audio_file api_key language topic req. rewrite Hpost.
  assert (Hres : stt_result W response = inr (PyStr recognized)).
  { unfold stt_result. rewrite Hstatus, Hjson. cbn [Z.eqb Pos.eqb negb py_get].
    rewrite Hresult. cbn [truthy].
    destruct (String.eqb_spec recognized ""); [contradiction|]. reflexivity. }
  rewrite Hres. observe_recognition. repeat split; reflexivity.
Qed.

Lemma recognition_success_witness :
  outcome (_invoke (Scenario.recognizing (inr Scenario.heard))
             Scenario.wav_file)
  = inr tt /\
  yielded (trace (_invoke (Scenario.recognizing (inr Scenario.heard))
                    Scenario.wav_file))
  = [TextMessage (PyStr "hello")].
Proof.
  assert (H : "hello" <> "") by discriminate.
  destruct (recognition_success (Scenario.recognizing (inr Scenario.heard))
              Scenario.wav_file (PyBytes [x52; x49]) 2
              [x40; x00; x80; x00] 16000 Scenario.heard
              [("result", PyStr "hello")] "hello"
              eq_refl eq_refl eq_refl eq_refl eq_refl eq_refl eq_refl eq_refl
              eq_refl eq_refl H)
    as [Hout [Hyield _]].
  split; [exact Hout | exact Hyield].
Defined.

(** X14: a response of recognition that is not 200.  The run raises an
    [Exception] and yields nothing.  Its message is
    "API error: <status> - " followed by the [message] of the JSON body's
    [error] object ("Unknown error" when the object has none), or by the raw
    response text when the body is not JSON. *)
Theorem recognition_api_error (W : World)
    (tool_parameters : list (string * pyval)) (audio_data : pyval) (n : Z)
    (pcm_data : bytes) (sample_rate : Z) (response : Response) :
  let audio_file := dict_get tool_parameters "audio_file" in
  let api_key := dict_get (credentials W) "api_key" in
  let language := dict_get_default tool_parameters "language" (PyStr "ru-RU") in
  let topic := dict_get_default tool_parameters "topic" (PyStr "general") in
  let req := recognition_request W api_key language topic pcm_data sample_rate in
  let run := _invoke W tool_parameters in
  truthy audio_file = true ->
  truthy api_key = true ->
  outcome (_get_audio_data_from_file W audio_file) = inr audio_data ->
  truthy audio_data = true ->
  py_len audio_data = inr n ->
  outcome (normalize W audio_data) = inr (pcm_data, sample_rate) ->
  requests_post W req = inr response ->
  status_code response <> 200 ->
  outcome run = inl (mkExn Exception (api_error_message W response)) /\
  yielded (trace run) = [] /\
  posted (trace run) = [req] /\
  (forall body err,
      json_body response = inr (PyDict body) ->
      dict_get_default body "error" (PyDict []) = PyDict err ->
      api_error_message W response
      = "API error: " ++ str_of_Z (status_code response) ++ " - "
        ++ py_str W (dict_get_default err "message" (PyStr "Unknown error"))) /\
  (forall e,
      json_body response = inl e ->
      api_error_message W response
      = "API error: " ++ str_of_Z (status_code response) ++ " - "
        ++ text response).
Proof.
  intros audio_file api_key language topic req run
    Ha Hk Hacq Hd Hlen Hnorm Hpost Hstatus.
  unfold run.
  rewrite (recognize_with_request W tool_parameters audio_data n pcm_data
             sample_rate Ha Hk Hacq Hd Hlen Hnorm).
  fold audio_file api_key language topic req. rewrite Hpost.
  apply Z.eqb_neq in Hstatus. unfold stt_result. rewrite Hstatus.
  cbn [negb]. observe_recognition.
  split; [reflexivity|]. split; [reflexivity|]. split; [reflexivity|]. split.
  - intros body err Hjson Herr. unfold api_error_message.
    rewrite Hjson. cbn [py_get]. rewrite Herr. reflexivity.
  - intros e Hjson. unfold api_error_message. rewrite Hjson. reflexivity.
Qed.

Lemma recognition_api_error_witness :
  outcome (_invoke (Scenario.recognizing (inr Scenario.unauthorized))
             Scenario.wav_file)
  = inl (mkExn Exception "API error: 401 - Invalid API key").
Proof.
  apply (recognition_api_error
           (Scenario.recognizing (inr Scenario.unauthorized))
           Scenario.wav_file (PyBytes [x52; x49]) 2
           [x40; x00; x80; x00] 16000 Scenario.unauthorized);
    solve [reflexivity | discriminate].
Defined.

Lemma stt_result_inv (W : World) (response : Response) (text : pyval) :
  stt_result W response = inr text ->
  exists result,
    json_body response = inr result /\
    py_get result "result" (PyStr "") = inr text /\
    truthy text = true.
Proof.
  unfold stt_result.
  destruct (negb (status_code response =? 200)); [discriminate|].
  destruct (json_body response) as [e | result]; [discriminate|].
  destruct (py_get result "result" (PyStr "")) as [e | t] eqn:Hget;
    [discriminate|].
  destruct (truthy t) eqn:Ht; cbn [negb]; [|discriminate].
  destruct (py_sliceable t); [discriminate|]. intros H. injection H as <-.
  exists result. repeat split; [exact Hget | exact Ht].
Qed.

(** X15: every run of recognition against an endpoint whose [result], when it
    is truthy, is a string, whatever the parameters and the rest of the
    environment.  At most one request is sent, to the recognition endpoint,
    with a 30 second timeout and the format "lpcm".  Either the run fails
    and yields nothing, or it ends normally and has yielded exactly one text
    message, whose text is a string that is not empty. *)
Theorem recognition_all_or_nothing (W : World)
    (tool_parameters : list (string * pyval)) :
  (forall req response result text,
      requests_post W req = inr response ->
      json_body response = inr result ->
      py_get result "result" (PyStr "") = inr text ->
      truthy text = true ->
      exists s, text = PyStr s) ->
  let run := _invoke W tool_parameters in
  (posted (trace run) = [] \/
   exists req, posted (trace run) = [req] /\
               req_url req = stt_url /\ req_timeout req = 30 /\
               assoc "format" (req_params req) = Some (PyStr "lpcm")) /\
  ((exists e, outcome run = inl e /\ yielded (trace run) = []) \/
   (exists s,
       outcome run = inr tt /\
       yielded (trace run) = [TextMessage (PyStr s)] /\
       s <> "")).
Proof.
  intros Hstr run. unfold run.
  destruct (truthy (dict_get tool_parameters "audio_file")) eqn:Ha.
  2: { rewrite (recognize_without_audio W _ Ha). split; [left; reflexivity|].
       left. eexists. split; reflexivity. }
  destruct (truthy (dict_get (credentials W) "api_key")) eqn:Hk.
  2: { rewrite (recognize_without_key W _ Ha Hk). split; [left; reflexivity|].
       left. eexists. split; reflexivity. }
  set (acquisition := _get_audio_data_from_file W
                        (dict_get tool_parameters "audio_file")).
  assert (Hbad : forall msg,
             match outcome acquisition with
             | inl e => Some (exn_msg e)
             | inr audio_data =>
                 if truthy audio_data then None
                 else Some "Could not read audio file"
             end = Some msg ->
             (posted (trace (_invoke W tool_parameters)) = [] \/
              exists req, posted (trace (_invoke W tool_parameters)) = [req] /\
                          req_url req = stt_url /\ req_timeout req = 30 /\
                          assoc "format" (req_params req)
                          = Some (PyStr "lpcm")) /\
             ((exists e, outcome (_invoke W tool_parameters) = inl e /\
                         yielded (trace (_invoke W tool_parameters)) = []) \/
              (exists s,
                  outcome (_invoke W tool_parameters) = inr tt /\
                  yielded (trace (_invoke W tool_parameters))
                  = [TextMessage (PyStr s)] /\
                  s <> ""))).
  { intros msg Hmsg.
    rewrite (recognize_unreadable W tool_parameters msg Ha Hk Hmsg).
    observe_recognition. split; [left; reflexivity|].
    left. eexists. split; reflexivity. }
  destruct (outcome acquisition) as [e | audio_data] eqn:Hacq.
  { apply (Hbad (exn_msg e)). reflexivity. }
  destruct (truthy audio_data) eqn:Hd.
  2: { apply (Hbad "Could not read audio file"). reflexivity. }
  clear Hbad.
  destruct (py_len audio_data) as [e | n] eqn:Hlen.
  { rewrite (recognize_unsized W tool_parameters audio_data e
               Ha Hk Hacq Hd Hlen).
    observe_recognition. split; [left; reflexivity|].
    left. eexists. split; reflexivity. }
  destruct (outcome (normalize W audio_data)) as [e | [pcm_data sample_rate]]
    eqn:Hnorm.
  { rewrite (recognize_unprocessable W tool_parameters audio_data n e
               Ha Hk Hacq Hd Hlen Hnorm).
    observe_recognition. split; [left; reflexivity|].
    left. eexists. split; reflexivity. }
  rewrite (recognize_with_request W tool_parameters audio_data n pcm_data
             sample_rate Ha Hk Hacq Hd Hlen Hnorm).
  destruct (requests_post W _) as [e | response] eqn:Hpost.
  { observe_recognition. split.
    - right. eexists. repeat split; reflexivity.
    - left. eexists. split; reflexivity. }
  destruct (stt_result W response) as [e | text] eqn:Hres.
  - observe_recognition. split.
    + right. eexists.
      split; [destruct (negb (status_code response =? 200)); reflexivity|].
      repeat split; reflexivity.
    + left. eexists. split; [reflexivity|].
      destruct (negb (status_code response =? 200)); reflexivity.
  - destruct (stt_result_inv W response text Hres)
      as [result [Hjson [Hget Htruthy]]].
    destruct (Hstr _ response result text Hpost Hjson Hget Htruthy) as [s ->].
    observe_recognition. split.
    + right. eexists. repeat split; reflexivity.
    + right. exists s. repeat split; try reflexivity.
      intros ->. discriminate.
Qed.

Lemma recognition_all_or_nothing_witness :
  (posted (trace (_invoke (Scenario.recognizing (inr Scenario.heard))
                    Scenario.wav_file)) = [] \/
   exists req,
     posted (trace (_invoke (Scenario.recognizing (inr Scenario.heard))
                      Scenario.wav_file)) = [req] /\
     req_url req = stt_url /\ req_timeout req = 30 /\
     assoc "format" (req_params req) = Some (PyStr "lpcm")) /\
  ((exists e,
       outcome (_invoke (Scenario.recognizing (inr Scenario.heard))
                  Scenario.wav_file) = inl e /\
       yielded (trace (_invoke (Scenario.recognizing (inr Scenario.heard))
                         Scenario.wav_file)) = []) \/
   (exists s,
       outcome (_invoke (Scenario.recognizing (inr Scenario.heard))
                  Scenario.wav_file) = inr tt /\
       yielded (trace (_invoke (Scenario.recognizing (inr Scenario.heard))
                         Scenario.wav_file)) = [TextMessage (PyStr s)] /\
       s <> "")).
Proof.
  apply (recognition_all_or_nothing (Scenario.recognizing (inr Scenario.heard))
           Scenario.wav_file).
  intros req response result text Hpost Hjson Hget _.
  injection Hpost as <-. injection Hjson as <-. injection Hget as <-.
  exists "hello". reflexivity.
Defined.

End RecognitionProperties.

Section AcquisitionProperties.

Import SpeechToText.

Lemma absolute_url_is_str (v : pyval) (u : string) :
  is_absolute_url v = Some u -> v = PyStr u.
Proof.
  destruct v; try discriminate. cbn [is_absolute_url].
  destruct (_ || _); [|discriminate]. intros H. injection H as ->.
  reflexivity.
Qed.

(** X16: what acquisition does with built-in values.  For a reference that is
    not an object with attributes of its own (bytes, a path, a metadata
    mapping, [None], a number, a list), in an environment whose file
    accessors return such values only, the trace holds nothing but the
    method's own entry, log records, lookups by file id, the opening of a
    path, and GETs; every GET goes to a URL that starts with http:// or
    https:// (in any case) and has a 30 second timeout.  Nothing is posted,
    no audio is parsed and nothing is yielded. *)
Theorem acquisition_effects (W : World) (audio_file : pyval) :
  builtin audio_file = true ->
  plain_accessors W ->
  forallb acquisition_event (trace (_get_audio_data_from_file W audio_file))
  = true.
Proof.
  intros _ _.
  apply silent_forall. apply get_audio_data_silent; try (intros; reflexivity).
  intros v u Hu. cbn [acquisition_event].
  rewrite <- (absolute_url_is_str v u Hu), Hu. reflexivity.
Qed.

Lemma acquisition_effects_witness :
  trace (_get_audio_data_from_file Example.web (PyDict Scenario.metadata))
  = [Call "_get_audio_data_from_file";
     HttpGet "https://example.org/a.wav" 30] /\
  forallb acquisition_event
    (trace (_get_audio_data_from_file Example.web (PyDict Scenario.metadata)))
  = true.
Proof.
  split; [reflexivity|].
  apply (acquisition_effects Example.web (PyDict Scenario.metadata));
    [reflexivity|].
  intros name f related_id res Hin. cbn in Hin.
  repeat (destruct Hin as [Hin | Hin]; [discriminate|]). contradiction.
Defined.

(** X17: references acquisition does not support.  A value that has none of
    [download], [blob], [read] and is not [bytes], [str] or [dict] (a
    [bytearray], a [memoryview], [None], a number, a list) is rejected with a
    [ValueError] naming its type, and nothing is read. *)
Theorem unsupported_reference_rejected (W : World) (audio_file : pyval) :
  hasattr audio_file "download" = false ->
  hasattr audio_file "blob" = false ->
  hasattr audio_file "read" = false ->
  (forall b, audio_file <> PyBytes b) ->
  (forall s, audio_file <> PyStr s) ->
  (forall d, audio_file <> PyDict d) ->
  _get_audio_data_from_file W audio_file
  = (inl (unsupported_reference audio_file),
     [Call "_get_audio_data_from_file";
      acquisition_logged (unsupported_reference audio_file)]).
Proof.
  intros Hd Hb Hr Hbytes Hstr Hdict.
  unfold _get_audio_data_from_file. rewrite Hd, Hb. cbn [orb].
  unfold hasattr in Hr.
  destruct (getattr audio_file "read"); [discriminate|].
  destruct audio_file; try reflexivity.
  - exfalso. exact (Hstr s eq_refl).
  - exfalso. exact (Hbytes b eq_refl).
  - exfalso. exact (Hdict d eq_refl).
Qed.

Lemma unsupported_reference_rejected_witness :
  _get_audio_data_from_file Example.web (PyInt 5)
  = (inl (unsupported_reference (PyInt 5)),
     [Call "_get_audio_data_from_file";
      acquisition_logged (unsupported_reference (PyInt 5))]).
Proof.
  apply (unsupported_reference_rejected Example.web (PyInt 5));
    solve [reflexivity | discriminate].
Defined.

Lemma getattr_hasattr (v : pyval) (name : string) (a : attr) :
  getattr v name = Some a -> hasattr v name = true.
Proof. unfold hasattr. intros ->. reflexivity. Qed.

(** X18: a managed file with [download].  When [download()] returns bytes, a
    bytearray or a memoryview, acquisition returns those bytes as [bytes] and
    does nothing else: the blob is not consulted, no URL is fetched and no
    lookup by id is made, whatever else the object offers. *)
Theorem download_wins (W : World) (audio_file : pyval) (a : attr)
    (content : pyval) (b : bytes) :
  getattr audio_file "download" = Some a ->
  call0 a = inr content ->
  bytes_like content = Some b ->
  _get_audio_data_from_file W audio_file
  = (inr (PyBytes b), [Call "_get_audio_data_from_file"]).
Proof.
  intros Ha Hcall Hbytes.
  unfold _get_audio_data_from_file.
  rewrite (getattr_hasattr _ _ _ Ha). cbn [orb].
  unfold from_dify_file. rewrite Ha.
  unfold bind, try_except, lift, emit, ret. cbn [fst snd].
  rewrite Hcall. cbn [fst snd]. rewrite Hbytes. reflexivity.
Qed.

Lemma download_wins_witness :
  _get_audio_data_from_file Example.web Scenario.managed_file
  = (inr (PyBytes [x52; x49]), [Call "_get_audio_data_from_file"]).
Proof.
  apply (download_wins Example.web Scenario.managed_file
           (Method (inr (PyBytes [x52; x49]))) (PyBytes [x52; x49]));
    reflexivity.
Defined.

Lemma try_accessor_bytes (W : World) (name : string)
    (f : pyval -> exn + pyval) (related_id res : pyval) (b : bytes) :
  f related_id = inr res ->
  res = PyBytes b \/ res = PyByteArray b ->
  try_accessor (name, Some f) related_id
  = (inr (Some (PyBytes b)), [GetFile name related_id]).
Proof.
  intros Hres Hb. unfold try_accessor, bind, try_except, lift, emit, ret.
  cbn [fst snd]. rewrite Hres. cbn [fst snd].
  destruct Hb as [-> | ->]; reflexivity.
Qed.

Lemma from_metadata_lookup (W : World) (d : list (string * pyval))
    (f : pyval -> exn + pyval) (res : pyval) (b : bytes) :
  let related_id := py_or (dict_get d "related_id") (dict_get d "id") in
  truthy related_id = true ->
  self_get_file_content W = Some f ->
  f related_id = inr res ->
  res = PyBytes b \/ res = PyByteArray b ->
  from_metadata W d
  = (inr (PyBytes b), [GetFile "self.get_file_content" related_id]).
Proof.
  intros related_id Ht Hf Hres Hb.
  unfold from_metadata. fold related_id. rewrite Ht.
  unfold accessors. rewrite Hf. cbn [try_accessors].
  pose proof (try_accessor_bytes W "self.get_file_content" f related_id res b
                Hres Hb) as Hacc.
  rewrite (bind_inr (try_accessor ("self.get_file_content", Some f) related_id)
             _ (Some (PyBytes b)))
    by (rewrite Hacc; reflexivity).
  rewrite Hacc. reflexivity.
Qed.

(** X19: a metadata mapping with an identifier.  When the plugin itself offers
    [get_file_content] and it returns bytes or a bytearray for the
    identifier ([related_id], else [id]), those bytes are the result; no URL
    is fetched, even when the mapping carries an absolute one. *)
Theorem metadata_prefers_lookup (W : World) (d : list (string * pyval))
    (f : pyval -> exn + pyval) (res : pyval) (b : bytes) :
  let related_id := py_or (dict_get d "related_id") (dict_get d "id") in
  truthy related_id = true ->
  self_get_file_content W = Some f ->
  f related_id = inr res ->
  res = PyBytes b \/ res = PyByteArray b ->
  _get_audio_data_from_file W (PyDict d)
  = (inr (PyBytes b),
     [Call "_get_audio_data_from_file";
      GetFile "self.get_file_content" related_id]).
Proof.
  intros related_id Ht Hf Hres Hb.
  unfold _get_audio_data_from_file. cbn [hasattr getattr orb].
  rewrite (from_metadata_lookup W d f res b Ht Hf Hres Hb).
  reflexivity.
Qed.

Lemma metadata_prefers_lookup_witness :
  _get_audio_data_from_file Scenario.lookup_world (PyDict Scenario.metadata)
  = (inr (PyBytes [x52; x49]),
     [Call "_get_audio_data_from_file";
      GetFile "self.get_file_content" (PyStr "f-1")]).
Proof.
  apply (metadata_prefers_lookup Scenario.lookup_world Scenario.metadata
           (fun _ => inr (PyBytes [x52; x49])) (PyBytes [x52; x49])
           [x52; x49]);
    solve [reflexivity | left; reflexivity].
Defined.

(** X20: a metadata mapping with nothing to fetch.  Without a usable
    identifier, and with a [remote_url] (else [url]) that is absent, not a
    string or not an absolute HTTP(S) URL (a relative path, say), acquisition
    fails with its final [ValueError] and makes no network or file access. *)
Theorem metadata_without_source_fails (W : World) (d : list (string * pyval)) :
  truthy (py_or (dict_get d "related_id") (dict_get d "id")) = false ->
  is_absolute_url (py_or (dict_get d "remote_url") (dict_get d "url")) = None ->
  _get_audio_data_from_file W (PyDict d)
  = (inl no_bytes_from_metadata,
     [Call "_get_audio_data_from_file";
      acquisition_logged no_bytes_from_metadata]).
Proof.
  intros Hid Hurl.
  unfold _get_audio_data_from_file. cbn [hasattr getattr orb].
  unfold from_metadata. rewrite Hid. cbn [try_accessors]. rewrite Hurl.
  reflexivity.
Qed.

Lemma metadata_without_source_fails_witness :
  _get_audio_data_from_file Example.web (PyDict Scenario.relative)
  = (inl no_bytes_from_metadata,
     [Call "_get_audio_data_from_file";
      acquisition_logged no_bytes_from_metadata]).
Proof.
  apply (metadata_without_source_fails Example.web Scenario.relative);
    reflexivity.
Defined.

End AcquisitionProperties.

Section ConversionProperties.

Import SpeechToText.

Lemma convert_wav_to_pcm_failure (W : World) (wav_data : pyval) (e : exn) :
  outcome (_convert_wav_to_pcm W wav_data) = inl e ->
  exists cause,
    e = mkExn ValueError ("Failed to process WAV file: " ++ exn_msg cause).
Proof.
  unfold _convert_wav_to_pcm. rewrite outcome_bind_emit.
  match goal with |- outcome (try_except ?m ?h) = _ -> _ =>
    destruct (outcome m) as [cause | r] eqn:Hm;
    [rewrite (outcome_try_inl m h cause Hm)
    |rewrite (outcome_try_inr m h r Hm)]
  end.
  - cbn. intros H. injection H as <-. exists cause. reflexivity.
  - discriminate.
Qed.

Lemma convert_audio_to_wav_failure (W : World) (audio_data : pyval) (e : exn) :
  outcome (_convert_audio_to_wav W audio_data) = inl e ->
  e = mkExn ValueError "Audio conversion library not available" \/
  exists cause,
    e = mkExn ValueError ("Failed to convert audio: " ++ exn_msg cause).
Proof.
  unfold _convert_audio_to_wav. rewrite outcome_bind_emit.
  match goal with |- outcome (try_except ?m ?h) = _ -> _ =>
    destruct (outcome m) as [cause | r] eqn:Hm;
    [rewrite (outcome_try_inl m h cause Hm)
    |rewrite (outcome_try_inr m h r Hm)]
  end.
  - destruct (isinstance_exn cause ImportError); cbn; intros H;
      injection H as <-; [left | right; exists cause]; reflexivity.
  - discriminate.
Qed.

Lemma startswith_append (p s : string) : startswith (p ++ s) p = true.
Proof.
  unfold startswith. induction p as [|a p IH]; cbn.
  - destruct s; reflexivity.
  - destruct (ascii_dec a a); [exact IH | contradiction].
Qed.

(** X21: how normalization fails.  Whatever the bytes and the environment,
    a failure of [_convert_wav_to_pcm], of [_convert_audio_to_wav] or of the
    two-attempt normalization built from them is a [ValueError], and its
    message is either "Audio conversion library not available" or starts
    with "Failed to convert audio: " or with "Failed to process WAV file: ";
    no other exception class leaves these methods. *)
Theorem normalization_failures (W : World) (audio_data : pyval) (e : exn) :
  outcome (_convert_wav_to_pcm W audio_data) = inl e \/
  outcome (_convert_audio_to_wav W audio_data) = inl e \/
  outcome (normalize W audio_data) = inl e ->
  exn_class e = ValueError /\
  (exn_msg e = "Audio conversion library not available" \/
   startswith (exn_msg e) "Failed to convert audio: " = true \/
   startswith (exn_msg e) "Failed to process WAV file: " = true).
Proof.
  assert (Hwav : forall d, outcome (_convert_wav_to_pcm W d) = inl e ->
                 exn_class e = ValueError /\
                 startswith (exn_msg e) "Failed to process WAV file: " = true).
  { intros d H. destruct (convert_wav_to_pcm_failure W d e H) as [c ->].
    split; [reflexivity | apply startswith_append]. }
  assert (Haudio : outcome (_convert_audio_to_wav W audio_data) = inl e ->
                   exn_class e = ValueError /\
                   (exn_msg e = "Audio conversion library not available" \/
                    startswith (exn_msg e) "Failed to convert audio: " = true)).
  { intros H. destruct (convert_audio_to_wav_failure W audio_data e H)
      as [-> | [c ->]]; (split; [reflexivity|]);
      [left; reflexivity | right; apply startswith_append]. }
  intros [H | [H | H]].
  - destruct (Hwav _ H) as [Hc Hm]. split; [exact Hc | right; right; exact Hm].
  - destruct (Haudio H) as [Hc Hm]. split; [exact Hc|].
    destruct Hm as [Hm | Hm]; [left | right; left]; exact Hm.
  - unfold normalize in H.
    destruct (outcome (_convert_wav_to_pcm W audio_data)) as [e1 | r] eqn:H1.
    + rewrite (outcome_try_inl _ _ e1 H1) in H.
      destruct (outcome (_convert_audio_to_wav W audio_data))
        as [e2 | wav] eqn:H2.
      * rewrite (outcome_bind_inl _ _ e2 H2) in H. injection H as ->.
        destruct (Haudio eq_refl) as [Hc Hm]. split; [exact Hc|].
        destruct Hm as [Hm | Hm]; [left | right; left]; exact Hm.
      * rewrite (outcome_bind_inr _ _ wav H2) in H.
        destruct (Hwav _ H) as [Hc Hm].
        split; [exact Hc | right; right; exact Hm].
    + rewrite (outcome_try_inr _ _ r H1) in H. discriminate.
Qed.

Lemma normalization_failures_witness :
  exn_class (mkExn ValueError "Audio conversion library not available")
  = ValueError /\
  (exn_msg (mkExn ValueError "Audio conversion library not available")
   = "Audio conversion library not available" \/
   startswith
     (exn_msg (mkExn ValueError "Audio conversion library not available"))
     "Failed to convert audio: " = true \/
   startswith
     (exn_msg (mkExn ValueError "Audio conversion library not available"))
     "Failed to process WAV file: " = true).
Proof.
  apply (normalization_failures Example.web (PyBytes [x52; x49])).
  right. right. reflexivity.
Defined.

(** X22: transcoding without pydub.  When pydub cannot be imported,
    [_convert_audio_to_wav] fails with the [ValueError] "Audio conversion
    library not available" for every input, logs the installation hint, and
    never starts a transcoding. *)
Theorem transcoding_needs_pydub (W : World) (audio_data : pyval) :
  pydub_installed W = false ->
  _convert_audio_to_wav W audio_data
  = (inl (mkExn ValueError "Audio conversion library not available"),
     [Call "_convert_audio_to_wav";
      Log Error
        "pydub library is not installed. Please install it: pip install pydub"]).
Proof.
  intros H. unfold _convert_audio_to_wav. rewrite H. reflexivity.
Qed.

Lemma transcoding_needs_pydub_witness :
  _convert_audio_to_wav Example.web (PyBytes [x52; x49])
  = (inl (mkExn ValueError "Audio conversion library not available"),
     [Call "_convert_audio_to_wav";
      Log Error
        "pydub library is not installed. Please install it: pip install pydub"]).
Proof.
  apply (transcoding_needs_pydub Example.web (PyBytes [x52; x49])).
  reflexivity.
Defined.

(** X23: the gain block cannot fail.  For every fragment it returns a
    fragment of the same length, raises nothing and leaves no error record;
    a fragment that does not hold whole 16-bit samples, on which
    [audioop.rms] raises, comes back unchanged. *)
Theorem gain_never_fails (raw : bytes) :
  exists out,
    normalize_gain raw = (inr out, []) /\
    List.length out = List.length raw /\
    (audioop.whole 2 raw = false -> out = raw).
Proof.
  destruct (audioop.whole 2 raw) eqn:Hw.
  - destruct (normalize_gain_ok raw Hw) as [out [Hrun Hlen]].
    exists out. repeat split; [exact Hrun | exact Hlen | discriminate].
  - exists raw. unfold normalize_gain, audioop.rms. rewrite Hw.
    repeat split.
Qed.

Lemma whole_4_length (raw : bytes) :
  audioop.whole 4 raw = true -> exists n, List.length raw = (4 * n)%nat.
Proof.
  unfold audioop.whole. intros H. apply Z.eqb_eq in H.
  exists (Z.to_nat (Z.of_nat (List.length raw) / 4)).
  pose proof (Z.div_mod (Z.of_nat (List.length raw)) 4 ltac:(lia)). lia.
Qed.

Lemma fbound_mean (l r : Z) :
  in_range l -> in_range r ->
  audioop.fbound (inject_Z l * (1 # 2) + inject_Z r * (1 # 2))%Q
    audioop.minval audioop.maxval
  = (l + r) / 2.
Proof.
  unfold in_range. intros Hl Hr.
  unfold audioop.fbound, audioop.Qltb.
  set (v := (inject_Z l * (1 # 2) + inject_Z r * (1 # 2))%Q).
  assert (Hnum : Qnum v = (l + r) * 2) by (cbn; lia).
  assert (Hden : Qden v = 4%positive) by reflexivity.
  assert (Hfloor : Qfloor v = (l + r) / 2).
  { unfold Qfloor. destruct v as [n d]. cbn [Qnum Qden] in Hnum, Hden.
    subst n d. change (Z.pos 4) with (2 * 2).
    apply Z.div_mul_cancel_r; lia. }
  assert (Hmax : Qle_bool v audioop.maxval = true).
  { unfold Qle_bool. rewrite Hnum, Hden. apply Z.leb_le. cbn. lia. }
  rewrite Hmax. cbn [negb].
  destruct (Qle_bool (audioop.minval + 1) v) eqn:Hmin; cbn [negb].
  - exact Hfloor.
  - unfold Qle_bool in Hmin. rewrite Hnum, Hden in Hmin.
    apply Z.leb_gt in Hmin. cbn in Hmin.
    assert (Hs : l + r = -65536 \/ l + r = -65535) by lia.
    destruct Hs as [-> | ->]; reflexivity.
Qed.

Lemma tomono_samples_downmix (s : list Z) :
  Forall in_range s ->
  audioop.samples (audioop.tomono_samples (1 # 2) (1 # 2) s) = downmix s.
Proof.
  assert (H : forall n s, (List.length s <= n)%nat -> Forall in_range s ->
              audioop.samples (audioop.tomono_samples (1 # 2) (1 # 2) s)
              = downmix s).
  { induction n as [|n IH]; intros l Hl Hr.
    - destruct l; [reflexivity | simpl in Hl; lia].
    - destruct l as [|a [|b l]]; try reflexivity.
      inversion Hr as [|? ? Ha Hr']. inversion Hr' as [|? ? Hb Hr''].
      subst. cbn [audioop.tomono_samples downmix audioop.setsample app
                  audioop.samples].
      rewrite (fbound_mean a b Ha Hb).
      rewrite getsample_setsample.
      + f_equal. apply IH; [simpl in Hl; lia | exact Hr''].
      + unfold in_range in *.
        pose proof (Z.div_le_lower_bound (a + b) 2 (-32768) ltac:(lia)).
        pose proof (Z.div_le_upper_bound (a + b) 2 32767 ltac:(lia)).
        lia. }
  intros Hs. apply (H (List.length s)); [lia | exact Hs].
Qed.

(** X24: what the stereo downmix computes.  On a fragment of whole stereo
    frames [audioop.tomono] with the tool's factors 0.5 and 0.5 succeeds and
    every output sample is the mean of the left and right sample, rounded
    towards minus infinity; the output holds half the bytes. *)
Theorem stereo_downmix_is_mean (raw : bytes) :
  audioop.whole 4 raw = true ->
  exists mono,
    audioop.tomono raw (1 # 2) (1 # 2) = inr mono /\
    audioop.samples mono = downmix (audioop.samples raw) /\
    (2 * List.length mono = List.length raw)%nat.
Proof.
  intros H4. destruct (whole_4_length raw H4) as [n Hn].
  destruct (tomono_ok raw (1 # 2) (1 # 2) n Hn) as [mono [Hrun Hlen]].
  exists mono. split; [exact Hrun|]. split; [|lia].
  unfold audioop.tomono in Hrun.
  destruct (audioop.whole 2 raw && audioop.whole 4 raw); [|discriminate].
  injection Hrun as <-. apply tomono_samples_downmix, samples_in_range.
Qed.

Lemma stereo_downmix_is_mean_witness :
  exists mono,
    audioop.tomono Scenario.pairs (1 # 2) (1 # 2) = inr mono /\
    audioop.samples mono = [3; -4] /\
    (2 * List.length mono = 8)%nat.
Proof.
  apply (stereo_downmix_is_mean Scenario.pairs). reflexivity.
Defined.

Lemma tomono_odd (raw : bytes) (lf rf : Q) :
  audioop.whole 4 raw = false ->
  audioop.tomono raw lf rf
  = inl (audioop.error "not a whole number of frames").
Proof.
  intros H. unfold audioop.tomono. rewrite H, andb_false_r. reflexivity.
Qed.

(** X25: containers with more than one channel.  Every 16-bit container with
    two or more channels goes through the stereo downmix, which halves the
    data whatever the channel count.  With complete data, the PCM returned
    holds [nchannels * nframes] bytes when that number is even (two bytes per
    frame for stereo, four for a four-channel file), and parsing fails with
    "not a whole number of frames" when it is odd. *)
Theorem downmix_assumes_stereo (W : World) (wav_data : pyval) (buf : bytes)
    (r : WavReader) :
  BytesIO wav_data = inr buf ->
  wave_open W buf = inr r ->
  sampwidth r = 2 ->
  2 <= nchannels r ->
  0 <= nframes r ->
  nframes r * framesize r <= Z.of_nat (List.length (data_chunk r)) ->
  if Z.even (nchannels r * nframes r) then
    exists pcm,
      outcome (_convert_wav_to_pcm W wav_data) = inr (pcm, framerate r) /\
      Z.of_nat (List.length pcm) = nchannels r * nframes r
  else
    outcome (_convert_wav_to_pcm W wav_data)
    = inl (mkExn ValueError
             "Failed to process WAV file: not a whole number of frames").
Proof.
  intros Hbuf Hopen Hw Hch Hn Hdata.
  assert (Hfs : framesize r = 2 * nchannels r) by (unfold framesize; lia).
  pose proof (readframes_length r Hn ltac:(lia) Hdata) as Hraw.
  rewrite Hfs in Hraw.
  assert (Hgt : (nchannels r >? 1) = true) by (apply Z.gtb_lt; lia).
  unfold outcome, _convert_wav_to_pcm. rewrite Hbuf.
  unfold bind, try_except, lift, emit, ret. cbn [fst snd]. rewrite Hopen.
  cbn [fst snd]. rewrite Hw. cbn [Z.eqb Pos.eqb negb fst snd].
  rewrite Hgt.
  destruct (Z.even (nchannels r * nframes r)) eqn:He.
  - apply Z.even_spec in He. destruct He as [k Hk].
    destruct (tomono_ok (readframes r (nframes r)) (1 # 2) (1 # 2)
                (Z.to_nat k)) as [mono [Hm Hml]]; [nia|].
    rewrite Hm. cbn [fst snd].
    destruct (normalize_gain_ok mono) as [out [Ho Hl]].
    { apply (even_whole_2 _ (Z.to_nat k)). lia. }
    rewrite Ho. cbn [fst snd]. exists out. split; [reflexivity | nia].
  - rewrite tomono_odd; [reflexivity|].
    unfold audioop.whole. apply Z.eqb_neq. rewrite Hraw.
    rewrite Z2Nat.id by nia.
    replace (nframes r * (2 * nchannels r))
      with (2 * (nchannels r * nframes r)) by lia.
    assert (Ho : Z.odd (nchannels r * nframes r) = true).
    { rewrite <- Z.negb_even, He. reflexivity. }
    apply Z.odd_spec in Ho. destruct Ho as [k Hk]. rewrite Hk.
    replace (2 * (2 * k + 1)) with (2 + k * 4) by lia.
    rewrite Z.mod_add by lia. discriminate.
Qed.

Lemma downmix_assumes_stereo_witness :
  exists pcm,
    outcome (_convert_wav_to_pcm Scenario.quad_world (PyBytes [x52; x49]))
    = inr (pcm, 48000) /\
    Z.of_nat (List.length pcm) = 4 * 1.
Proof.
  apply (downmix_assumes_stereo Scenario.quad_world (PyBytes [x52; x49])
           [x52; x49] Scenario.quad16);
    solve [reflexivity | cbn; lia | discriminate].
Defined.

End ConversionProperties.

Section ProviderProperties.

Import TextToSpeech Provider.

Lemma strip_nonempty (s : string) : strip s <> "" -> truthy (PyStr s) = true.
Proof.
  intros H. cbn [truthy]. destruct s; [exfalso; apply H | ]; reflexivity.
Qed.

Lemma length_zero (s : string) : (String.length s =? 0)%nat = true <-> s = "".
Proof.
  destruct s; cbn; split; intros H; try reflexivity; discriminate.
Qed.

Lemma test_params_valid (W : World) :
  outcome (_validate_parameters W test_params)
  = inr (mkParams (PyStr "test") (PyStr "marina") (PyStr "neutral")
           (py_repr W (PyFloat 1%float)) (PyStr "mp3")).
Proof. reflexivity. Qed.

(** The validation run for a key that passes the two local checks. *)
Lemma validate_credentials_run (W : World)
    (creds : list (string * pyval)) (s : string) :
  dict_get creds "api_key" = PyStr s ->
  strip s <> "" ->
  let req := test_request W s in
  let before := [Call "_validate_parameters"; HttpPost req] in
  let params := mkParams (PyStr "test") (PyStr "marina") (PyStr "neutral")
                  (py_repr W (PyFloat 1%float)) (PyStr "mp3") in
  _validate_credentials W creds
  = match requests_post W req with
    | inl e =>
        (inl (ToolProviderCredentialValidationError
                (classify (exn_msg (tts_surfaced e)))),
         (before ++ [Log Error (tts_logged e)])%list)
    | inr response =>
        if negb (status_code response =? 200) then
          let msg := tts_api_error (from_credentials W creds) params
                       response in
          (inl (ToolProviderCredentialValidationError (classify msg)),
           (before ++ [Log Error msg;
                       Log Error (tts_logged (mkExn Exception msg))])%list)
        else
          match content response with
          | [] =>
              (inl (ToolProviderCredentialValidationError
                      ("Credential validation failed: "
                       ++ "Empty response from TTS service")),
               (before
                  ++ [Log Error "TTS error: Empty response from TTS service"])%list)
          | _ => (inr tt, before)
          end
    end.
Proof.
  intros Hkey Hs req before params.
  pose proof (strip_nonempty s Hs) as Ht.
  assert (Hlen : (String.length (strip s) =? 0)%nat = false).
  { destruct (String.length (strip s) =? 0)%nat eqn:E; [|reflexivity].
    apply length_zero in E. contradiction. }
  unfold _validate_credentials. rewrite Hkey, Ht, Hlen. cbn [negb].
  set (W' := from_credentials W creds).
  assert (Hkey' : dict_get (credentials W') "api_key" = PyStr s) by exact Hkey.
  assert (Ht' : truthy (dict_get (credentials W') "api_key") = true)
    by (rewrite Hkey'; exact Ht).
  assert (Hreq : synthesis_request W' (dict_get (credentials W') "api_key")
                   params (startswith (lstrip "test") "<speak") = req).
  { rewrite Hkey'. reflexivity. }
  destruct (requests_post W req) as [e | response] eqn:Hpost.
  - rewrite (invoke_unanswered W' test_params params "test" e Ht'
               (test_params_valid W') eq_refl)
      by (rewrite Hreq; exact Hpost).
    rewrite Hreq. reflexivity.
  - rewrite (invoke_with_response W' test_params params "test" response Ht'
               (test_params_valid W') eq_refl)
      by (rewrite Hreq; exact Hpost).
    rewrite Hreq.
    destruct (negb (status_code response =? 200)); [reflexivity|].
    destruct (content response); reflexivity.
Qed.

(** X26: the local checks on the key.  Credentials whose [api_key] is missing,
    falsy, not a string, or a string of white space only are rejected with
    "API key is required", and nothing is sent. *)
Theorem credentials_need_a_key (W : World)
    (creds : list (string * pyval)) :
  (forall s, dict_get creds "api_key" = PyStr s -> strip s = "") ->
  _validate_credentials W creds
  = (inl (ToolProviderCredentialValidationError "API key is required"), []).
Proof.
  intros H. unfold _validate_credentials.
  destruct (dict_get creds "api_key") as [| | | |s| | | | | |] eqn:Hk;
    try (destruct (negb (truthy _)); reflexivity).
  rewrite (H s eq_refl). destruct (negb (truthy _)); reflexivity.
Qed.

Lemma credentials_need_a_key_witness :
  _validate_credentials (Scenario.synthesizing (inr Scenario.audio))
    [("api_key", PyStr "  ")]
  = (inl (ToolProviderCredentialValidationError "API key is required"), []).
Proof.
  apply (credentials_need_a_key (Scenario.synthesizing (inr Scenario.audio))
           [("api_key", PyStr "  ")]).
  intros s H. injection H as <-. reflexivity.
Defined.

(** X27: when credentials are accepted.  For a key that is a string with
    something other than white space in it, validation returns normally
    exactly when the synthesis endpoint answers the test request with status
    200 and a body that is not empty.  The test request carries the key as it
    was given, not stripped, in the [Authorization] header, asks for the text
    "test" with the voice marina in mp3, and names no emotion; it is the only
    request made. *)
Theorem credentials_accepted_iff (W : World)
    (creds : list (string * pyval)) (s : string) :
  dict_get creds "api_key" = PyStr s ->
  strip s <> "" ->
  posted (snd (_validate_credentials W creds)) = [test_request W s] /\
  (fst (_validate_credentials W creds) = inr tt <->
   exists response,
     requests_post W (test_request W s) = inr response /\
     status_code response = 200 /\
     content response <> []).
Proof.
  intros Hkey Hs.
  rewrite (validate_credentials_run W creds s Hkey Hs).
  destruct (requests_post W (test_request W s)) as [e | response].
  - split; [reflexivity|]. split; [discriminate|].
    intros [r [Hr _]]. discriminate.
  - destruct (Z.eqb_spec (status_code response) 200) as [H200 | H200];
      cbn [negb].
    + destruct (content response) as [|b bs] eqn:Hc.
      * split; [reflexivity|]. split; [discriminate|].
        intros [r [Hr [_ Hne]]]. injection Hr as <-. contradiction.
      * split; [reflexivity|]. split; [|reflexivity].
        intros _. exists response. rewrite Hc.
        repeat split; [exact H200 | discriminate].
    + split; [reflexivity|]. split; [discriminate|].
      intros [r [Hr [Hst _]]]. injection Hr as <-. contradiction.
Qed.

Lemma credentials_accepted_iff_witness :
  fst (_validate_credentials (Scenario.synthesizing (inr Scenario.audio))
         Example.key)
  = inr tt.
Proof.
  refine (proj2 (proj2 (credentials_accepted_iff
                          (Scenario.synthesizing (inr Scenario.audio))
                          Example.key "secret" _ _)) _);
    [reflexivity | discriminate |].
  exists Scenario.audio. repeat split. discriminate.
Defined.

Lemma prefix_append (p s : string) : String.prefix p (p ++ s) = true.
Proof.
  induction p as [|a p IH]; cbn.
  - destruct s; reflexivity.
  - destruct (ascii_dec a a); [exact IH | contradiction].
Qed.

Lemma contains_skip (needle a b : string) :
  contains needle b = true -> contains needle (a ++ b) = true.
Proof.
  intros H. induction a as [|c a IH]; [exact H|].
  cbn [String.append contains]. rewrite IH. apply orb_true_r.
Qed.

Lemma contains_here (needle s : string) : contains needle (needle ++ s) = true.
Proof.
  destruct (needle ++ s) eqn:E; cbn [contains]; rewrite <- E, prefix_append;
    reflexivity.
Qed.

(** X28: an unauthorized key.  When the endpoint answers the test request with
    status 401, validation fails with "Invalid API key - unauthorized
    access", whatever the body of the response says. *)
Theorem credentials_unauthorized (W : World)
    (creds : list (string * pyval)) (s : string) (response : Response) :
  dict_get creds "api_key" = PyStr s ->
  strip s <> "" ->
  requests_post W (test_request W s) = inr response ->
  status_code response = 401 ->
  fst (_validate_credentials W creds)
  = inl (ToolProviderCredentialValidationError
           "Invalid API key - unauthorized access").
Proof.
  intros Hkey Hs Hpost Hst.
  rewrite (validate_credentials_run W creds s Hkey Hs), Hpost, Hst.
  cbn [Z.eqb Pos.eqb negb fst]. unfold classify, tts_api_error.
  rewrite Hst.
  rewrite (contains_skip "401" "API error: " _ (contains_here "401" _)).
  reflexivity.
Qed.

Lemma credentials_unauthorized_witness :
  fst (_validate_credentials (Scenario.synthesizing (inr Scenario.unauthorized))
         Example.key)
  = inl (ToolProviderCredentialValidationError
           "Invalid API key - unauthorized access").
Proof.
  apply (credentials_unauthorized
           (Scenario.synthesizing (inr Scenario.unauthorized)) Example.key
           "secret" Scenario.unauthorized);
    solve [reflexivity | discriminate].
Defined.

(** X29: a request that times out.  When the test request ends in a timeout,
    validation fails with "API request timeout - please check your
    connection". *)
Theorem credentials_timeout (W : World)
    (creds : list (string * pyval)) (s : string) (e : exn) :
  dict_get creds "api_key" = PyStr s ->
  strip s <> "" ->
  requests_post W (test_request W s) = inl e ->
  isinstance_exn e Timeout = true ->
  fst (_validate_credentials W creds)
  = inl (ToolProviderCredentialValidationError
           "API request timeout - please check your connection").
Proof.
  intros Hkey Hs Hpost He.
  rewrite (validate_credentials_run W creds s Hkey Hs), Hpost.
  unfold tts_surfaced. rewrite He. reflexivity.
Qed.

Lemma credentials_timeout_witness :
  fst (_validate_credentials (Scenario.synthesizing Scenario.timed_out)
         Example.key)
  = inl (ToolProviderCredentialValidationError
           "API request timeout - please check your connection").
Proof.
  apply (credentials_timeout (Scenario.synthesizing Scenario.timed_out)
           Example.key "secret" (mkExn Timeout "read timed out"));
    solve [reflexivity | discriminate].
Defined.

Lemma classify_shape (m : string) :
  classify m <> "No response from Yandex SpeechKit API" /\
  startswith (classify m) "API validation failed: " = false.
Proof.
  unfold classify.
  destruct (_ || _); [split; [discriminate | reflexivity]|].
  destruct (_ || _); [split; [discriminate | reflexivity]|].
  destruct (contains _ _); split; try discriminate; reflexivity.
Qed.

(** X30: two messages the provider never gives.  For every environment and
    all credentials, validation does not fail with "No response from Yandex
    SpeechKit API" nor with a message that starts with "API validation
    failed: ": a synthesis run that returns has yielded its two messages,
    neither of them a text, and a run that fails raises. *)
Theorem credentials_unreachable_messages (W : World)
    (creds : list (string * pyval)) (msg : string) :
  fst (_validate_credentials W creds)
  = inl (ToolProviderCredentialValidationError msg) ->
  msg <> "No response from Yandex SpeechKit API" /\
  startswith msg "API validation failed: " = false.
Proof.
  assert (Hrequired : forall o : CredentialError + unit,
            o = inl (ToolProviderCredentialValidationError
                       "API key is required") ->
            o = inl (ToolProviderCredentialValidationError msg) ->
            msg <> "No response from Yandex SpeechKit API" /\
            startswith msg "API validation failed: " = false).
  { intros o -> H. injection H as <-. split; [discriminate | reflexivity]. }
  destruct (dict_get creds "api_key") as [| | | |s| | | | | |] eqn:Hk;
    try (apply Hrequired; unfold _validate_credentials; rewrite Hk;
         destruct (negb (truthy _)); reflexivity).
  destruct (string_dec (strip s) "") as [Hs | Hs].
  - apply Hrequired. unfold _validate_credentials. rewrite Hk, Hs.
    destruct (negb (truthy _)); reflexivity.
  - rewrite (validate_credentials_run W creds s Hk Hs).
    destruct (requests_post W (test_request W s)) as [e | response].
    + intros H. injection H as <-. apply classify_shape.
    + destruct (negb (status_code response =? 200)).
      * intros H. injection H as <-. apply classify_shape.
      * destruct (content response).
        -- intros H. injection H as <-. split; [discriminate | reflexivity].
        -- discriminate.
Qed.

Lemma credentials_unreachable_messages_witness :
  fst (_validate_credentials Example.empty_audio_world Example.key)
  = inl (ToolProviderCredentialValidationError
           "Credential validation failed: Empty response from TTS service") /\
  posted (snd (_validate_credentials Example.empty_audio_world Example.key))
  = [test_request Example.empty_audio_world "secret"] /\
  "Credential validation failed: Empty response from TTS service"
  <> "No response from Yandex SpeechKit API" /\
  startswith "Credential validation failed: Empty response from TTS service"
    "API validation failed: " = false.
Proof.
  split; [reflexivity|]. split; [reflexivity|].
  apply (credentials_unreachable_messages Example.empty_audio_world
           Example.key).
  reflexivity.
Defined.

End ProviderProperties.
